(** * OpenOA schema metadata: requirement catalogue, resolver and plant metadata

    A shallow embedding of [openoa/schema/metadata.py].  Python dictionaries
    whose iteration order the code relies on (the catalogue, the per-analysis
    family tables, the column maps) are association lists in insertion order;
    the dictionaries the resolver returns, compared only by content, are
    [gmap]s, and Python sets are [gset]s.  Exceptions are values of [exn],
    and a call that may raise returns [exn + A]. *)

From Stdlib Require Import String Ascii.
From Stdlib Require QArith.
From stdpp Require Import base option list gmap sets strings.

Set Warnings "-register-all".

Local Open Scope string_scope.
Local Open Scope list_scope.

(** ** Python exceptions and the result monad *)

(** A pathlib path, by its text. *)
Record Path := mkPath { path_str : string }.

(** The exceptions the module raises; [FileExistsError] carries the format
    named in its message and the file, [AttributeError] the class and the
    names it lacks, and [HostError] stands for whatever [open] or a parser
    raises. *)
Inductive exn :=
| KeyError (key : string)
| ValueError (msg : string)
| TypeError (msg : string)
| AttributeError (cls : string) (names : list string)
| FileExistsError (format : string) (file : Path)
| HostError (msg : string).

Definition result (A : Type) : Type := exn + A.

Definition ret {A} (a : A) : result A := inr a.
Definition raise {A} (e : exn) : result A := inl e.
Definition bind {A B} (m : result A) (k : A → result B) : result B :=
  match m with
  | inl e => inl e
  | inr a => k a
  end.

Notation "'let!' x ':=' m 'in' k" := (bind m (fun x => k))
  (at level 10, x name, m at level 100, k at level 200).

(** ** Ordered dictionaries with string keys *)

(** [d.get(k)] *)
Fixpoint get {A} (d : list (string * A)) (k : string) : option A :=
  match d with
  | [] => None
  | (k', v) :: d' => if String.eqb k' k then Some v else get d' k
  end.

(** [d[k] = v] on an insertion-ordered dictionary: an existing key keeps its
    position, a new key goes last. *)
Fixpoint set_item {K A} (eqb : K → K → bool) (d : list (K * A)) (k : K) (v : A)
  : list (K * A) :=
  match d with
  | [] => [(k, v)]
  | (k', v') :: d' =>
      if eqb k' k then (k', v) :: d' else (k', v') :: set_item eqb d' k v
  end.

(** ** The analysis requirements catalogue *)

Definition _at_least_monthly : list string :=
  ["M"; "MS"; "W"; "D"; "H"; "T"; "min"; "S"; "L"; "ms"; "U"; "us"; "N"].
Definition _at_least_daily : list string :=
  ["D"; "H"; "T"; "min"; "S"; "L"; "ms"; "U"; "us"; "N"].
Definition _at_least_hourly : list string :=
  ["H"; "T"; "min"; "S"; "L"; "ms"; "U"; "us"; "N"].

(** One family entry of an analysis: the ["columns"], ["conditional_columns"]
    (empty when the key is absent) and ["freq"] items. *)
Record family_requirement := {
  columns : list string;
  conditional_columns : list (string * list string);
  freq : list string
}.

Definition analysis_requirement : Type := list (string * family_requirement).
Definition catalog : Type := list (string * analysis_requirement).

Definition ANALYSIS_REQUIREMENTS : catalog :=
  [ ("MonteCarloAEP",
      [ ("meter",
          {| columns := ["MMTR_SupWh"];
             conditional_columns := [];
             freq := _at_least_monthly |});
        ("curtail",
          {| columns := ["IAVL_DnWh"; "IAVL_ExtPwrDnWh"];
             conditional_columns := [];
             freq := _at_least_monthly |});
        ("reanalysis",
          {| columns := ["WMETR_HorWdSpd"; "WMETR_AirDen"];
             conditional_columns :=
               [ ("reg_temperature", ["WMETR_EnvTmp"]);
                 ("reg_wind_direction", ["WMETR_HorWdSpdU"; "WMETR_HorWdSpdV"]) ];
             freq := _at_least_monthly |}) ]);
    ("TurbineLongTermGrossEnergy",
      [ ("scada",
          {| columns := ["asset_id"; "WMET_HorWdSpd"; "WTUR_W"];
             conditional_columns := [];
             freq := _at_least_daily |});
        ("reanalysis",
          {| columns := ["WMETR_HorWdSpd"; "WMETR_HorWdDir"; "WMETR_AirDen"];
             conditional_columns := [];
             freq := _at_least_daily |}) ]);
    ("ElectricalLosses",
      [ ("scada",
          {| columns := ["asset_id"; "WTUR_W"];
             conditional_columns := [];
             freq := _at_least_daily |});
        ("meter",
          {| columns := ["MMTR_SupWh"];
             conditional_columns := [];
             freq := _at_least_monthly |}) ]);
    ("WakeLosses",
      [ ("scada",
          {| columns := ["asset_id"; "WMET_HorWdSpd"; "WMET_HorWdDir"; "WTUR_W"];
             conditional_columns := [];
             freq := _at_least_hourly |});
        ("reanalysis",
          {| columns := ["WMETR_HorWdSpd"; "WMETR_HorWdDir"];
             conditional_columns := [];
             freq := _at_least_hourly |}) ]) ].

(** ** determine_analysis_requirements *)

(** [{key: C[key] for key in analysis_type}]: the first name missing from the
    catalogue raises [KeyError]; a repeated name keeps its first position. *)
Fixpoint select_requirements (C : catalog) (analysis_type : list string)
  (acc : catalog) : result catalog :=
  match analysis_type with
  | [] => ret acc
  | key :: rest =>
      match get C key with
      | None => raise (KeyError key)
      | Some r => select_requirements C rest (set_item String.eqb acc key r)
      end
  end.

(** [r.get(cat, {}).get("columns", [])] *)
Definition columns_of (r : analysis_requirement) (cat : string) : list string :=
  match get r cat with
  | None => []
  | Some f => columns f
  end.

Definition categories : list string :=
  ["scada"; "meter"; "tower"; "curtail"; "reanalysis"; "asset"].

(** The two comprehensions of the column branch: one set per category, then
    the categories whose set is not empty. *)
Definition column_requirements (requirements : catalog)
  : gmap string (gset string) :=
  let column_requirements : list (string * gset string) :=
    map (fun cat =>
           (cat, list_to_set (concat (map (fun kr => columns_of kr.2 cat) requirements))))
        categories in
  list_to_map
    (List.filter (fun kv => negb (bool_decide (kv.2 = ∅))) column_requirements).

(** A value of the frequency dictionary while it is being filled: the list
    [[]] it is initialised with, or a set. *)
Inductive freq_entry :=
| EmptyList
| FreqSet (s : gset string).

(** [{key: {name: value["freq"] for name, value in values.items()} ...}] *)
Definition frequency_table (requirements : catalog)
  : list (string * list (string * list string)) :=
  map (fun kv => (kv.1, map (fun nv => (nv.1, freq nv.2)) kv.2)) requirements.

(** [{k: [] for k in set(chain.from_iterable([[*val] for val in ...values()]))}] *)
Definition frequency_seed (frequency : list (string * list (string * list string)))
  : gmap string freq_entry :=
  set_to_map (fun k => (k, EmptyList))
    (list_to_set (concat (map (fun kv => map fst kv.2) frequency)) : gset string).

(** The body of the inner loop. *)
Definition frequency_step (fr : gmap string freq_entry)
  (name : string) (req : list string) : result (gmap string freq_entry) :=
  match fr !! name with
  | None => raise (KeyError name)
  | Some EmptyList => ret (<[name := FreqSet (list_to_set req)]> fr)
  | Some (FreqSet reqs) => ret (<[name := FreqSet (reqs ∩ list_to_set req)]> fr)
  end.

(** [for name, req in vals.items()] *)
Fixpoint frequency_inner (fr : gmap string freq_entry)
  (vals : list (string * list string)) : result (gmap string freq_entry) :=
  match vals with
  | [] => ret fr
  | (name, req) :: vals' =>
      let! fr' := frequency_step fr name req in frequency_inner fr' vals'
  end.

(** [for vals in frequency.values()] *)
Fixpoint frequency_loop (fr : gmap string freq_entry)
  (frequency : list (string * list (string * list string)))
  : result (gmap string freq_entry) :=
  match frequency with
  | [] => ret fr
  | (_, vals) :: frequency' =>
      let! fr' := frequency_inner fr vals in frequency_loop fr' frequency'
  end.

(** The [analysis_type] argument, a string or a list of strings, and what the
    function returns for each [which]. *)
Inductive analysis_arg :=
| AStr (s : string)
| AList (l : list string).

Inductive requirements_result :=
| Columns (c : gmap string (gset string))
| Frequency (f : gmap string freq_entry)
| Both (c : gmap string (gset string)) (f : gmap string freq_entry).

(** The function, with the catalogue it reads as a parameter; the dictionary
    that [which] does not ask for is not computed. *)
Definition determine_analysis_requirements_in (C : catalog)
  (which : string) (analysis_type : analysis_arg) : result requirements_result :=
  let analysis_type :=
    match analysis_type with
    | AStr s => [s]
    | AList l => l
    end in
  let! requirements := select_requirements C analysis_type [] in
  let cols :=
    if bool_decide (which ∈ ["columns"; "both"])
    then column_requirements requirements
    else ∅ in
  let! fr := (if bool_decide (which ∈ ["frequency"; "both"])
        then
          let frequency := frequency_table requirements in
          frequency_loop (frequency_seed frequency) frequency
        else ret ∅) in
  if String.eqb which "both" then ret (Both cols fr)
  else if String.eqb which "columns" then ret (Columns cols)
  else if String.eqb which "frequency" then ret (Frequency fr)
  else raise (ValueError "`which` must be one of 'columns', 'frequency', or 'both'.").

Definition determine_analysis_requirements :=
  determine_analysis_requirements_in ANALYSIS_REQUIREMENTS.

(** ** Python values

    The objects a metadata mapping, or a parsed JSON or YAML document, is made
    of.  A dictionary keeps its items in insertion order and its keys are
    strings; numbers are rationals, an [int] being a number written with
    denominator 1 and a [float] a number written with any other denominator
    (the float 5.0 is 10 # 2). *)

Inductive value :=
| VNone
| VBool (b : bool)
| VNum (q : QArith_base.Q)
| VStr (s : string)
| VList (l : list value)
| VDict (d : list (string * value)).

Fixpoint substring_of (needle hay : string) : bool :=
  String.prefix needle hay ||
  match hay with
  | EmptyString => false
  | String _ hay' => substring_of needle hay'
  end.

Definition is_str (name : string) (v : value) : bool :=
  match v with
  | VStr s => String.eqb s name
  | _ => false
  end.

(** [name in data] *)
Definition contains (data : value) (name : string) : result bool :=
  match data with
  | VDict d => ret (bool_decide (is_Some (get d name)))
  | VStr s => ret (substring_of name s)
  | VList l => ret (existsb (is_str name) l)
  | _ => raise (TypeError "argument is not iterable")
  end.

(** [data[name]] *)
Definition getitem (data : value) (name : string) : result value :=
  match data with
  | VDict d =>
      match get d name with
      | Some v => ret v
      | None => raise (KeyError name)
      end
  | VStr _ | VList _ => raise (TypeError "indices must be integers")
  | _ => raise (TypeError "object is not subscriptable")
  end.

(** Hashing and equality of dictionary keys: lists and dictionaries cannot be
    keys; [True], [1] and [1.0] are one key. *)
Definition hashable (v : value) : bool :=
  match v with
  | VList _ | VDict _ => false
  | _ => true
  end.

Definition numeric (v : value) : option QArith_base.Q :=
  match v with
  | VBool b => Some (if b then QArith_base.Qmake 1 1 else QArith_base.Qmake 0 1)
  | VNum q => Some q
  | _ => None
  end.

Definition py_eqb (a b : value) : bool :=
  match a, b with
  | VNone, VNone => true
  | VStr s, VStr t => String.eqb s t
  | _, _ =>
      match numeric a, numeric b with
      | Some p, Some q => QArith_base.Qeq_bool p q
      | _, _ => false
      end
  end.

Fixpoint py_get {A} (d : list (value * A)) (k : value) : option A :=
  match d with
  | [] => None
  | (k', v) :: d' => if py_eqb k' k then Some v else py_get d' k
  end.

(** [{v: k for k, v in d.items()}] *)
Fixpoint reverse_items (items : list (string * value)) (acc : list (value * string))
  : result (list (value * string)) :=
  match items with
  | [] => ret acc
  | (k, v) :: items' =>
      if hashable v then reverse_items items' (set_item py_eqb acc v k)
      else raise (TypeError "unhashable type")
  end.

(** ** FromDictMixin *)

Record attribute := {
  a_name : string;
  a_init : bool;
  a_has_default : bool
}.

Definition attrib (name : string) : attribute :=
  {| a_name := name; a_init := true; a_has_default := true |}.
Definition fixed (name : string) (has_default : bool) : attribute :=
  {| a_name := name; a_init := false; a_has_default := has_default |}.

Fixpoint insert_sorted (x : string) (l : list string) : list string :=
  match l with
  | [] => [x]
  | y :: l' =>
      if String.eqb x y then l
      else if String.ltb x y then x :: l
      else y :: insert_sorted x l'
  end.

(** [sorted(set(l))] *)
Definition sorted_set (l : list string) : list string :=
  foldr insert_sorted [] l.

Module FromDictMixin.

(** The [kwargs] comprehension of [from_dict]. *)
Fixpoint select_kwargs (attrs : list attribute) (data : value)
  : result (list (string * value)) :=
  match attrs with
  | [] => ret []
  | a :: attrs' =>
      let! present := contains data (a_name a) in
      if present && a_init a then
        let! v := getitem data (a_name a) in
        let! kwargs := select_kwargs attrs' data in
        ret ((a_name a, v) :: kwargs)
      else select_kwargs attrs' data
  end.

(** [from_dict]; [cls] is the class called on the selected keyword
    arguments. *)
Definition from_dict {T} (cls_name : string) (attrs : list attribute)
  (cls : list (string * value) → result T) (data : value) : result T :=
  let! kwargs := select_kwargs attrs data in
  let required_inputs :=
    map a_name (List.filter (fun a => a_init a && negb (a_has_default a)) attrs) in
  let undefined :=
    sorted_set
      (List.filter (fun n => negb (bool_decide (is_Some (get kwargs n))))
         required_inputs) in
  match undefined with
  | [] => cls kwargs
  | _ => raise (AttributeError cls_name undefined)
  end.

End FromDictMixin.

(** A keyword argument of a generated [__init__], or its default. *)
Definition kwarg (kwargs : list (string * value)) (name : string) (dflt : value)
  : value :=
  match get kwargs name with
  | Some v => v
  | None => dflt
  end.

(** The first keyword of [kwargs] that is not a parameter of the [__init__]
    generated for [attrs], whose parameters are the attributes with
    [init=True]. *)
Definition unexpected_keyword (attrs : list attribute)
  (kwargs : list (string * value)) : option string :=
  head (List.filter
          (fun k => negb (existsb (fun a => a_init a && String.eqb (a_name a) k) attrs))
          (map fst kwargs)).

(** A call of a generated [__init__]: a keyword that names none of its
    parameters raises [TypeError] before [body] runs. *)
Definition call_init {T} (attrs : list attribute)
  (body : list (string * value) → result T) (kwargs : list (string * value))
  : result T :=
  match unexpected_keyword attrs kwargs with
  | Some k =>
      raise (TypeError
               (String.append "__init__() got an unexpected keyword argument '"
                  (String.append k "'")))
  | None => body kwargs
  end.

(** The types the [dtypes] tables name: [np.datetime64], [str], [float] and
    [np.int64]. *)
Inductive dtype :=
| np_datetime64
| py_str
| py_float
| np_int64.

(** The column map a table of defaults gives on the keyword arguments
    [kwargs]: each field with its keyword argument, or its default. *)
Definition defaulted (defaults : list (string * string))
  (kwargs : list (string * value)) : list (string * value) :=
  map (fun fd => (fd.1, kwarg kwargs fd.1 (VStr fd.2))) defaults.

(** ** The family metadata classes

    Each class is a record of its column-name fields, its [frequency] where
    it has one, its fixed [name] and the derived [col_map].  The fixed
    [dtypes] and [units] tables are constants of each class and are listed
    among its attributes only.  [__init__] is the initialiser that attrs
    generates: its parameters are the attributes with [init=True] and any
    other keyword raises [TypeError]; every field takes its keyword argument
    or its default, the derived fields are left unset (empty here), and
    [__attrs_post_init__] then fills them. *)

Module SCADAMetaData.

Definition attrs : list attribute :=
  [ attrib "time";
    attrib "asset_id";
    attrib "WTUR_W";
    attrib "WMET_HorWdSpd";
    attrib "WMET_HorWdDir";
    attrib "WTUR_TurSt";
    attrib "WROT_BlPthAngVal";
    attrib "WMET_EnvTmp";
    attrib "frequency";
    fixed "name" true;
    fixed "WTUR_SupWh" true;
    fixed "col_map" false;
    fixed "col_map_reversed" false;
    fixed "dtypes" true;
    fixed "units" true ].

Record t := {
  time : value;
  asset_id : value;
  WTUR_W : value;
  WMET_HorWdSpd : value;
  WMET_HorWdDir : value;
  WTUR_TurSt : value;
  WROT_BlPthAngVal : value;
  WMET_EnvTmp : value;
  frequency : value;
  name : string;
  WTUR_SupWh : value;
  col_map : list (string * value);
  col_map_reversed : list (value * string)
}.

Definition __attrs_post_init__ (self : t) : result t :=
  let col_map' :=
    [ ("time", time self);
      ("asset_id", asset_id self);
      ("WTUR_W", WTUR_W self);
      ("WMET_HorWdSpd", WMET_HorWdSpd self);
      ("WMET_HorWdDir", WMET_HorWdDir self);
      ("WTUR_TurSt", WTUR_TurSt self);
      ("WROT_BlPthAngVal", WROT_BlPthAngVal self);
      ("WMET_EnvTmp", WMET_EnvTmp self);
      ("WTUR_SupWh", WTUR_SupWh self) ] in
  let! col_map_reversed' := reverse_items col_map' [] in
  ret {| time := time self;
         asset_id := asset_id self;
         WTUR_W := WTUR_W self;
         WMET_HorWdSpd := WMET_HorWdSpd self;
         WMET_HorWdDir := WMET_HorWdDir self;
         WTUR_TurSt := WTUR_TurSt self;
         WROT_BlPthAngVal := WROT_BlPthAngVal self;
         WMET_EnvTmp := WMET_EnvTmp self;
         frequency := frequency self;
         name := name self;
         WTUR_SupWh := WTUR_SupWh self;
         col_map := col_map';
         col_map_reversed := col_map_reversed' |}.

Definition __init__ : list (string * value) → result t :=
  call_init attrs (fun kwargs =>
    __attrs_post_init__
      {| time := kwarg kwargs "time" (VStr "time");
         asset_id := kwarg kwargs "asset_id" (VStr "asset_id");
         WTUR_W := kwarg kwargs "WTUR_W" (VStr "WTUR_W");
         WMET_HorWdSpd := kwarg kwargs "WMET_HorWdSpd" (VStr "WMET_HorWdSpd");
         WMET_HorWdDir := kwarg kwargs "WMET_HorWdDir" (VStr "WMET_HorWdDir");
         WTUR_TurSt := kwarg kwargs "WTUR_TurSt" (VStr "WTUR_TurSt");
         WROT_BlPthAngVal := kwarg kwargs "WROT_BlPthAngVal" (VStr "WROT_BlPthAngVal");
         WMET_EnvTmp := kwarg kwargs "WMET_EnvTmp" (VStr "WMET_EnvTmp");
         frequency := kwarg kwargs "frequency" (VStr "10T");
         name := "scada";
         WTUR_SupWh := VStr "WTUR_SupWh";
         col_map := [];
         col_map_reversed := [] |}).

Definition from_dict : value → result t :=
  FromDictMixin.from_dict "SCADAMetaData" attrs __init__.

(** The default column name of each field that [__init__] takes. *)
Definition column_defaults : list (string * string) :=
  [ ("time", "time");
    ("asset_id", "asset_id");
    ("WTUR_W", "WTUR_W");
    ("WMET_HorWdSpd", "WMET_HorWdSpd");
    ("WMET_HorWdDir", "WMET_HorWdDir");
    ("WTUR_TurSt", "WTUR_TurSt");
    ("WROT_BlPthAngVal", "WROT_BlPthAngVal");
    ("WMET_EnvTmp", "WMET_EnvTmp") ].

(** The fixed [dtypes] and [units] attributes. *)
Definition dtypes (self : t) : list (string * dtype) :=
  [ ("time", np_datetime64);
    ("asset_id", py_str);
    ("WTUR_W", py_float);
    ("WMET_HorWdSpd", py_float);
    ("WMET_HorWdDir", py_float);
    ("WTUR_TurSt", py_str);
    ("WROT_BlPthAngVal", py_float);
    ("WMET_EnvTmp", py_float);
    ("WTUR_SupWh", py_float) ].

Definition units (self : t) : list (string * option string) :=
  [ ("time", Some "datetim64[ns]");
    ("asset_id", None);
    ("WTUR_W", Some "kW");
    ("WMET_HorWdSpd", Some "m/s");
    ("WMET_HorWdDir", Some "deg");
    ("WTUR_TurSt", None);
    ("WROT_BlPthAngVal", Some "deg");
    ("WMET_EnvTmp", Some "C");
    ("WTUR_SupWh", Some "kWh") ].

End SCADAMetaData.

Module MeterMetaData.

Definition attrs : list attribute :=
  [ attrib "time";
    attrib "MMTR_SupWh";
    attrib "frequency";
    fixed "name" true;
    fixed "col_map" false;
    fixed "dtypes" true;
    fixed "units" true ].

Record t := {
  time : value;
  MMTR_SupWh : value;
  frequency : value;
  name : string;
  col_map : list (string * value)
}.

Definition __attrs_post_init__ (self : t) : t :=
  {| time := time self;
     MMTR_SupWh := MMTR_SupWh self;
     frequency := frequency self;
     name := name self;
     col_map :=
    [ ("time", time self);
      ("MMTR_SupWh", MMTR_SupWh self) ] |}.

Definition __init__ : list (string * value) → result t :=
  call_init attrs (fun kwargs =>
    ret (__attrs_post_init__
      {| time := kwarg kwargs "time" (VStr "time");
         MMTR_SupWh := kwarg kwargs "MMTR_SupWh" (VStr "MMTR_SupWh");
         frequency := kwarg kwargs "frequency" (VStr "10T");
         name := "meter";
         col_map := [] |})).

Definition from_dict : value → result t :=
  FromDictMixin.from_dict "MeterMetaData" attrs __init__.

(** The default column name of each field that [__init__] takes. *)
Definition column_defaults : list (string * string) :=
  [ ("time", "time");
    ("MMTR_SupWh", "MMTR_SupWh") ].

(** The fixed [dtypes] and [units] attributes. *)
Definition dtypes (self : t) : list (string * dtype) :=
  [ ("time", np_datetime64);
    ("MMTR_SupWh", py_float) ].

Definition units (self : t) : list (string * option string) :=
  [ ("time", Some "datetim64[ns]");
    ("MMTR_SupWh", Some "kWh") ].

End MeterMetaData.

Module TowerMetaData.

Definition attrs : list attribute :=
  [ attrib "time";
    attrib "asset_id";
    attrib "frequency";
    fixed "name" true;
    fixed "col_map" false;
    fixed "dtypes" true;
    fixed "units" true ].

Record t := {
  time : value;
  asset_id : value;
  frequency : value;
  name : string;
  col_map : list (string * value)
}.

Definition __attrs_post_init__ (self : t) : t :=
  {| time := time self;
     asset_id := asset_id self;
     frequency := frequency self;
     name := name self;
     col_map :=
    [ ("time", time self);
      ("asset_id", asset_id self) ] |}.

Definition __init__ : list (string * value) → result t :=
  call_init attrs (fun kwargs =>
    ret (__attrs_post_init__
      {| time := kwarg kwargs "time" (VStr "time");
         asset_id := kwarg kwargs "asset_id" (VStr "asset_id");
         frequency := kwarg kwargs "frequency" (VStr "10T");
         name := "tower";
         col_map := [] |})).

Definition from_dict : value → result t :=
  FromDictMixin.from_dict "TowerMetaData" attrs __init__.

(** The default column name of each field that [__init__] takes. *)
Definition column_defaults : list (string * string) :=
  [ ("time", "time");
    ("asset_id", "asset_id") ].

(** The fixed [dtypes] and [units] attributes. *)
Definition dtypes (self : t) : list (string * dtype) :=
  [ ("time", np_datetime64);
    ("asset_id", py_str) ].

Definition units (self : t) : list (string * option string) :=
  [ ("time", Some "datetim64[ns]");
    ("asset_id", None) ].

End TowerMetaData.

Module StatusMetaData.

Definition attrs : list attribute :=
  [ attrib "time";
    attrib "asset_id";
    attrib "status_id";
    attrib "status_code";
    attrib "status_text";
    attrib "frequency";
    fixed "name" true;
    fixed "col_map" false;
    fixed "dtypes" true;
    fixed "units" true ].

Record t := {
  time : value;
  asset_id : value;
  status_id : value;
  status_code : value;
  status_text : value;
  frequency : value;
  name : string;
  col_map : list (string * value)
}.

Definition __attrs_post_init__ (self : t) : t :=
  {| time := time self;
     asset_id := asset_id self;
     status_id := status_id self;
     status_code := status_code self;
     status_text := status_text self;
     frequency := frequency self;
     name := name self;
     col_map :=
    [ ("time", time self);
      ("asset_id", asset_id self);
      ("status_id", status_id self);
      ("status_code", status_code self);
      ("status_text", status_text self) ] |}.

Definition __init__ : list (string * value) → result t :=
  call_init attrs (fun kwargs =>
    ret (__attrs_post_init__
      {| time := kwarg kwargs "time" (VStr "time");
         asset_id := kwarg kwargs "asset_id" (VStr "asset_id");
         status_id := kwarg kwargs "status_id" (VStr "status_id");
         status_code := kwarg kwargs "status_code" (VStr "status_code");
         status_text := kwarg kwargs "status_text" (VStr "status_text");
         frequency := kwarg kwargs "frequency" (VStr "10T");
         name := "status";
         col_map := [] |})).

Definition from_dict : value → result t :=
  FromDictMixin.from_dict "StatusMetaData" attrs __init__.

(** The default column name of each field that [__init__] takes. *)
Definition column_defaults : list (string * string) :=
  [ ("time", "time");
    ("asset_id", "asset_id");
    ("status_id", "status_id");
    ("status_code", "status_code");
    ("status_text", "status_text") ].

(** The fixed [dtypes] and [units] attributes. *)
Definition dtypes (self : t) : list (string * dtype) :=
  [ ("time", np_datetime64);
    ("asset_id", py_str);
    ("status_id", np_int64);
    ("status_code", np_int64);
    ("status_text", py_str) ].

Definition units (self : t) : list (string * option string) :=
  [ ("time", Some "datetim64[ns]");
    ("asset_id", None);
    ("status_id", None);
    ("status_code", None);
    ("status_text", None) ].

End StatusMetaData.

Module CurtailMetaData.

Definition attrs : list attribute :=
  [ attrib "time";
    attrib "IAVL_ExtPwrDnWh";
    attrib "IAVL_DnWh";
    attrib "frequency";
    fixed "name" true;
    fixed "col_map" false;
    fixed "dtypes" true;
    fixed "units" true ].

Record t := {
  time : value;
  IAVL_ExtPwrDnWh : value;
  IAVL_DnWh : value;
  frequency : value;
  name : string;
  col_map : list (string * value)
}.

Definition __attrs_post_init__ (self : t) : t :=
  {| time := time self;
     IAVL_ExtPwrDnWh := IAVL_ExtPwrDnWh self;
     IAVL_DnWh := IAVL_DnWh self;
     frequency := frequency self;
     name := name self;
     col_map :=
    [ ("time", time self);
      ("IAVL_ExtPwrDnWh", IAVL_ExtPwrDnWh self);
      ("IAVL_DnWh", IAVL_DnWh self) ] |}.

Definition __init__ : list (string * value) → result t :=
  call_init attrs (fun kwargs =>
    ret (__attrs_post_init__
      {| time := kwarg kwargs "time" (VStr "time");
         IAVL_ExtPwrDnWh := kwarg kwargs "IAVL_ExtPwrDnWh" (VStr "IAVL_ExtPwrDnWh");
         IAVL_DnWh := kwarg kwargs "IAVL_DnWh" (VStr "IAVL_DnWh");
         frequency := kwarg kwargs "frequency" (VStr "10T");
         name := "curtail";
         col_map := [] |})).

Definition from_dict : value → result t :=
  FromDictMixin.from_dict "CurtailMetaData" attrs __init__.

(** The default column name of each field that [__init__] takes. *)
Definition column_defaults : list (string * string) :=
  [ ("time", "time");
    ("IAVL_ExtPwrDnWh", "IAVL_ExtPwrDnWh");
    ("IAVL_DnWh", "IAVL_DnWh") ].

(** The fixed [dtypes] and [units] attributes. *)
Definition dtypes (self : t) : list (string * dtype) :=
  [ ("time", np_datetime64);
    ("IAVL_ExtPwrDnWh", py_float);
    ("IAVL_DnWh", py_float) ].

Definition units (self : t) : list (string * option string) :=
  [ ("time", Some "datetim64[ns]");
    ("IAVL_ExtPwrDnWh", Some "kWh");
    ("IAVL_DnWh", Some "kWh") ].

End CurtailMetaData.

Module AssetMetaData.

Definition attrs : list attribute :=
  [ attrib "asset_id";
    attrib "latitude";
    attrib "longitude";
    attrib "rated_power";
    attrib "hub_height";
    attrib "rotor_diameter";
    attrib "elevation";
    attrib "type";
    fixed "name" true;
    fixed "col_map" false;
    fixed "dtypes" true;
    fixed "units" true ].

Record t := {
  asset_id : value;
  latitude : value;
  longitude : value;
  rated_power : value;
  hub_height : value;
  rotor_diameter : value;
  elevation : value;
  type : value;
  name : string;
  col_map : list (string * value)
}.

Definition __attrs_post_init__ (self : t) : t :=
  {| asset_id := asset_id self;
     latitude := latitude self;
     longitude := longitude self;
     rated_power := rated_power self;
     hub_height := hub_height self;
     rotor_diameter := rotor_diameter self;
     elevation := elevation self;
     type := type self;
     name := name self;
     col_map :=
    [ ("asset_id", asset_id self);
      ("latitude", latitude self);
      ("longitude", longitude self);
      ("rated_power", rated_power self);
      ("hub_height", hub_height self);
      ("rotor_diameter", rotor_diameter self);
      ("elevation", elevation self);
      ("type", type self) ] |}.

Definition __init__ : list (string * value) → result t :=
  call_init attrs (fun kwargs =>
    ret (__attrs_post_init__
      {| asset_id := kwarg kwargs "asset_id" (VStr "asset_id");
         latitude := kwarg kwargs "latitude" (VStr "latitude");
         longitude := kwarg kwargs "longitude" (VStr "longitude");
         rated_power := kwarg kwargs "rated_power" (VStr "rated_power");
         hub_height := kwarg kwargs "hub_height" (VStr "hub_height");
         rotor_diameter := kwarg kwargs "rotor_diameter" (VStr "rotor_diameter");
         elevation := kwarg kwargs "elevation" (VStr "elevation");
         type := kwarg kwargs "type" (VStr "type");
         name := "asset";
         col_map := [] |})).

Definition from_dict : value → result t :=
  FromDictMixin.from_dict "AssetMetaData" attrs __init__.

(** The default column name of each field that [__init__] takes. *)
Definition column_defaults : list (string * string) :=
  [ ("asset_id", "asset_id");
    ("latitude", "latitude");
    ("longitude", "longitude");
    ("rated_power", "rated_power");
    ("hub_height", "hub_height");
    ("rotor_diameter", "rotor_diameter");
    ("elevation", "elevation");
    ("type", "type") ].

(** The fixed [dtypes] and [units] attributes. *)
Definition dtypes (self : t) : list (string * dtype) :=
  [ ("asset_id", py_str);
    ("latitude", py_float);
    ("longitude", py_float);
    ("rated_power", py_float);
    ("hub_height", py_float);
    ("rotor_diameter", py_float);
    ("elevation", py_float);
    ("type", py_str) ].

Definition units (self : t) : list (string * option string) :=
  [ ("asset_id", None);
    ("latitude", Some "WGS84");
    ("longitude", Some "WGS84");
    ("rated_power", Some "kW");
    ("hub_height", Some "m");
    ("rotor_diameter", Some "m");
    ("elevation", Some "m");
    ("type", None) ].

End AssetMetaData.

Module ReanalysisMetaData.

Definition attrs : list attribute :=
  [ attrib "time";
    attrib "WMETR_HorWdSpd";
    attrib "WMETR_HorWdSpdU";
    attrib "WMETR_HorWdSpdV";
    attrib "WMETR_HorWdDir";
    attrib "WMETR_EnvTmp";
    attrib "WMETR_AirDen";
    attrib "WMETR_EnvPres";
    attrib "frequency";
    fixed "name" true;
    fixed "col_map" false;
    fixed "dtypes" true;
    fixed "units" true ].

Record t := {
  time : value;
  WMETR_HorWdSpd : value;
  WMETR_HorWdSpdU : value;
  WMETR_HorWdSpdV : value;
  WMETR_HorWdDir : value;
  WMETR_EnvTmp : value;
  WMETR_AirDen : value;
  WMETR_EnvPres : value;
  frequency : value;
  name : string;
  col_map : list (string * value)
}.

Definition __attrs_post_init__ (self : t) : t :=
  {| time := time self;
     WMETR_HorWdSpd := WMETR_HorWdSpd self;
     WMETR_HorWdSpdU := WMETR_HorWdSpdU self;
     WMETR_HorWdSpdV := WMETR_HorWdSpdV self;
     WMETR_HorWdDir := WMETR_HorWdDir self;
     WMETR_EnvTmp := WMETR_EnvTmp self;
     WMETR_AirDen := WMETR_AirDen self;
     WMETR_EnvPres := WMETR_EnvPres self;
     frequency := frequency self;
     name := name self;
     col_map :=
    [ ("time", time self);
      ("WMETR_HorWdSpd", WMETR_HorWdSpd self);
      ("WMETR_HorWdSpdU", WMETR_HorWdSpdU self);
      ("WMETR_HorWdSpdV", WMETR_HorWdSpdV self);
      ("WMETR_HorWdDir", WMETR_HorWdDir self);
      ("WMETR_EnvTmp", WMETR_EnvTmp self);
      ("WMETR_AirDen", WMETR_AirDen self);
      ("WMETR_EnvPres", WMETR_EnvPres self) ] |}.

Definition __init__ : list (string * value) → result t :=
  call_init attrs (fun kwargs =>
    ret (__attrs_post_init__
      {| time := kwarg kwargs "time" (VStr "time");
         WMETR_HorWdSpd := kwarg kwargs "WMETR_HorWdSpd" (VStr "WMETR_HorWdSpd");
         WMETR_HorWdSpdU := kwarg kwargs "WMETR_HorWdSpdU" (VStr "WMETR_HorWdSpdU");
         WMETR_HorWdSpdV := kwarg kwargs "WMETR_HorWdSpdV" (VStr "WMETR_HorWdSpdV");
         WMETR_HorWdDir := kwarg kwargs "WMETR_HorWdDir" (VStr "WMETR_HorWdDir");
         WMETR_EnvTmp := kwarg kwargs "WMETR_EnvTmp" (VStr "WMETR_EnvTmp");
         WMETR_AirDen := kwarg kwargs "WMETR_AirDen" (VStr "WMETR_AirDen");
         WMETR_EnvPres := kwarg kwargs "WMETR_EnvPres" (VStr "surface_pressure");
         frequency := kwarg kwargs "frequency" (VStr "10T");
         name := "reanalysis";
         col_map := [] |})).

Definition from_dict : value → result t :=
  FromDictMixin.from_dict "ReanalysisMetaData" attrs __init__.

(** The default column name of each field that [__init__] takes. *)
Definition column_defaults : list (string * string) :=
  [ ("time", "time");
    ("WMETR_HorWdSpd", "WMETR_HorWdSpd");
    ("WMETR_HorWdSpdU", "WMETR_HorWdSpdU");
    ("WMETR_HorWdSpdV", "WMETR_HorWdSpdV");
    ("WMETR_HorWdDir", "WMETR_HorWdDir");
    ("WMETR_EnvTmp", "WMETR_EnvTmp");
    ("WMETR_AirDen", "WMETR_AirDen");
    ("WMETR_EnvPres", "surface_pressure") ].

(** The fixed [dtypes] and [units] attributes. *)
Definition dtypes (self : t) : list (string * dtype) :=
  [ ("time", np_datetime64);
    ("WMETR_HorWdSpd", py_float);
    ("WMETR_HorWdSpdU", py_float);
    ("WMETR_HorWdSpdV", py_float);
    ("WMETR_HorWdDir", py_float);
    ("WMETR_EnvTmp", py_float);
    ("WMETR_AirDen", py_float);
    ("WMETR_EnvPres", py_float) ].

Definition units (self : t) : list (string * option string) :=
  [ ("time", Some "datetim64[ns]");
    ("WMETR_HorWdSpd", Some "m/s");
    ("WMETR_HorWdSpdU", Some "m/s");
    ("WMETR_HorWdSpdV", Some "m/s");
    ("WMETR_HorWdDir", Some "deg");
    ("WMETR_EnvTmp", Some "K");
    ("WMETR_AirDen", Some "kg/m^3");
    ("WMETR_EnvPres", Some "Pa") ].

End ReanalysisMetaData.

(** [convert_reanalysis]: [value.items()] exists on dictionaries only. *)
Fixpoint convert_items (items : list (string * value))
  (acc : list (string * ReanalysisMetaData.t))
  : result (list (string * ReanalysisMetaData.t)) :=
  match items with
  | [] => ret acc
  | (k, v) :: items' =>
      let! r := ReanalysisMetaData.from_dict v in
      convert_items items' (set_item String.eqb acc k r)
  end.

Definition type_name (v : value) : string :=
  match v with
  | VNone => "NoneType"
  | VBool _ => "bool"
  | VNum q => if Pos.eqb (QArith_base.Qden q) 1 then "int" else "float"
  | VStr _ => "str"
  | VList _ => "list"
  | VDict _ => "dict"
  end.

Definition convert_reanalysis (v : value)
  : result (list (string * ReanalysisMetaData.t)) :=
  match v with
  | VDict items => convert_items items []
  | _ => raise (AttributeError (type_name v) ["items"])
  end.

(** ** PlantMetaData

    What the class takes from outside this file is gathered in a [Host]:
    Python's [float] conversion, pathlib's [suffix], [resolve] and
    [is_file], and the JSON and YAML readers ([open] followed by
    [json.load] or [yaml.safe_load]). *)

Record Host := {
  pyfloat : Type;
  float : value → result pyfloat;
  suffix : Path → string;
  resolve : Path → Path;
  is_file : Path → bool;
  json_load : Path → result value;
  yaml_safe_load : Path → result value
}.

Module PlantMetaData.

Section WithHost.

Context (host : Host).

Definition attrs : list attribute :=
  [ attrib "latitude";
    attrib "longitude";
    attrib "capacity";
    attrib "scada";
    attrib "meter";
    attrib "tower";
    attrib "status";
    attrib "curtail";
    attrib "asset";
    attrib "reanalysis" ].

Record t := {
  latitude : pyfloat host;
  longitude : pyfloat host;
  capacity : pyfloat host;
  scada : SCADAMetaData.t;
  meter : MeterMetaData.t;
  tower : TowerMetaData.t;
  status : StatusMetaData.t;
  curtail : CurtailMetaData.t;
  asset : AssetMetaData.t;
  reanalysis : list (string * ReanalysisMetaData.t)
}.

(** The generated initialiser: each converter is applied, in attribute order,
    to the keyword argument or to the default. *)
Definition __init__ : list (string * value) → result t :=
  call_init attrs (fun kwargs =>
    let zero := VNum (QArith_base.Qmake 0 1) in
    let! latitude' := float host (kwarg kwargs "latitude" zero) in
    let! longitude' := float host (kwarg kwargs "longitude" zero) in
    let! capacity' := float host (kwarg kwargs "capacity" zero) in
    let! scada' := SCADAMetaData.from_dict (kwarg kwargs "scada" (VDict [])) in
    let! meter' := MeterMetaData.from_dict (kwarg kwargs "meter" (VDict [])) in
    let! tower' := TowerMetaData.from_dict (kwarg kwargs "tower" (VDict [])) in
    let! status' := StatusMetaData.from_dict (kwarg kwargs "status" (VDict [])) in
    let! curtail' := CurtailMetaData.from_dict (kwarg kwargs "curtail" (VDict [])) in
    let! asset' := AssetMetaData.from_dict (kwarg kwargs "asset" (VDict [])) in
    let! reanalysis' :=
      convert_reanalysis
        (kwarg kwargs "reanalysis" (VDict [("product", VDict [])])) in
    ret {| latitude := latitude';
           longitude := longitude';
           capacity := capacity';
           scada := scada';
           meter := meter';
           tower := tower';
           status := status';
           curtail := curtail';
           asset := asset';
           reanalysis := reanalysis' |}).

Definition from_dict : value → result t :=
  FromDictMixin.from_dict "PlantMetaData" attrs __init__.

Definition column_map (self : t) : list (string * value) :=
  let values :=
    [ ("scada", VDict (SCADAMetaData.col_map (scada self)));
      ("meter", VDict (MeterMetaData.col_map (meter self)));
      ("tower", VDict (TowerMetaData.col_map (tower self)));
      ("status", VDict (StatusMetaData.col_map (status self)));
      ("asset", VDict (AssetMetaData.col_map (asset self)));
      ("curtail", VDict (CurtailMetaData.col_map (curtail self)));
      ("reanalysis", VDict []) ] in
  match reanalysis self with
  | [] => values
  | _ =>
      set_item String.eqb values "reanalysis"
        (VDict (map (fun kv => (kv.1, VDict (ReanalysisMetaData.col_map kv.2)))
                  (reanalysis self)))
  end.

(** An entry of [dtype_map]: the table of a family, or the tables of the
    reanalysis products. *)
Inductive dtype_entry :=
| FamilyTypes (types : list (string * dtype))
| ProductTypes (types : list (string * list (string * dtype))).

Definition dtype_map (self : t) : list (string * dtype_entry) :=
  let types :=
    [ ("scada", FamilyTypes (SCADAMetaData.dtypes (scada self)));
      ("meter", FamilyTypes (MeterMetaData.dtypes (meter self)));
      ("tower", FamilyTypes (TowerMetaData.dtypes (tower self)));
      ("status", FamilyTypes (StatusMetaData.dtypes (status self)));
      ("asset", FamilyTypes (AssetMetaData.dtypes (asset self)));
      ("curtail", FamilyTypes (CurtailMetaData.dtypes (curtail self)));
      ("reanalysis", ProductTypes []) ] in
  match reanalysis self with
  | [] => types
  | _ =>
      set_item String.eqb types "reanalysis"
        (ProductTypes (map (fun kv => (kv.1, ReanalysisMetaData.dtypes kv.2))
                         (reanalysis self)))
  end.

Definition coordinates (self : t) : pyfloat host * pyfloat host :=
  (latitude self, longitude self).

Definition from_json (metadata_file : Path) : result t :=
  let metadata_file := resolve host metadata_file in
  if negb (is_file host metadata_file)
  then raise (FileExistsError "JSON" metadata_file)
  else let! data := json_load host metadata_file in from_dict data.

Definition from_yaml (metadata_file : Path) : result t :=
  let metadata_file := resolve host metadata_file in
  if negb (is_file host metadata_file)
  then raise (FileExistsError "YAML" metadata_file)
  else let! data := yaml_safe_load host metadata_file in from_dict data.

(** The argument of [load], by the [isinstance] tests it goes through;
    [SrcOther] is an object of any other type. *)
Inductive source :=
| SrcInstance (p : t)
| SrcStr (s : string)
| SrcPath (p : Path)
| SrcDict (d : list (string * value))
| SrcOther.

Definition load_path (data : Path) : result t :=
  if String.eqb (suffix host data) ".json" then from_json data
  else if bool_decide (suffix host data ∈ [".yaml"; ".yml"]) then from_yaml data
  else raise (ValueError "Bad input file extension, must be one of: .json, .yml, or .yaml").

Definition load (data : source) : result t :=
  match data with
  | SrcInstance p => ret p
  | SrcStr s => load_path (resolve host (mkPath s))
  | SrcPath p => load_path p
  | SrcDict d => from_dict (VDict d)
  | SrcOther =>
      raise (ValueError "PlantMetaData can only be loaded from str, Path, or dict objects.")
  end.

(** [frequency_requirements], over the catalogue [C]. *)
Definition frequency_requirements_in (C : catalog) (self : t)
  (analysis_types : list (option string)) : result (gmap string freq_entry) :=
  let! requirements :=
    (if bool_decide (Some "all" ∈ analysis_types) then ret C
     else select_requirements C (omap id analysis_types) []) in
  let frequency_requirements := frequency_table requirements in
  let frequency := frequency_seed frequency_requirements in
  frequency_loop frequency frequency_requirements.

Definition frequency_requirements : t → list (option string)
  → result (gmap string freq_entry) :=
  frequency_requirements_in ANALYSIS_REQUIREMENTS.

End WithHost.

End PlantMetaData.

(** ** The specification's vocabulary *)

(** The error classes of the specification, and the class of each exception
    the code raises: a failed catalogue lookup and a rejected argument are
    configuration errors, a missing document is reported with
    [FileExistsError], and [from_dict] reports missing inputs with
    [AttributeError]. *)
Inductive error_class :=
| ConfigurationError
| SchemaError
| NotFoundError
| OtherError.

Definition class_of (e : exn) : error_class :=
  match e with
  | KeyError _ => ConfigurationError
  | ValueError _ => ConfigurationError
  | FileExistsError _ _ => NotFoundError
  | AttributeError _ _ => SchemaError
  | TypeError _ | HostError _ => OtherError
  end.

(** Column resolution as the specification words it: for each family
    appearing in any selected analysis, the union over the selected analyses
    of the mandatory columns for the family and of the conditional columns of
    every active flag. *)
Definition spec_mandatory (r : analysis_requirement) (F : string) : gset string :=
  match get r F with
  | Some f => list_to_set (columns f)
  | None => ∅
  end.

Definition spec_conditional (flags : gset string) (r : analysis_requirement)
  (F : string) : gset string :=
  match get r F with
  | Some f =>
      list_to_set
        (concat (map snd
           (List.filter (fun fc => bool_decide (fc.1 ∈ flags)) (conditional_columns f))))
  | None => ∅
  end.

Definition spec_resolve_columns (C : catalog) (names : list string)
  (flags : gset string) : gmap string (gset string) :=
  let selected := omap (get C) names in
  let families : gset string := list_to_set (concat (map (map fst) selected)) in
  set_to_map
    (fun F => (F, ⋃ (map (fun r => spec_mandatory r F ∪ spec_conditional flags r F)
                       selected)))
    families.

(** The declared sets of one analysis, family by family. *)
Definition declared_columns (r : analysis_requirement) : gmap string (gset string) :=
  list_to_map (map (fun Ff => (Ff.1, list_to_set (columns Ff.2))) r).

Definition declared_frequency (r : analysis_requirement) : gmap string freq_entry :=
  list_to_map (map (fun Ff => (Ff.1, FreqSet (list_to_set (freq Ff.2)))) r).

(** Intersection of two entries of frequency results, an absent family (or an
    unfilled entry) being unconstrained. *)
Definition meet (a b : freq_entry) : freq_entry :=
  match a, b with
  | EmptyList, _ => b
  | _, EmptyList => a
  | FreqSet s, FreqSet t => FreqSet (s ∩ t)
  end.

Definition meet_opt (a b : option freq_entry) : option freq_entry :=
  match a, b with
  | None, _ => b
  | _, None => a
  | Some x, Some y => Some (meet x y)
  end.

(** [F] is a family of some selected analysis, and the classes every selected
    analysis touching [F] accepts. *)
Definition touched (C : catalog) (names : list string) (F : string) : Prop :=
  ∃ A r f, A ∈ names ∧ get C A = Some r ∧ (F, f) ∈ r.

Definition accepted_by_all (C : catalog) (names : list string) (F : string)
  (x : string) : Prop :=
  ∀ A r f, A ∈ names → get C A = Some r → (F, f) ∈ r → x ∈ freq f.

(** [k] is the last field of a column map that holds the column name [v]. *)
Definition last_field (col_map : list (string * value)) (v : string) (k : string)
  : Prop :=
  ∃ pre post, col_map = pre ++ (k, VStr v) :: post ∧ ∀ k', (k', VStr v) ∉ post.

(** ** Auxiliary definitions for the proofs *)

Definition absorb (e : freq_entry) (req : list string) : freq_entry :=
  match e with
  | EmptyList => FreqSet (list_to_set req)
  | FreqSet s => FreqSet (s ∩ list_to_set req)
  end.

Definition reqs_for (F : string) (pairs : list (string * list string))
  : list (list string) :=
  map snd (List.filter (fun p => String.eqb p.1 F) pairs).

Definition freq_pairs (requirements : catalog) : list (string * list string) :=
  concat (map snd (frequency_table requirements)).

(** The last key of [items] whose value is the string [w], or [acc]. *)
Fixpoint last_key (items : list (string * value)) (w : string) (acc : option string)
  : option string :=
  match items with
  | [] => acc
  | (k, v) :: items' =>
      last_key items' w (if is_str w v then Some k else acc)
  end.

Definition string_valued {K} (items : list (K * value)) : Prop :=
  ∀ k v, (k, v) ∈ items → ∃ s, v = VStr s.

Definition string_keyed {A} (items : list (value * A)) : Prop :=
  ∀ k v, (k, v) ∈ items → ∃ s, k = VStr s.

(** Every family of the catalogue is one of [categories] and declares at
    least one column. *)
Definition catalog_columns_ok (C : catalog) : bool :=
  forallb (fun Ar =>
    forallb (fun Ff =>
      bool_decide (Ff.1 ∈ categories) &&
      negb (bool_decide (columns Ff.2 = []))) Ar.2) C.

(** The entry the frequency loops leave for a family whose accepted-class
    tuples, in the order met, are [l]. *)
Definition entry_of (l : list (list string)) : option freq_entry :=
  match l with
  | [] => None
  | _ => Some (foldl absorb EmptyList l)
  end.

(** Every family of the catalogue accepts each class of [classes]. *)
Definition catalog_accepts (classes : list string) (C : catalog) : bool :=
  forallb (fun Ar =>
    forallb (fun Ff : string * family_requirement =>
      forallb (fun x => bool_decide (x ∈ freq Ff.2)) classes) Ar.2) C.

(** The names of the attributes [from_dict] takes from its argument, and of
    those it requires. *)
Definition init_names (attrs : list attribute) : list string :=
  map a_name (List.filter a_init attrs).

Definition required_inputs (attrs : list attribute) : list string :=
  map a_name (List.filter (fun a => a_init a && negb (a_has_default a)) attrs).

Definition is_dict (v : value) : bool :=
  match v with
  | VDict _ => true
  | _ => false
  end.

(** ** A small host, for the examples

    Floats are rationals and [float] converts numbers and booleans only,
    every path is the name of a file in one flat directory, [suffix] follows
    pathlib (from the last dot of the name, unless that dot is its first or
    its last character), and both readers return the stored document. *)

Fixpoint from_last_dot (s : string) : option string :=
  match s with
  | EmptyString => None
  | String c s' =>
      match from_last_dot s' with
      | Some t => Some t
      | None => if Ascii.eqb c "."%char then Some s else None
      end
  end.

Definition name_suffix (name : string) : string :=
  match name with
  | EmptyString => ""
  | String _ rest =>
      match from_last_dot rest with
      | Some t => if Nat.ltb 1 (String.length t) then t else ""
      | None => ""
      end
  end.

Definition example_float (v : value) : result QArith_base.Q :=
  match numeric v with
  | Some q => ret q
  | None =>
      match v with
      | VStr _ => raise (ValueError "could not convert string to float")
      | _ => raise (TypeError "float() argument must be a string or a real number")
      end
  end.

Definition example_read (files : list (string * value)) (p : Path) : result value :=
  match get files (path_str p) with
  | Some v => ret v
  | None => raise (HostError "No such file or directory")
  end.

Definition example_host (files : list (string * value)) : Host :=
  {| pyfloat := QArith_base.Q;
     float := example_float;
     suffix := fun p => name_suffix (path_str p);
     resolve := fun p => p;
     is_file := fun p => bool_decide (is_Some (get files (path_str p)));
     json_load := example_read files;
     yaml_safe_load := example_read files |}.

(** A catalogue of two analyses whose accepted classes for ["scada"] have
    nothing in common, for the examples. *)
Definition conflicting_catalog : catalog :=
  [ ("Coarse",
      [ ("scada", {| columns := ["WTUR_W"]; conditional_columns := []; freq := ["M"; "MS"] |});
        ("meter", {| columns := ["MMTR_SupWh"]; conditional_columns := []; freq := ["M"; "MS"] |}) ]);
    ("Fine",
      [ ("scada", {| columns := ["WTUR_W"]; conditional_columns := []; freq := ["H"; "T"] |}) ]) ].

(** * Properties *)

(** ** Ordered dictionaries *)

Lemma bind_inr {A B} (m : result A) (k : A → result B) (b : B) :
  bind m k = inr b → ∃ a, m = inr a ∧ k a = inr b.
Proof. destruct m as [e|a]; simpl; [discriminate | eauto]. Qed.

Lemma get_Some_elem {A} (d : list (string * A)) k v :
  get d k = Some v → (k, v) ∈ d.
Proof.
  induction d as [|[k' v'] d IH]; simpl; [discriminate |].
  destruct (String.eqb_spec k' k) as [->|Hne].
  - intros [= ->]. apply list_elem_of_here.
  - intros Hget. apply list_elem_of_further, IH, Hget.
Qed.

Lemma get_None_elem {A} (d : list (string * A)) k v :
  get d k = None → (k, v) ∉ d.
Proof.
  induction d as [|[k' v'] d IH]; simpl; intros Hget Hin.
  - by apply not_elem_of_nil in Hin.
  - destruct (String.eqb_spec k' k) as [->|Hne]; [discriminate |].
    apply elem_of_cons in Hin as [[= -> ->]|Hin]; [done | by apply IH].
Qed.

Lemma elem_get_is_Some {A} (d : list (string * A)) k v :
  (k, v) ∈ d → is_Some (get d k).
Proof.
  intros Hin. destruct (get d k) eqn:Hget; [eauto |].
  by apply (get_None_elem _ _ v) in Hget.
Qed.

Lemma elem_of_set_item {A} (d : list (string * A)) k v x :
  (∀ v', (k, v') ∈ d → v' = v) →
  x ∈ set_item String.eqb d k v ↔ x ∈ d ∨ x = (k, v).
Proof.
  induction d as [|[k' v'] d IH]; simpl; intros Hsame.
  - rewrite list_elem_of_singleton, elem_of_nil. tauto.
  - destruct (String.eqb_spec k' k) as [->|Hne].
    + rewrite (Hsame v') by apply list_elem_of_here.
      rewrite !elem_of_cons. tauto.
    + rewrite !elem_of_cons, IH; [tauto |].
      intros v'' Hin. apply Hsame. by apply list_elem_of_further.
Qed.

(** ** Calls of the generated initialisers *)

Lemma call_init_expected {T} (attrs : list attribute)
  (body : list (string * value) → result T) (kwargs : list (string * value)) :
  unexpected_keyword attrs kwargs = None →
  call_init attrs body kwargs = body kwargs.
Proof. intros Hexp. unfold call_init. by rewrite Hexp. Qed.

Lemma call_init_inr {T} (attrs : list attribute)
  (body : list (string * value) → result T) (kwargs : list (string * value)) (x : T) :
  call_init attrs body kwargs = inr x →
  unexpected_keyword attrs kwargs = None ∧ body kwargs = inr x.
Proof.
  unfold call_init. by destruct (unexpected_keyword attrs kwargs).
Qed.

Lemma unexpected_keyword_None (attrs : list attribute)
  (kwargs : list (string * value)) :
  unexpected_keyword attrs kwargs = None ↔
  ∀ n v, (n, v) ∈ kwargs →
         existsb (fun a => a_init a && String.eqb (a_name a) n) attrs = true.
Proof.
  unfold unexpected_keyword. induction kwargs as [|[k w] kwargs IH].
  - split; [|done]. intros _ n v Hin. by apply elem_of_nil in Hin.
  - cbn [map fst List.filter].
    destruct (existsb (fun a => a_init a && String.eqb (a_name a) k) attrs) eqn:Hk;
      cbn [negb].
    + rewrite IH. split.
      * intros Hall n v Hin. apply elem_of_cons in Hin as [[= -> ->]|Hin]; eauto.
      * intros Hall n v Hin. apply (Hall n v). by apply list_elem_of_further.
    + split; [discriminate |]. intros Hall.
      rewrite (Hall k w) in Hk by apply list_elem_of_here. discriminate Hk.
Qed.

Lemma select_kwargs_expected (attrs : list attribute) (data : value)
  (kwargs : list (string * value)) :
  FromDictMixin.select_kwargs attrs data = inr kwargs →
  unexpected_keyword attrs kwargs = None.
Proof.
  intros Hsel. apply unexpected_keyword_None. revert kwargs Hsel.
  induction attrs as [|a attrs IH]; intros kwargs Hsel n v Hin.
  - injection Hsel as <-. by apply elem_of_nil in Hin.
  - cbn [FromDictMixin.select_kwargs] in Hsel.
    apply bind_inr in Hsel as (present & _ & Hsel). cbn [existsb].
    destruct (present && a_init a) eqn:Hcond.
    + apply bind_inr in Hsel as (w & _ & Hsel).
      apply bind_inr in Hsel as (kwargs' & Hsel' & [= <-]).
      apply andb_prop in Hcond as [_ Hinit].
      apply elem_of_cons in Hin as [[= -> ->]|Hin].
      * by rewrite Hinit, String.eqb_refl.
      * rewrite (IH kwargs' Hsel' n v Hin). apply orb_true_r.
    + rewrite (IH kwargs Hsel n v Hin). apply orb_true_r.
Qed.

(** [from_dict] passes only parameters of the initialiser, so the test on
    the keywords never fails under it. *)
Lemma from_dict_call_init {T} (cls_name : string) (attrs : list attribute)
  (body : list (string * value) → result T) (data : value) :
  FromDictMixin.from_dict cls_name attrs (call_init attrs body) data
  = FromDictMixin.from_dict cls_name attrs body data.
Proof.
  unfold FromDictMixin.from_dict.
  destruct (FromDictMixin.select_kwargs attrs data) as [e|kwargs] eqn:Hsel; [done |].
  cbn [bind]. destruct (sorted_set _); [|done].
  apply call_init_expected. by apply (select_kwargs_expected attrs data).
Qed.

(** ** Selecting the requirements of the requested analyses *)

Lemma select_requirements_ok (C : catalog) names acc :
  Forall (fun A => is_Some (get C A)) names →
  (∀ k r, (k, r) ∈ acc → get C k = Some r) →
  ∃ reqs, select_requirements C names acc = inr reqs ∧
    ∀ k r, (k, r) ∈ reqs ↔ (k, r) ∈ acc ∨ (k ∈ names ∧ get C k = Some r).
Proof.
  intros Hall. revert acc.
  induction Hall as [|A names [r Hr] _ IH]; intros acc Hacc; simpl.
  - exists acc. split; [done |]. intros k r. rewrite elem_of_nil. tauto.
  - rewrite Hr.
    assert (Hitem : ∀ x, x ∈ set_item String.eqb acc A r ↔ x ∈ acc ∨ x = (A, r)).
    { intros x. apply elem_of_set_item. intros v' Hin.
      apply Hacc in Hin. congruence. }
    destruct (IH (set_item String.eqb acc A r)) as (reqs & Hsel & Hreqs).
    { intros k r' Hin. apply Hitem in Hin as [Hin|[= -> ->]]; auto. }
    exists reqs. split; [done |]. intros k r'.
    rewrite Hreqs, Hitem, elem_of_cons. split.
    + intros [[?|[= -> ->]]|[? ?]]; auto.
    + intros [?|[[->|?] Hk]]; auto.
      left. right. congruence.
Qed.

Lemma select_requirements_bad (C : catalog) pre bad post acc :
  Forall (fun A => is_Some (get C A)) pre →
  get C bad = None →
  select_requirements C (pre ++ bad :: post) acc = inl (KeyError bad).
Proof.
  intros Hpre Hbad. revert acc.
  induction Hpre as [|A pre [r Hr] _ IH]; intros acc; simpl.
  - by rewrite Hbad.
  - rewrite Hr. apply IH.
Qed.

(** ** The frequency loops *)

Lemma frequency_inner_app fr l1 l2 :
  frequency_inner fr (l1 ++ l2)
  = bind (frequency_inner fr l1) (fun fr' => frequency_inner fr' l2).
Proof.
  revert fr. induction l1 as [|[name req] l1 IH]; intros fr; simpl; [done |].
  destruct (frequency_step fr name req) as [e|fr']; simpl; [done | apply IH].
Qed.

Lemma frequency_loop_flat fr frequency :
  frequency_loop fr frequency = frequency_inner fr (concat (map snd frequency)).
Proof.
  revert fr. induction frequency as [|[A vals] frequency IH]; intros fr; simpl; [done |].
  rewrite frequency_inner_app.
  destruct (frequency_inner fr vals) as [e|fr']; simpl; [done | apply IH].
Qed.

Lemma frequency_step_ok fr name req e :
  fr !! name = Some e →
  frequency_step fr name req = inr (<[name := absorb e req]> fr).
Proof. intros Hfr. unfold frequency_step. rewrite Hfr. by destruct e. Qed.

Lemma reqs_for_cons F name req pairs :
  reqs_for F ((name, req) :: pairs)
  = if String.eqb name F then req :: reqs_for F pairs else reqs_for F pairs.
Proof. unfold reqs_for. simpl. by destruct (String.eqb name F). Qed.

Lemma reqs_for_app F l1 l2 :
  reqs_for F (l1 ++ l2) = reqs_for F l1 ++ reqs_for F l2.
Proof. unfold reqs_for. by rewrite List.filter_app, List.map_app. Qed.

Lemma frequency_inner_spec pairs fr :
  (∀ p, p ∈ pairs → is_Some (fr !! p.1)) →
  ∃ fr', frequency_inner fr pairs = inr fr' ∧
    ∀ F, fr' !! F = (fun e => foldl absorb e (reqs_for F pairs)) <$> (fr !! F).
Proof.
  revert fr. induction pairs as [|[name req] pairs IH]; intros fr Hdom; simpl.
  - exists fr. split; [done |]. intros F. by destruct (fr !! F).
  - destruct (Hdom (name, req)) as [e He]; [apply list_elem_of_here |].
    simpl in He. rewrite (frequency_step_ok _ _ _ _ He). simpl.
    destruct (IH (<[name := absorb e req]> fr)) as (fr' & Hrun & Hfr').
    { intros p Hp. destruct (decide (name = p.1)) as [<-|Hne].
      - rewrite lookup_insert_eq. eauto.
      - rewrite lookup_insert_ne by done. apply Hdom. by apply list_elem_of_further. }
    exists fr'. split; [done |]. intros F.
    rewrite Hfr', reqs_for_cons.
    destruct (String.eqb_spec name F) as [->|Hne].
    + rewrite lookup_insert_eq, He. done.
    + by rewrite lookup_insert_ne.
Qed.

Lemma reqs_for_nil_iff F pairs :
  reqs_for F pairs = [] ↔ F ∉ map fst pairs.
Proof.
  induction pairs as [|[name req] pairs IH]; simpl.
  - split; [intros _; apply not_elem_of_nil | done].
  - rewrite reqs_for_cons, not_elem_of_cons.
    destruct (String.eqb_spec name F) as [->|Hne].
    + split; [discriminate | intros [? _]; done].
    + rewrite IH. split; [intros ?; split; congruence | tauto].
Qed.

Lemma frequency_seed_lookup frequency F :
  frequency_seed frequency !! F
  = if decide (F ∈ map fst (concat (map snd frequency)))
    then Some EmptyList else None.
Proof.
  assert (Hfam : concat (map (fun kv : string * list (string * list string) =>
                                map fst kv.2) frequency)
                 = map fst (concat (map snd frequency))).
  { rewrite List.concat_map, List.map_map. done. }
  unfold frequency_seed. rewrite Hfam.
  apply option_eq. intros e.
  rewrite lookup_set_to_map by (by intros ?? _ _ [=]).
  setoid_rewrite elem_of_list_to_set.
  case_decide as HF.
  - split; [intros (y & _ & [= _ <-]); done | intros [= <-]; eauto].
  - split; [intros (y & Hy & [= -> _]); done | done].
Qed.

Lemma frequency_result (requirements : catalog) :
  ∃ f,
    frequency_loop (frequency_seed (frequency_table requirements))
      (frequency_table requirements) = inr f ∧
    ∀ F, f !! F = match reqs_for F (freq_pairs requirements) with
                  | [] => None
                  | l => Some (foldl absorb EmptyList l)
                  end.
Proof.
  rewrite frequency_loop_flat. fold (freq_pairs requirements).
  destruct (frequency_inner_spec (freq_pairs requirements)
              (frequency_seed (frequency_table requirements))) as (f & Hrun & Hf).
  { intros [name req] Hp. rewrite frequency_seed_lookup.
    fold (freq_pairs requirements). rewrite decide_True; [eauto |].
    apply list_elem_of_In, in_map_iff. exists (name, req).
    split; [done | by apply list_elem_of_In]. }
  exists f. split; [done |]. intros F.
  rewrite Hf, frequency_seed_lookup. fold (freq_pairs requirements).
  case_decide as HF; simpl.
  - destruct (reqs_for F (freq_pairs requirements)) eqn:Hl; [|done].
    by apply reqs_for_nil_iff in Hl.
  - apply reqs_for_nil_iff in HF. by rewrite HF.
Qed.

(** The accumulated entry is the intersection of everything absorbed. *)
Lemma foldl_absorb_FreqSet s l :
  ∃ t, foldl absorb (FreqSet s) l = FreqSet t ∧
       ∀ x, x ∈ t ↔ x ∈ s ∧ ∀ req, req ∈ l → x ∈ req.
Proof.
  revert s. induction l as [|r l IH]; intros s; simpl.
  - exists s. split; [done |]. intros x. split; [|tauto].
    intros Hx. split; [done |]. intros req Hreq. by apply not_elem_of_nil in Hreq.
  - destruct (IH (s ∩ list_to_set r)) as (t & Ht & Hmem).
    exists t. split; [done |]. intros x.
    rewrite Hmem, elem_of_intersection, elem_of_list_to_set. split.
    + intros [[Hs Hr] Hl]. split; [done |]. intros req Hreq.
      apply elem_of_cons in Hreq as [->|Hreq]; auto.
    + intros [Hs Hl]. split; [split; [done |] |].
      * apply Hl, list_elem_of_here.
      * intros req Hreq. by apply Hl, list_elem_of_further.
Qed.

Lemma foldl_absorb_EmptyList r l :
  ∃ t, foldl absorb EmptyList (r :: l) = FreqSet t ∧
       ∀ x, x ∈ t ↔ ∀ req, req ∈ r :: l → x ∈ req.
Proof.
  simpl. destruct (foldl_absorb_FreqSet (list_to_set r) l) as (t & Ht & Hmem).
  exists t. split; [done |]. intros x.
  rewrite Hmem, elem_of_list_to_set. split.
  - intros [Hr Hl] req Hreq. apply elem_of_cons in Hreq as [->|Hreq]; auto.
  - intros Hall. split; [apply Hall, list_elem_of_here |].
    intros req Hreq. by apply Hall, list_elem_of_further.
Qed.

Lemma meet_idemp e : meet e e = e.
Proof.
  destruct e as [|s]; simpl; [done |]. f_equal.
  apply set_eq. intros x. rewrite elem_of_intersection. tauto.
Qed.

Lemma meet_EmptyList_r e : meet e EmptyList = e.
Proof. by destruct e. Qed.

Lemma foldl_absorb_meet e l :
  foldl absorb e l = meet e (foldl absorb EmptyList l).
Proof.
  revert e. induction l as [|r l IH]; intros e; simpl.
  - by rewrite meet_EmptyList_r.
  - rewrite (IH (absorb e r)), (IH (FreqSet (list_to_set r))).
    destruct e as [|s]; simpl; [done |].
    destruct (foldl absorb EmptyList l) as [|t]; simpl; [done |].
    f_equal. apply set_eq. intros x. rewrite !elem_of_intersection. tauto.
Qed.

Lemma foldl_absorb_app l1 l2 :
  foldl absorb EmptyList (l1 ++ l2)
  = meet (foldl absorb EmptyList l1) (foldl absorb EmptyList l2).
Proof. by rewrite foldl_app, foldl_absorb_meet. Qed.

(** Membership in the flattened frequency table. *)
Lemma elem_of_freq_pairs (requirements : catalog) F req :
  (F, req) ∈ freq_pairs requirements ↔
  ∃ A r f, (A, r) ∈ requirements ∧ (F, f) ∈ r ∧ req = freq f.
Proof.
  unfold freq_pairs, frequency_table.
  rewrite list_elem_of_In, in_concat. split.
  - intros (vals & Hvals & Hin).
    apply in_map_iff in Hvals as ([A' vals'] & <- & Hin').
    apply in_map_iff in Hin' as ([A r] & Heq' & HAr).
    simpl in Heq'. injection Heq' as <- <-.
    apply in_map_iff in Hin as ([F' f] & Heq & HFf).
    simpl in Heq. injection Heq as -> <-.
    exists A, r, f. by rewrite !list_elem_of_In.
  - intros (A & r & f & HAr & HFf & ->).
    exists (map (fun nv : string * family_requirement => (nv.1, freq nv.2)) r).
    split.
    + apply in_map_iff.
      exists (A, map (fun nv : string * family_requirement => (nv.1, freq nv.2)) r).
      split; [done |]. apply in_map_iff. exists (A, r).
      split; [done | by apply list_elem_of_In].
    + apply in_map_iff. exists (F, f). split; [done | by apply list_elem_of_In].
Qed.

Lemma elem_of_reqs_for F pairs req :
  req ∈ reqs_for F pairs ↔ (F, req) ∈ pairs.
Proof.
  unfold reqs_for. rewrite !list_elem_of_In, in_map_iff. split.
  - intros ([name req'] & <- & Hin). apply filter_In in Hin as [Hin Heq].
    simpl in *. apply String.eqb_eq in Heq as <-. done.
  - intros Hin. exists (F, req). split; [done |].
    apply filter_In. split; [done |]. simpl. apply String.eqb_refl.
Qed.

(** ** The column comprehension *)

Lemma filtered_columns_lookup (g : string → gset string) ks F :
  (list_to_map
     (List.filter (fun kv : string * gset string => negb (bool_decide (kv.2 = ∅)))
        (map (fun k => (k, g k)) ks)) : gmap string (gset string)) !! F
  = if decide (F ∈ ks)
    then if decide (g F = ∅) then None else Some (g F)
    else None.
Proof.
  induction ks as [|k ks IH]; cbn [List.map List.filter snd].
  - rewrite decide_False by apply not_elem_of_nil. apply lookup_empty.
  - assert (Hcons : ∀ X Y : option (gset string),
              (if decide (F ∈ k :: ks) then X else Y)
              = if decide (F = k) then X else if decide (F ∈ ks) then X else Y).
    { intros X Y. repeat case_decide; try done; rewrite elem_of_cons in *; tauto. }
    rewrite Hcons. clear Hcons.
    case_bool_decide as Hk; cbn [negb list_to_map foldr uncurry fst snd].
    + rewrite IH. destruct (decide (F = k)) as [->|Hne]; [|done].
      rewrite (decide_True (P := g k = ∅)) by done. by case_decide.
    + rewrite lookup_insert, IH.
      destruct (decide (k = F)) as [->|Hne].
      * rewrite (decide_True (P := F = F)) by done.
        by rewrite (decide_False (P := g F = ∅)).
      * by rewrite (decide_False (P := F = k)) by done.
Qed.

Lemma column_requirements_lookup (requirements : catalog) F :
  column_requirements requirements !! F
  = let s : gset string :=
      list_to_set (concat (map (fun kr : string * analysis_requirement =>
                                  columns_of kr.2 F) requirements)) in
    if decide (F ∈ categories)
    then if decide (s = ∅) then None else Some s
    else None.
Proof.
  unfold column_requirements.
  apply (filtered_columns_lookup
           (fun cat => list_to_set (concat (map (fun kr : string * analysis_requirement =>
                                                   columns_of kr.2 cat) requirements)))).
Qed.

Lemma elem_of_column_set (requirements : catalog) F x :
  x ∈ (list_to_set (concat (map (fun kr : string * analysis_requirement =>
                                   columns_of kr.2 F) requirements)) : gset string)
  ↔ ∃ A r, (A, r) ∈ requirements ∧ x ∈ columns_of r F.
Proof.
  rewrite elem_of_list_to_set, list_elem_of_In, in_concat. split.
  - intros (l & Hl & Hx). apply in_map_iff in Hl as ([A r] & <- & HAr).
    exists A, r. by rewrite !list_elem_of_In.
  - intros (A & r & HAr & Hx). exists (columns_of r F). split.
    + apply in_map_iff. exists (A, r). split; [done | by apply list_elem_of_In].
    + by apply list_elem_of_In.
Qed.

Lemma columns_of_elem r F x :
  x ∈ columns_of r F → ∃ f, (F, f) ∈ r ∧ x ∈ columns f.
Proof.
  unfold columns_of. destruct (get r F) as [f|] eqn:Hget.
  - intros Hx. exists f. split; [by apply get_Some_elem | done].
  - intros Hx. by apply not_elem_of_nil in Hx.
Qed.

(** ** The two entry points, once the requirements are selected *)

Lemma determine_columns_selected C names requirements :
  select_requirements C names [] = inr requirements →
  determine_analysis_requirements_in C "columns" (AList names)
  = inr (Columns (column_requirements requirements)).
Proof.
  intros Hsel. unfold determine_analysis_requirements_in. rewrite Hsel. reflexivity.
Qed.

Lemma determine_frequency_selected C names requirements :
  select_requirements C names [] = inr requirements →
  determine_analysis_requirements_in C "frequency" (AList names)
  = sum_map id Frequency
      (frequency_loop (frequency_seed (frequency_table requirements))
         (frequency_table requirements)).
Proof.
  intros Hsel. unfold determine_analysis_requirements_in. rewrite Hsel. simpl.
  change (bool_decide ("frequency" ∈ ["frequency"; "both"])) with true. cbv iota.
  by destruct (frequency_loop _ _).
Qed.

Lemma determine_unknown C which pre bad post :
  Forall (fun A => is_Some (get C A)) pre →
  get C bad = None →
  determine_analysis_requirements_in C which (AList (pre ++ bad :: post))
  = inl (KeyError bad).
Proof.
  intros Hpre Hbad. unfold determine_analysis_requirements_in.
  by rewrite (select_requirements_bad _ _ _ _ _ Hpre Hbad).
Qed.

Lemma selected_spec C names :
  Forall (fun A => is_Some (get C A)) names →
  ∃ requirements, select_requirements C names [] = inr requirements ∧
    ∀ A r, (A, r) ∈ requirements ↔ A ∈ names ∧ get C A = Some r.
Proof.
  intros Hall.
  destruct (select_requirements_ok C names [] Hall) as (reqs & Hsel & Hreqs).
  { intros k r Hin. by apply not_elem_of_nil in Hin. }
  exists reqs. split; [done |]. intros A r. rewrite Hreqs, elem_of_nil. tauto.
Qed.

(** ** The frequency result, family by family *)

Lemma elem_of_selected_reqs (C : catalog) (names : list string) (requirements : catalog) F req :
  (∀ A r, (A, r) ∈ requirements ↔ A ∈ names ∧ get C A = Some r) →
  req ∈ reqs_for F (freq_pairs requirements) ↔
  ∃ A r f, A ∈ names ∧ get C A = Some r ∧ (F, f) ∈ r ∧ req = freq f.
Proof.
  intros Hreqs. rewrite elem_of_reqs_for, elem_of_freq_pairs. split.
  - intros (A & r & f & HAr & HFf & ->). apply Hreqs in HAr as [HA Hr].
    by exists A, r, f.
  - intros (A & r & f & HA & Hr & HFf & ->). exists A, r, f.
    split; [by apply Hreqs | done].
Qed.

Lemma frequency_untouched (C : catalog) (names : list string) (requirements : catalog) F :
  (∀ A r, (A, r) ∈ requirements ↔ A ∈ names ∧ get C A = Some r) →
  ¬ touched C names F →
  reqs_for F (freq_pairs requirements) = [].
Proof.
  intros Hreqs Hno.
  destruct (reqs_for F (freq_pairs requirements)) as [|req l] eqn:Hl; [done |].
  exfalso. apply Hno.
  assert (Hin : req ∈ reqs_for F (freq_pairs requirements))
    by (rewrite Hl; apply list_elem_of_here).
  apply (elem_of_selected_reqs C names) in Hin as (A & r & f & HA & Hr & HFf & _);
    [|done].
  by exists A, r, f.
Qed.

Lemma frequency_touched (C : catalog) (names : list string) (requirements : catalog) F :
  (∀ A r, (A, r) ∈ requirements ↔ A ∈ names ∧ get C A = Some r) →
  touched C names F →
  ∃ S, match reqs_for F (freq_pairs requirements) with
       | [] => None
       | l => Some (foldl absorb EmptyList l)
       end = Some (FreqSet S) ∧
       ∀ x, x ∈ S ↔ accepted_by_all C names F x.
Proof.
  intros Hreqs (A & r & f & HA & Hr & HFf).
  assert (Hin : freq f ∈ reqs_for F (freq_pairs requirements)).
  { apply (elem_of_selected_reqs C names); [done |]. by exists A, r, f. }
  destruct (reqs_for F (freq_pairs requirements)) as [|req l] eqn:Hl.
  { by apply not_elem_of_nil in Hin. }
  destruct (foldl_absorb_EmptyList req l) as (S & HS & Hmem).
  exists S. split; [by rewrite HS |]. intros x. rewrite Hmem, <- Hl. split.
  - intros Hall A' r' f' HA' Hr' HFf'. apply Hall.
    apply (elem_of_selected_reqs C names); [done |]. by exists A', r', f'.
  - intros Hall req' Hreq'.
    apply (elem_of_selected_reqs C names) in Hreq' as (A' & r' & f' & ? & ? & ? & ->);
      [|done].
    by apply (Hall A' r' f').
Qed.

Lemma columns_untouched (C : catalog) (names : list string) (requirements : catalog) F :
  (∀ A r, (A, r) ∈ requirements ↔ A ∈ names ∧ get C A = Some r) →
  ¬ touched C names F →
  column_requirements requirements !! F = None.
Proof.
  intros Hreqs Hno. rewrite column_requirements_lookup. cbv zeta.
  case_decide; [|done]. rewrite decide_True; [done |].
  apply set_eq. intros x. rewrite elem_of_column_set. split.
  - intros (A & r & HAr & Hx). exfalso. apply Hno.
    apply columns_of_elem in Hx as (f & HFf & _).
    apply Hreqs in HAr as [HA Hr]. by exists A, r, f.
  - intros Hx. by apply not_elem_of_empty in Hx.
Qed.

Lemma columns_never_empty (requirements : catalog) F :
  column_requirements requirements !! F ≠ Some ∅.
Proof.
  rewrite column_requirements_lookup. cbv zeta.
  repeat case_decide; congruence.
Qed.

(** C5. For every list of catalogue analysis names both resolutions return
    a result; the column result never maps a family to the empty set, and a
    family no selected analysis touches is absent from both results; the
    frequency result maps every family a selected analysis touches to the
    intersection of the accepted classes of the selected analyses touching
    it, so that a family whose accepted sets have nothing in common is
    present with the empty set, which tells it apart from an untouched
    family. *)
Theorem conflicting_family_kept_untouched_family_omitted
  (C : catalog) (names : list string) :
  Forall (fun A => is_Some (get C A)) names →
  ∃ c f,
    determine_analysis_requirements_in C "columns" (AList names) = inr (Columns c) ∧
    determine_analysis_requirements_in C "frequency" (AList names) = inr (Frequency f) ∧
    (∀ F, c !! F ≠ Some ∅) ∧
    (∀ F, ¬ touched C names F → c !! F = None ∧ f !! F = None) ∧
    (∀ F, touched C names F →
       ∃ S, f !! F = Some (FreqSet S) ∧ ∀ x, x ∈ S ↔ accepted_by_all C names F x) ∧
    (∀ F, touched C names F → (∀ x, ¬ accepted_by_all C names F x) →
       f !! F = Some (FreqSet ∅)).
Proof.
  intros Hall.
  destruct (selected_spec C names Hall) as (reqs & Hsel & Hreqs).
  destruct (frequency_result reqs) as (f & Hrun & Hf).
  exists (column_requirements reqs), f.
  split; [by apply determine_columns_selected |].
  split; [by rewrite (determine_frequency_selected _ _ _ Hsel), Hrun |].
  split; [apply columns_never_empty |].
  split; [|split].
  - intros F Hno. split; [by apply (columns_untouched C names) |].
    by rewrite Hf, (frequency_untouched C names reqs F Hreqs Hno).
  - intros F Hyes. rewrite Hf. by apply (frequency_touched C names).
  - intros F Hyes Hnone. rewrite Hf.
    destruct (frequency_touched C names reqs F Hreqs Hyes) as (S & -> & Hmem).
    do 2 f_equal. apply set_eq. intros x. rewrite Hmem. split.
    + intros Hx. by apply Hnone in Hx.
    + intros Hx. by apply not_elem_of_empty in Hx.
Qed.

Lemma conflicting_family_kept_untouched_family_omitted_witness :
  Forall (fun A => is_Some (get ANALYSIS_REQUIREMENTS A))
    ["ElectricalLosses"; "WakeLosses"] ∧
  ∃ c f,
    determine_analysis_requirements_in ANALYSIS_REQUIREMENTS "columns"
      (AList ["ElectricalLosses"; "WakeLosses"]) = inr (Columns c) ∧
    determine_analysis_requirements_in ANALYSIS_REQUIREMENTS "frequency"
      (AList ["ElectricalLosses"; "WakeLosses"]) = inr (Frequency f) ∧
    (∀ F, c !! F ≠ Some ∅) ∧
    (∀ F, ¬ touched ANALYSIS_REQUIREMENTS ["ElectricalLosses"; "WakeLosses"] F →
       c !! F = None ∧ f !! F = None) ∧
    (∀ F, touched ANALYSIS_REQUIREMENTS ["ElectricalLosses"; "WakeLosses"] F →
       ∃ S, f !! F = Some (FreqSet S) ∧
            ∀ x, x ∈ S ↔
              accepted_by_all ANALYSIS_REQUIREMENTS ["ElectricalLosses"; "WakeLosses"] F x) ∧
    (∀ F, touched ANALYSIS_REQUIREMENTS ["ElectricalLosses"; "WakeLosses"] F →
       (∀ x, ¬ accepted_by_all ANALYSIS_REQUIREMENTS ["ElectricalLosses"; "WakeLosses"] F x) →
       f !! F = Some (FreqSet ∅)).
Proof.
  assert (Hall : Forall (fun A => is_Some (get ANALYSIS_REQUIREMENTS A))
                   ["ElectricalLosses"; "WakeLosses"]).
  { repeat (apply List.Forall_cons; [eexists; reflexivity |]). apply List.Forall_nil. }
  split; [exact Hall |].
  exact (conflicting_family_kept_untouched_family_omitted
           ANALYSIS_REQUIREMENTS ["ElectricalLosses"; "WakeLosses"] Hall).
Defined.

(** On the conflicting catalogue the two analyses leave ["scada"] with the
    empty set, ["meter"] with the classes of the one analysis touching it, and
    every other family without a key. *)
Example conflicting_catalog_frequency :
  determine_analysis_requirements_in conflicting_catalog "frequency"
    (AList ["Coarse"; "Fine"])
  = inr (Frequency {[ "scada" := FreqSet ∅; "meter" := FreqSet {[ "M"; "MS" ]} ]}).
Proof. vm_compute. reflexivity. Qed.

(** ** Two analyses *)

Lemma select_one (C : catalog) A r :
  get C A = Some r → select_requirements C [A] [] = inr [(A, r)].
Proof. intros Hr. simpl. by rewrite Hr. Qed.

Lemma freq_pairs_one A (r : analysis_requirement) :
  freq_pairs [(A, r)]
  = map (fun nv : string * family_requirement => (nv.1, freq nv.2)) r.
Proof. unfold freq_pairs. simpl. apply app_nil_r. Qed.

Lemma freq_pairs_two A B (rA rB : analysis_requirement) :
  freq_pairs [(A, rA); (B, rB)] = freq_pairs [(A, rA)] ++ freq_pairs [(B, rB)].
Proof. unfold freq_pairs. simpl. by rewrite !app_nil_r. Qed.

Lemma meet_opt_idemp o : meet_opt o o = o.
Proof. destruct o as [e|]; simpl; [by rewrite meet_idemp | done]. Qed.

(** C4. For every two catalogue analyses A and B, the frequency resolution of
    [A, B] at each family is the intersection of the resolutions of [A] and of
    [B] at that family, a family absent from one of them being left
    unconstrained by it. *)
Theorem frequency_intersection_distributes (A B : string)
  (rA rB : analysis_requirement) :
  get ANALYSIS_REQUIREMENTS A = Some rA →
  get ANALYSIS_REQUIREMENTS B = Some rB →
  ∃ fAB fA fB,
    determine_analysis_requirements "frequency" (AList [A; B]) = inr (Frequency fAB) ∧
    determine_analysis_requirements "frequency" (AList [A]) = inr (Frequency fA) ∧
    determine_analysis_requirements "frequency" (AList [B]) = inr (Frequency fB) ∧
    ∀ F, fAB !! F = meet_opt (fA !! F) (fB !! F).
Proof.
  unfold determine_analysis_requirements.
  generalize ANALYSIS_REQUIREMENTS. intros C HA HB.
  destruct (frequency_result [(A, rA)]) as (fA & HrunA & HfA).
  destruct (frequency_result [(B, rB)]) as (fB & HrunB & HfB).
  assert (HdA := determine_frequency_selected C [A] _ (select_one C A rA HA)).
  assert (HdB := determine_frequency_selected C [B] _ (select_one C B rB HB)).
  rewrite HrunA in HdA. rewrite HrunB in HdB. simpl in HdA, HdB.
  destruct (String.eqb_spec A B) as [->|Hne].
  - (* the same analysis twice: the comprehension keeps one entry *)
    assert (rA = rB) as -> by congruence.
    exists fA, fA, fA. repeat split; try done.
    + rewrite (determine_frequency_selected C [B; B] [(B, rB)]).
      * by rewrite HrunA.
      * simpl. by rewrite HB, String.eqb_refl.
    + intros F. by rewrite meet_opt_idemp.
  - (* two analyses: the loop runs over the entries of A, then those of B *)
    destruct (frequency_result [(A, rA); (B, rB)]) as (fAB & Hrun & HfAB).
    exists fAB, fA, fB. repeat split; try done.
    + rewrite (determine_frequency_selected C [A; B] [(A, rA); (B, rB)]).
      * by rewrite Hrun.
      * simpl. rewrite HA, HB. apply String.eqb_neq in Hne. by rewrite Hne.
    + intros F. rewrite HfAB, HfA, HfB, freq_pairs_two, reqs_for_app.
      destruct (reqs_for F (freq_pairs [(A, rA)])) as [|a la];
        destruct (reqs_for F (freq_pairs [(B, rB)])) as [|b lb]; try done.
      * by rewrite app_nil_r.
      * change ((a :: la) ++ b :: lb) with (a :: (la ++ b :: lb)).
        cbv iota. change (a :: (la ++ b :: lb)) with ((a :: la) ++ b :: lb).
        by rewrite foldl_absorb_app.
Qed.

Lemma frequency_intersection_distributes_witness :
  ∃ fAB fA fB,
    determine_analysis_requirements "frequency"
      (AList ["MonteCarloAEP"; "WakeLosses"]) = inr (Frequency fAB) ∧
    determine_analysis_requirements "frequency" (AList ["MonteCarloAEP"])
      = inr (Frequency fA) ∧
    determine_analysis_requirements "frequency" (AList ["WakeLosses"])
      = inr (Frequency fB) ∧
    ∀ F, fAB !! F = meet_opt (fA !! F) (fB !! F).
Proof.
  eapply (frequency_intersection_distributes "MonteCarloAEP" "WakeLosses");
    reflexivity.
Defined.

(** ** The method and the function *)

Lemma all_not_in_map_Some (names : list string) :
  "all" ∉ names → (Some "all" : option string) ∉ map Some names.
Proof.
  intros Hno Hin. apply Hno.
  apply list_elem_of_In, in_map_iff in Hin as (x & [= ->] & Hx).
  by apply list_elem_of_In.
Qed.

Lemma omap_id_map_Some (names : list string) : omap id (map Some names) = names.
Proof. induction names as [|A names IH]; [done |]. simpl. f_equal. exact IH. Qed.

Lemma frequency_requirements_selected (host : Host) (C : catalog)
  (self : PlantMetaData.t host) (names : list string) :
  "all" ∉ names →
  sum_map id Frequency
    (PlantMetaData.frequency_requirements_in host C self (map Some names))
  = determine_analysis_requirements_in C "frequency" (AList names).
Proof.
  intros Hno. unfold PlantMetaData.frequency_requirements_in.
  rewrite bool_decide_false by by apply all_not_in_map_Some.
  rewrite omap_id_map_Some.
  destruct (select_requirements C names []) as [e|reqs] eqn:Hsel; simpl.
  - unfold determine_analysis_requirements_in. by rewrite Hsel.
  - by rewrite (determine_frequency_selected C names reqs Hsel).
Qed.

(** C7. For every list of analysis names without the wildcard,
    [PlantMetaData.frequency_requirements] and
    [determine_analysis_requirements] with ["frequency"] return the same
    mapping, or raise the same exception. *)
Theorem frequency_requirements_agrees_with_resolver (host : Host)
  (self : PlantMetaData.t host) (names : list string) :
  "all" ∉ names →
  sum_map id Frequency
    (PlantMetaData.frequency_requirements host self (map Some names))
  = determine_analysis_requirements "frequency" (AList names).
Proof.
  intros Hno.
  unfold PlantMetaData.frequency_requirements, determine_analysis_requirements.
  generalize ANALYSIS_REQUIREMENTS. intros C.
  unfold PlantMetaData.frequency_requirements_in.
  (* the wildcard test fails and the filter on None keeps every name *)
  rewrite bool_decide_false by by apply all_not_in_map_Some.
  rewrite omap_id_map_Some.
  destruct (select_requirements C names []) as [e|reqs] eqn:Hsel; simpl.
  - (* both raise the same KeyError *)
    unfold determine_analysis_requirements_in. by rewrite Hsel.
  - (* both run the same loops over the same requirements *)
    by rewrite (determine_frequency_selected C names reqs Hsel).
Qed.

(** ** The wildcard *)

Lemma frequency_requirements_all (host : Host) (self : PlantMetaData.t host)
  (analysis_types : list (option string)) :
  Some "all" ∈ analysis_types →
  PlantMetaData.frequency_requirements host self analysis_types
  = PlantMetaData.frequency_requirements host self
      (map Some (map fst ANALYSIS_REQUIREMENTS)).
Proof.
  intros Hall. unfold PlantMetaData.frequency_requirements.
  unfold PlantMetaData.frequency_requirements_in at 1.
  rewrite bool_decide_true by done. vm_compute. reflexivity.
Qed.

(** C6, as the code has it. A list holding the wildcard ["all"] makes
    [PlantMetaData.frequency_requirements] return what it returns for the full
    list of catalogue names, which is also what
    [determine_analysis_requirements] returns for that list;
    [determine_analysis_requirements] itself has no wildcard and raises
    [KeyError] on ["all"], whatever is asked of it. *)
Theorem wildcard_only_in_frequency_requirements (host : Host)
  (self : PlantMetaData.t host) (analysis_types : list (option string)) :
  Some "all" ∈ analysis_types →
  PlantMetaData.frequency_requirements host self analysis_types
  = PlantMetaData.frequency_requirements host self
      (map Some (map fst ANALYSIS_REQUIREMENTS)) ∧
  sum_map id Frequency
    (PlantMetaData.frequency_requirements host self analysis_types)
  = determine_analysis_requirements "frequency"
      (AList (map fst ANALYSIS_REQUIREMENTS)) ∧
  ∀ which,
    determine_analysis_requirements which (AStr "all") = inl (KeyError "all") ∧
    determine_analysis_requirements which (AList ["all"]) = inl (KeyError "all").
Proof.
  intros Hall. split; [by apply frequency_requirements_all |]. split.
  - rewrite (frequency_requirements_all host self analysis_types Hall).
    apply frequency_requirements_selected.
    apply (bool_decide_unpack _). vm_compute. exact I.
  - intros which. split; reflexivity.
Qed.

Lemma frequency_requirements_agrees_with_resolver_witness :
  ∃ self : PlantMetaData.t (example_host []),
    PlantMetaData.from_dict (example_host []) (VDict []) = inr self ∧
    ("all" ∉ ["ElectricalLosses"; "WakeLosses"]) ∧
    sum_map id Frequency
      (PlantMetaData.frequency_requirements (example_host []) self
         (map Some ["ElectricalLosses"; "WakeLosses"]))
    = determine_analysis_requirements "frequency"
        (AList ["ElectricalLosses"; "WakeLosses"]).
Proof.
  destruct (PlantMetaData.from_dict (example_host []) (VDict [])) as [e|self] eqn:Hself.
  { vm_compute in Hself. discriminate Hself. }
  exists self. split; [reflexivity |].
  assert (Hno : "all" ∉ ["ElectricalLosses"; "WakeLosses"]).
  { apply (bool_decide_unpack _). vm_compute. exact I. }
  split; [exact Hno |].
  exact (frequency_requirements_agrees_with_resolver (example_host []) self
           ["ElectricalLosses"; "WakeLosses"] Hno).
Defined.

Lemma wildcard_only_in_frequency_requirements_witness :
  ∃ self : PlantMetaData.t (example_host []),
    PlantMetaData.from_dict (example_host []) (VDict []) = inr self ∧
    Some "all" ∈ [None; Some "all"; Some "NoSuchAnalysis"] ∧
    PlantMetaData.frequency_requirements (example_host []) self
      [None; Some "all"; Some "NoSuchAnalysis"]
    = PlantMetaData.frequency_requirements (example_host []) self
        (map Some (map fst ANALYSIS_REQUIREMENTS)).
Proof.
  destruct (PlantMetaData.from_dict (example_host []) (VDict [])) as [e|self] eqn:Hself.
  { vm_compute in Hself. discriminate Hself. }
  exists self. split; [reflexivity |].
  assert (Hin : Some "all" ∈ [None; Some "all"; Some "NoSuchAnalysis"]).
  { apply (bool_decide_unpack _). vm_compute. exact I. }
  split; [exact Hin |].
  exact (proj1 (wildcard_only_in_frequency_requirements (example_host []) self
                  [None; Some "all"; Some "NoSuchAnalysis"] Hin)).
Defined.

(** C6, as stated, fails: for the resolver ["all"] is an unknown analysis
    name, while the full list of names resolves. *)
Lemma wildcard_unknown_to_resolver :
  determine_analysis_requirements "columns" (AStr "all") = inl (KeyError "all") ∧
  determine_analysis_requirements "frequency" (AStr "all") = inl (KeyError "all") ∧
  determine_analysis_requirements "columns" (AStr "all")
  ≠ determine_analysis_requirements "columns"
      (AList ["MonteCarloAEP"; "TurbineLongTermGrossEnergy"; "ElectricalLosses";
              "WakeLosses"]) ∧
  determine_analysis_requirements "frequency" (AStr "all")
  ≠ determine_analysis_requirements "frequency"
      (AList ["MonteCarloAEP"; "TurbineLongTermGrossEnergy"; "ElectricalLosses";
              "WakeLosses"]).
Proof.
  split; [reflexivity |]. split; [reflexivity |].
  split; intros Heq; vm_compute in Heq; discriminate Heq.
Qed.

(** ** Unknown names and the empty list *)

Lemma frequency_requirements_unknown (host : Host) (C : catalog)
  (self : PlantMetaData.t host) (analysis_types : list (option string))
  (pre post : list string) (bad : string) :
  Some "all" ∉ analysis_types →
  omap id analysis_types = pre ++ bad :: post →
  Forall (fun A => is_Some (get C A)) pre →
  get C bad = None →
  PlantMetaData.frequency_requirements_in host C self analysis_types
  = inl (KeyError bad).
Proof.
  intros Hno Hnames Hpre Hbad. unfold PlantMetaData.frequency_requirements_in.
  rewrite bool_decide_false by done. rewrite Hnames.
  by rewrite (select_requirements_bad _ _ _ _ _ Hpre Hbad).
Qed.

(** C2, as the code has it. An analysis name missing from the catalogue makes
    either entry point raise [KeyError] with the first such name, a
    configuration error (the method, only when the list does not hold the
    wildcard); the empty list raises nothing, and every result is then the
    empty mapping. *)
Theorem unknown_name_raises_empty_list_resolves (host : Host)
  (self : PlantMetaData.t host) (which : string)
  (pre post : list string) (bad : string) :
  Forall (fun A => is_Some (get ANALYSIS_REQUIREMENTS A)) pre →
  get ANALYSIS_REQUIREMENTS bad = None →
  determine_analysis_requirements which (AList (pre ++ bad :: post))
    = inl (KeyError bad) ∧
  determine_analysis_requirements which (AStr bad) = inl (KeyError bad) ∧
  class_of (KeyError bad) = ConfigurationError ∧
  (∀ analysis_types : list (option string),
     Some "all" ∉ analysis_types →
     omap id analysis_types = pre ++ bad :: post →
     PlantMetaData.frequency_requirements host self analysis_types
       = inl (KeyError bad)) ∧
  determine_analysis_requirements "columns" (AList []) = inr (Columns ∅) ∧
  determine_analysis_requirements "frequency" (AList []) = inr (Frequency ∅) ∧
  determine_analysis_requirements "both" (AList []) = inr (Both ∅ ∅) ∧
  PlantMetaData.frequency_requirements host self [] = inr ∅.
Proof.
  intros Hpre Hbad.
  split; [by apply determine_unknown |].
  split; [by apply (determine_unknown ANALYSIS_REQUIREMENTS which [] bad []) |].
  split; [done |].
  split; [intros analysis_types Hno Hnames;
          by apply (frequency_requirements_unknown host _ self _ pre post) |].
  repeat split; reflexivity.
Qed.

Lemma unknown_name_raises_empty_list_resolves_witness :
  ∃ self : PlantMetaData.t (example_host []),
    PlantMetaData.from_dict (example_host []) (VDict []) = inr self ∧
    Forall (fun A => is_Some (get ANALYSIS_REQUIREMENTS A)) ["WakeLosses"] ∧
    get ANALYSIS_REQUIREMENTS "StaticYawMisalignment" = None ∧
    determine_analysis_requirements "both"
      (AList ["WakeLosses"; "StaticYawMisalignment"; "NoSuchAnalysis"])
    = inl (KeyError "StaticYawMisalignment") ∧
    PlantMetaData.frequency_requirements (example_host []) self
      [Some "WakeLosses"; None; Some "StaticYawMisalignment"; Some "NoSuchAnalysis"]
    = inl (KeyError "StaticYawMisalignment").
Proof.
  destruct (PlantMetaData.from_dict (example_host []) (VDict [])) as [e|self] eqn:Hself.
  { vm_compute in Hself. discriminate Hself. }
  exists self. split; [reflexivity |].
  assert (Hpre : Forall (fun A => is_Some (get ANALYSIS_REQUIREMENTS A)) ["WakeLosses"]).
  { apply List.Forall_cons; [eexists; reflexivity | apply List.Forall_nil]. }
  assert (Hbad : get ANALYSIS_REQUIREMENTS "StaticYawMisalignment" = None)
    by reflexivity.
  split; [exact Hpre |]. split; [exact Hbad |].
  destruct (unknown_name_raises_empty_list_resolves (example_host []) self "both"
              ["WakeLosses"] ["NoSuchAnalysis"] "StaticYawMisalignment" Hpre Hbad)
    as (Hd & _ & _ & Hm & _).
  split; [exact Hd |].
  apply Hm; [|reflexivity].
  apply (bool_decide_unpack _). vm_compute. exact I.
Defined.

(** C2, as stated, fails on the empty list: nothing is raised. *)
Lemma empty_list_does_not_raise :
  determine_analysis_requirements "columns" (AList []) = inr (Columns ∅) ∧
  ¬ ∃ e, determine_analysis_requirements "columns" (AList []) = inl e ∧
         class_of e = ConfigurationError.
Proof.
  split; [reflexivity |]. intros (e & He & _). vm_compute in He. discriminate He.
Qed.

(** ** One analysis *)

(** C3. For every catalogue analysis A, resolving the list [A] returns the
    sets the catalogue declares for A, family by family: its mandatory columns
    and its accepted classes; for ["ElectricalLosses"] these are the columns
    asset_id and WTUR_W for scada and MMTR_SupWh for meter, and for meter the
    classes from monthly to the finest. *)
Theorem singleton_returns_declared_sets (A : string) (r : analysis_requirement) :
  get ANALYSIS_REQUIREMENTS A = Some r →
  determine_analysis_requirements "columns" (AList [A])
    = inr (Columns (declared_columns r)) ∧
  determine_analysis_requirements "frequency" (AList [A])
    = inr (Frequency (declared_frequency r)) ∧
  (A = "ElectricalLosses" →
   determine_analysis_requirements "columns" (AList [A])
     = inr (Columns {[ "scada" := {[ "asset_id"; "WTUR_W" ]};
                       "meter" := {[ "MMTR_SupWh" ]} ]}) ∧
   ∃ f, determine_analysis_requirements "frequency" (AList [A]) = inr (Frequency f) ∧
        f !! "meter" = Some (FreqSet (list_to_set _at_least_monthly))).
Proof.
  intros Hr. apply get_Some_elem in Hr. unfold ANALYSIS_REQUIREMENTS in Hr.
  repeat (apply elem_of_cons in Hr as [Hr|Hr];
          [injection Hr as -> ->;
           split; [vm_compute; reflexivity |];
           split; [vm_compute; reflexivity |];
           intros HA; try discriminate HA |]).
  - split; [vm_compute; reflexivity |].
    eexists. split; [vm_compute; reflexivity | vm_compute; reflexivity].
  - by apply elem_of_nil in Hr.
Qed.

Lemma singleton_returns_declared_sets_witness :
  get ANALYSIS_REQUIREMENTS "ElectricalLosses"
    = Some [ ("scada",
               {| columns := ["asset_id"; "WTUR_W"];
                  conditional_columns := [];
                  freq := _at_least_daily |});
             ("meter",
               {| columns := ["MMTR_SupWh"];
                  conditional_columns := [];
                  freq := _at_least_monthly |}) ] ∧
  determine_analysis_requirements "columns" (AList ["ElectricalLosses"])
    = inr (Columns {[ "scada" := {[ "asset_id"; "WTUR_W" ]};
                      "meter" := {[ "MMTR_SupWh" ]} ]}) ∧
  ∃ f, determine_analysis_requirements "frequency" (AList ["ElectricalLosses"])
         = inr (Frequency f) ∧
       f !! "meter" = Some (FreqSet (list_to_set _at_least_monthly)).
Proof.
  split; [reflexivity |].
  exact (proj2 (proj2 (singleton_returns_declared_sets "ElectricalLosses" _ eq_refl))
           eq_refl).
Defined.

(** ** Columns against the specification's wording *)

Lemma spec_conditional_no_flags r F : spec_conditional ∅ r F = ∅.
Proof.
  unfold spec_conditional. destruct (get r F) as [f|]; [|done].
  assert (Hnone : ∀ l : list (string * list string),
            List.filter (fun fc => bool_decide (fc.1 ∈ (∅ : gset string))) l = []).
  { induction l as [|fc l IH]; [done |]. cbn [List.filter].
    rewrite bool_decide_false by apply not_elem_of_empty. exact IH. }
  by rewrite Hnone.
Qed.

Lemma spec_mandatory_columns_of r F :
  spec_mandatory r F = list_to_set (columns_of r F).
Proof. unfold spec_mandatory, columns_of. by destruct (get r F). Qed.

Lemma catalog_columns_ok_spec (C : catalog) A r F f :
  catalog_columns_ok C = true →
  get C A = Some r → (F, f) ∈ r →
  F ∈ categories ∧ columns f ≠ [].
Proof.
  intros Hok Hr HFf. unfold catalog_columns_ok in Hok.
  rewrite forallb_forall in Hok.
  assert (HAr : In (A, r) C) by (apply list_elem_of_In; by apply get_Some_elem).
  apply Hok in HAr. simpl in HAr. rewrite forallb_forall in HAr.
  apply list_elem_of_In, HAr in HFf. simpl in HFf.
  apply andb_prop in HFf as [Hcat Hcols].
  apply bool_decide_eq_true in Hcat. apply negb_true_iff in Hcols.
  apply bool_decide_eq_false in Hcols. done.
Qed.

Lemma columns_match_spec (C : catalog) (names : list string)
  (requirements : catalog) :
  catalog_columns_ok C = true →
  (∀ A r, (A, r) ∈ requirements ↔ A ∈ names ∧ get C A = Some r) →
  column_requirements requirements = spec_resolve_columns C names ∅.
Proof.
  intros Hok Hreqs. apply map_eq. intros F. apply option_eq. intros S.
  rewrite column_requirements_lookup. cbv zeta.
  unfold spec_resolve_columns.
  rewrite lookup_set_to_map by (by intros ?? _ _ ?).
  set (colset := list_to_set (concat (map (fun kr : string * analysis_requirement =>
                                              columns_of kr.2 F) requirements))
                 : gset string).
  set (selected := omap (get C) names).
  assert (Hsel : ∀ r, r ∈ selected ↔ ∃ A, A ∈ names ∧ get C A = Some r).
  { intros r. unfold selected. apply list_elem_of_omap. }
  assert (HU : ⋃ (map (fun r => spec_mandatory r F ∪ spec_conditional ∅ r F) selected)
               = colset).
  { apply set_eq. intros x. unfold colset.
    rewrite elem_of_union_list, elem_of_column_set. split.
    - intros (X & HX & Hx).
      apply list_elem_of_In, in_map_iff in HX as (r & <- & Hr).
      apply list_elem_of_In, Hsel in Hr as (A & HA & Hr).
      rewrite spec_conditional_no_flags, spec_mandatory_columns_of in Hx.
      rewrite union_empty_r_L, elem_of_list_to_set in Hx.
      exists A, r. split; [by apply Hreqs | done].
    - intros (A & r & HAr & Hx). apply Hreqs in HAr as [HA Hr].
      exists (spec_mandatory r F ∪ spec_conditional ∅ r F). split.
      + apply list_elem_of_In, in_map_iff. exists r. split; [done |].
        apply list_elem_of_In, Hsel. by exists A.
      + rewrite spec_conditional_no_flags, spec_mandatory_columns_of.
        by rewrite union_empty_r_L, elem_of_list_to_set. }
  assert (Hfam : F ∈ (list_to_set (concat (map (map fst) selected)) : gset string)
                 ↔ F ∈ categories ∧ colset ≠ ∅).
  { rewrite elem_of_list_to_set, list_elem_of_In, in_concat. split.
    - intros (l & Hl & HF). apply in_map_iff in Hl as (r & <- & Hr).
      apply list_elem_of_In, Hsel in Hr as (A & HA & Hr).
      apply in_map_iff in HF as ([F' f] & HF' & HFf). simpl in HF'. subst F'.
      apply list_elem_of_In in HFf.
      destruct (elem_get_is_Some _ _ _ HFf) as [f' Hf'].
      destruct (catalog_columns_ok_spec C A r F f' Hok Hr (get_Some_elem _ _ _ Hf'))
        as [Hcat Hcols].
      split; [done |]. destruct (columns f') as [|x cols] eqn:Hcs; [done |].
      intros Hempty. apply (not_elem_of_empty (C := gset string) x).
      rewrite <- Hempty. unfold colset. apply elem_of_column_set.
      exists A, r. split; [by apply Hreqs |].
      unfold columns_of. rewrite Hf', Hcs. apply list_elem_of_here.
    - intros [_ Hne]. apply set_choose_L in Hne as [x Hx].
      unfold colset in Hx. apply elem_of_column_set in Hx as (A & r & HAr & Hx).
      apply Hreqs in HAr as [HA Hr].
      apply columns_of_elem in Hx as (f & HFf & _).
      exists (map fst r). split.
      + apply in_map_iff. exists r. split; [done |].
        apply list_elem_of_In, Hsel. by exists A.
      + apply in_map_iff. exists (F, f). split; [done | by apply list_elem_of_In]. }
  split.
  - intros Hlook. exists F. repeat case_decide; try discriminate Hlook.
    injection Hlook as <-. split; [by apply Hfam |]. by rewrite HU.
  - intros (F' & HF' & Heq). injection Heq as -> <-.
    apply Hfam in HF' as [Hcat Hne].
    rewrite decide_True by done. rewrite decide_False by done. by rewrite HU.
Qed.

Lemma catalog_columns_ok_ANALYSIS_REQUIREMENTS :
  catalog_columns_ok ANALYSIS_REQUIREMENTS = true.
Proof. vm_compute. reflexivity. Qed.

(** C1, as the code has it. For every list of catalogue analysis names,
    column resolution returns, for each family touched by a selected analysis,
    the union over the selected analyses of the mandatory columns for the
    family, and nothing else: the resolver takes no configuration flags, and
    its result is the one the specification describes for the empty set of
    flags. *)
Theorem columns_are_the_mandatory_columns (names : list string) :
  Forall (fun A => is_Some (get ANALYSIS_REQUIREMENTS A)) names →
  ∃ c,
    determine_analysis_requirements "columns" (AList names) = inr (Columns c) ∧
    c = spec_resolve_columns ANALYSIS_REQUIREMENTS names ∅ ∧
    ∀ F cols, c !! F = Some cols →
      ∀ x, x ∈ cols ↔
        ∃ A r f, A ∈ names ∧ get ANALYSIS_REQUIREMENTS A = Some r ∧
                 get r F = Some f ∧ x ∈ columns f.
Proof.
  intros Hall.
  destruct (selected_spec ANALYSIS_REQUIREMENTS names Hall) as (reqs & Hsel & Hreqs).
  exists (column_requirements reqs).
  split; [by apply determine_columns_selected |].
  split; [by apply columns_match_spec; [apply catalog_columns_ok_ANALYSIS_REQUIREMENTS |] |].
  intros F cols Hlook x. rewrite column_requirements_lookup in Hlook. cbv zeta in Hlook.
  repeat case_decide; try discriminate Hlook. injection Hlook as <-.
  rewrite elem_of_column_set. split.
  - intros (A & r & HAr & Hx). apply Hreqs in HAr as [HA Hr].
    unfold columns_of in Hx. destruct (get r F) as [f|] eqn:Hf.
    + by exists A, r, f.
    + by apply not_elem_of_nil in Hx.
  - intros (A & r & f & HA & Hr & Hf & Hx). exists A, r.
    split; [by apply Hreqs |]. unfold columns_of. by rewrite Hf.
Qed.

Lemma columns_are_the_mandatory_columns_witness :
  Forall (fun A => is_Some (get ANALYSIS_REQUIREMENTS A))
    ["MonteCarloAEP"; "WakeLosses"] ∧
  ∃ c,
    determine_analysis_requirements "columns" (AList ["MonteCarloAEP"; "WakeLosses"])
      = inr (Columns c) ∧
    c = spec_resolve_columns ANALYSIS_REQUIREMENTS ["MonteCarloAEP"; "WakeLosses"] ∅ ∧
    ∀ F cols, c !! F = Some cols →
      ∀ x, x ∈ cols ↔
        ∃ A r f, A ∈ ["MonteCarloAEP"; "WakeLosses"] ∧
                 get ANALYSIS_REQUIREMENTS A = Some r ∧
                 get r F = Some f ∧ x ∈ columns f.
Proof.
  assert (Hall : Forall (fun A => is_Some (get ANALYSIS_REQUIREMENTS A))
                   ["MonteCarloAEP"; "WakeLosses"]).
  { repeat (apply List.Forall_cons; [eexists; reflexivity |]). apply List.Forall_nil. }
  split; [exact Hall |].
  exact (columns_are_the_mandatory_columns ["MonteCarloAEP"; "WakeLosses"] Hall).
Defined.

(** C1, as stated, fails: with the flag reg_temperature active the
    specification adds WMETR_EnvTmp to the reanalysis columns of
    MonteCarloAEP, and the resolver returns the mandatory columns alone. *)
Lemma conditional_columns_not_resolved :
  determine_analysis_requirements "columns" (AList ["MonteCarloAEP"])
    = inr (Columns {[ "meter" := {[ "MMTR_SupWh" ]};
                      "curtail" := {[ "IAVL_DnWh"; "IAVL_ExtPwrDnWh" ]};
                      "reanalysis" := {[ "WMETR_HorWdSpd"; "WMETR_AirDen" ]} ]}) ∧
  spec_resolve_columns ANALYSIS_REQUIREMENTS ["MonteCarloAEP"] {[ "reg_temperature" ]}
    !! "reanalysis"
    = Some {[ "WMETR_HorWdSpd"; "WMETR_AirDen"; "WMETR_EnvTmp" ]} ∧
  determine_analysis_requirements "columns" (AList ["MonteCarloAEP"])
  ≠ inr (Columns (spec_resolve_columns ANALYSIS_REQUIREMENTS ["MonteCarloAEP"]
                    {[ "reg_temperature" ]})).
Proof.
  split; [vm_compute; reflexivity |].
  split; [vm_compute; reflexivity |].
  intros Heq. vm_compute in Heq. discriminate Heq.
Qed.

(** ** Loading plant metadata *)

(** C8. Loading from a path whose suffix is none of .json, .yaml and .yml
    raises a configuration error; loading from a path with one of these
    suffixes at which there is no file raises the not-found error; a string is
    loaded as the path it resolves to; and a source that is neither an
    instance, a mapping, a string nor a path raises a configuration error. *)
Theorem load_rejects_bad_sources (host : Host) (p : Path) :
  (suffix host p ∉ [".json"; ".yaml"; ".yml"] →
   ∃ msg, PlantMetaData.load host (PlantMetaData.SrcPath host p) = inl (ValueError msg) ∧
          class_of (ValueError msg) = ConfigurationError) ∧
  (suffix host p ∈ [".json"; ".yaml"; ".yml"] →
   is_file host (resolve host p) = false →
   ∃ format,
     PlantMetaData.load host (PlantMetaData.SrcPath host p)
       = inl (FileExistsError format (resolve host p)) ∧
     class_of (FileExistsError format (resolve host p)) = NotFoundError) ∧
  (∀ s, PlantMetaData.load host (PlantMetaData.SrcStr host s)
        = PlantMetaData.load host
            (PlantMetaData.SrcPath host (resolve host (mkPath s)))) ∧
  (∃ msg, PlantMetaData.load host (PlantMetaData.SrcOther host) = inl (ValueError msg) ∧
          class_of (ValueError msg) = ConfigurationError).
Proof.
  split; [|split; [|split]].
  - intros Hbad. eexists. split; [|reflexivity].
    unfold PlantMetaData.load, PlantMetaData.load_path.
    destruct (String.eqb_spec (suffix host p) ".json") as [Heq|_].
    { exfalso. apply Hbad. rewrite Heq. apply list_elem_of_here. }
    rewrite bool_decide_false; [reflexivity |].
    intros Hin. apply Hbad. by apply list_elem_of_further.
  - intros Hgood Hmissing.
    unfold PlantMetaData.load, PlantMetaData.load_path.
    destruct (String.eqb_spec (suffix host p) ".json") as [Heq|Hne].
    + exists "JSON". unfold PlantMetaData.from_json. by rewrite Hmissing.
    + apply elem_of_cons in Hgood as [Heq|Hgood]; [done |].
      rewrite bool_decide_true by done.
      exists "YAML". unfold PlantMetaData.from_yaml. by rewrite Hmissing.
  - reflexivity.
  - eexists. split; reflexivity.
Qed.

Lemma load_rejects_bad_sources_witness :
  (suffix (example_host []) (mkPath "plant.txt") ∉ [".json"; ".yaml"; ".yml"]) ∧
  (suffix (example_host []) (mkPath "plant.yml") ∈ [".json"; ".yaml"; ".yml"]) ∧
  is_file (example_host []) (resolve (example_host []) (mkPath "plant.yml")) = false ∧
  (∃ msg,
     PlantMetaData.load (example_host [])
       (PlantMetaData.SrcPath (example_host []) (mkPath "plant.txt"))
     = inl (ValueError msg)) ∧
  (∃ format,
     PlantMetaData.load (example_host [])
       (PlantMetaData.SrcPath (example_host []) (mkPath "plant.yml"))
     = inl (FileExistsError format (mkPath "plant.yml"))).
Proof.
  assert (Hbad : suffix (example_host []) (mkPath "plant.txt")
                 ∉ [".json"; ".yaml"; ".yml"]).
  { apply (bool_decide_unpack _). vm_compute. exact I. }
  assert (Hgood : suffix (example_host []) (mkPath "plant.yml")
                  ∈ [".json"; ".yaml"; ".yml"]).
  { apply (bool_decide_unpack _). vm_compute. exact I. }
  split; [exact Hbad |]. split; [exact Hgood |]. split; [reflexivity |].
  split.
  - destruct (proj1 (load_rejects_bad_sources (example_host []) (mkPath "plant.txt"))
                Hbad) as (msg & Hload & _).
    exists msg. exact Hload.
  - destruct (proj1 (proj2 (load_rejects_bad_sources (example_host [])
                              (mkPath "plant.yml"))) Hgood eq_refl)
      as (format & Hload & _).
    exists format. exact Hload.
Defined.

(** ** Keyword arguments selected from a dictionary *)

Lemma select_kwargs_dict (attrs : list attribute) (d : list (string * value)) :
  ∃ kwargs,
    FromDictMixin.select_kwargs attrs (VDict d) = inr kwargs ∧
    (∀ n, get kwargs n
          = if existsb (fun a => a_init a && String.eqb (a_name a) n) attrs
            then get d n else None) ∧
    (∀ n v, (n, v) ∈ kwargs → (n, v) ∈ d).
Proof.
  induction attrs as [|a attrs (kwargs & Hsel & Hget & Hsub)].
  - exists []. split; [done |]. split; [done |].
    intros n v Hin. by apply elem_of_nil in Hin.
  - cbn [FromDictMixin.select_kwargs contains bind ret].
    destruct (get d (a_name a)) as [v|] eqn:Hd.
    + rewrite bool_decide_true by eauto. cbn [andb].
      destruct (a_init a) eqn:Hinit.
      * cbn [getitem]. rewrite Hd. cbn [bind ret]. rewrite Hsel. cbn [bind ret].
        exists ((a_name a, v) :: kwargs). split; [done |]. split.
        -- intros n. cbn [get existsb]. rewrite Hinit. cbn [andb].
           destruct (String.eqb_spec (a_name a) n) as [<-|Hne]; cbn [orb].
           ++ by rewrite Hd.
           ++ apply Hget.
        -- intros n v' Hin. apply elem_of_cons in Hin as [[= -> ->]|Hin].
           ++ by apply get_Some_elem.
           ++ by apply Hsub.
      * exists kwargs. split; [done |]. split; [|done].
        intros n. cbn [existsb]. rewrite Hinit. cbn [andb orb]. apply Hget.
    + rewrite bool_decide_false by (by intros [? [=]]). cbn [andb].
      exists kwargs. split; [done |]. split; [|done].
      intros n. cbn [existsb]. rewrite Hget.
      destruct (a_init a); cbn [andb orb]; [|done].
      destruct (String.eqb_spec (a_name a) n) as [<-|Hne]; cbn [orb]; [|done].
      rewrite Hd. by destruct (existsb _ attrs).
Qed.

Lemma PlantMetaData_from_dict_dict (host : Host) (d : list (string * value)) :
  ∃ kwargs,
    PlantMetaData.from_dict host (VDict d) = PlantMetaData.__init__ host kwargs ∧
    ∀ n, get kwargs n
         = if existsb (fun a => a_init a && String.eqb (a_name a) n)
                PlantMetaData.attrs
           then get d n else None.
Proof.
  destruct (select_kwargs_dict PlantMetaData.attrs d) as (kwargs & Hsel & Hget & _).
  exists kwargs. split; [|done].
  unfold PlantMetaData.from_dict, FromDictMixin.from_dict. by rewrite Hsel.
Qed.

Lemma PlantMetaData_init_reanalysis (host : Host) kwargs (p : PlantMetaData.t host) :
  PlantMetaData.__init__ host kwargs = inr p →
  convert_reanalysis (kwarg kwargs "reanalysis" (VDict [("product", VDict [])]))
  = inr (PlantMetaData.reanalysis host p).
Proof.
  unfold PlantMetaData.__init__. intros Hinit.
  apply call_init_inr in Hinit as [_ Hinit]. cbv beta zeta in Hinit.
  repeat (apply bind_inr in Hinit as (? & ? & Hinit)).
  injection Hinit as <-. done.
Qed.

Lemma set_item_not_nil {K A} (eqb : K → K → bool) (d : list (K * A)) k v :
  set_item eqb d k v ≠ [].
Proof. destruct d as [|[k' v'] d]; cbn [set_item]; [done |]. by destruct (eqb k' k). Qed.

Lemma convert_items_nil (items : list (string * value))
  (acc : list (string * ReanalysisMetaData.t)) :
  convert_items items acc = inr [] → items = [] ∧ acc = [].
Proof.
  revert acc. induction items as [|[k v] items IH]; intros acc Hrun.
  - by injection Hrun as ->.
  - cbn [convert_items] in Hrun. apply bind_inr in Hrun as (r & _ & Hrun).
    apply IH in Hrun as [_ Hacc]. by apply set_item_not_nil in Hacc.
Qed.

Lemma column_map_reanalysis (host : Host) (p : PlantMetaData.t host) :
  get (PlantMetaData.column_map host p) "reanalysis"
  = Some (VDict (map (fun kv => (kv.1, VDict (ReanalysisMetaData.col_map kv.2)))
                   (PlantMetaData.reanalysis host p))).
Proof.
  unfold PlantMetaData.column_map.
  by destruct (PlantMetaData.reanalysis host p).
Qed.

(** C9, as the code has it. A mapping without a "reanalysis" key, when the
    metadata can be built from it, gives one reanalysis product, named
    "product", with every column at its default, and the "reanalysis" entry of
    [column_map] holds the column map of that product; the collection is
    empty exactly when the mapping gives "reanalysis" as the empty mapping,
    and so is the entry. *)
Theorem missing_reanalysis_gives_default_product (host : Host)
  (d : list (string * value)) (p : PlantMetaData.t host) :
  PlantMetaData.from_dict host (VDict d) = inr p →
  (get d "reanalysis" = None →
   ∃ r, ReanalysisMetaData.from_dict (VDict []) = inr r ∧
        PlantMetaData.reanalysis host p = [("product", r)] ∧
        ReanalysisMetaData.col_map r
          = [ ("time", VStr "time");
              ("WMETR_HorWdSpd", VStr "WMETR_HorWdSpd");
              ("WMETR_HorWdSpdU", VStr "WMETR_HorWdSpdU");
              ("WMETR_HorWdSpdV", VStr "WMETR_HorWdSpdV");
              ("WMETR_HorWdDir", VStr "WMETR_HorWdDir");
              ("WMETR_EnvTmp", VStr "WMETR_EnvTmp");
              ("WMETR_AirDen", VStr "WMETR_AirDen");
              ("WMETR_EnvPres", VStr "surface_pressure") ] ∧
        get (PlantMetaData.column_map host p) "reanalysis"
          = Some (VDict [("product", VDict (ReanalysisMetaData.col_map r))])) ∧
  (PlantMetaData.reanalysis host p = [] ↔ get d "reanalysis" = Some (VDict [])) ∧
  (get (PlantMetaData.column_map host p) "reanalysis" = Some (VDict []) ↔
   get d "reanalysis" = Some (VDict [])).
Proof.
  intros Hp.
  destruct (PlantMetaData_from_dict_dict host d) as (kwargs & Hfrom & Hget).
  rewrite Hfrom in Hp. apply PlantMetaData_init_reanalysis in Hp.
  specialize (Hget "reanalysis"). cbn in Hget.
  unfold kwarg in Hp. rewrite Hget in Hp.
  rewrite column_map_reanalysis.
  remember (PlantMetaData.reanalysis host p) as products eqn:Hproducts.
  assert (Hentry : Some (VDict (map (fun kv : string * ReanalysisMetaData.t =>
                                       (kv.1, VDict (ReanalysisMetaData.col_map kv.2)))
                                  products)) = Some (VDict [])
                   ↔ products = []).
  { split; [|by intros ->]. intros [= Hnil]. by destruct products. }
  rewrite Hentry.
  assert (Hiff : products = [] ↔ get d "reanalysis" = Some (VDict [])).
  { destruct (get d "reanalysis") as [v|] eqn:Hd.
    - destruct v as [| | | | |items]; try discriminate Hp.
      cbn [convert_reanalysis] in Hp. split.
      + intros ->. by apply convert_items_nil in Hp as [-> _].
      + intros [= ->]. by injection Hp as <-.
    - vm_compute in Hp. injection Hp as <-. split; discriminate. }
  split; [|by split].
  intros Hd. rewrite Hd in Hp.
  vm_compute in Hp. injection Hp as <-.
  eexists. split; [vm_compute; reflexivity |].
  split; [reflexivity |]. split; reflexivity.
Qed.

Lemma missing_reanalysis_gives_default_product_witness :
  ∃ p : PlantMetaData.t (example_host []),
    PlantMetaData.from_dict (example_host []) (VDict [("capacity", VNum (QArith_base.Qmake 20 1))])
      = inr p ∧
    get [("capacity", VNum (QArith_base.Qmake 20 1))] "reanalysis" = None ∧
    ∃ r, PlantMetaData.reanalysis (example_host []) p = [("product", r)] ∧
         get (PlantMetaData.column_map (example_host []) p) "reanalysis"
           = Some (VDict [("product", VDict (ReanalysisMetaData.col_map r))]).
Proof.
  destruct (PlantMetaData.from_dict (example_host [])
              (VDict [("capacity", VNum (QArith_base.Qmake 20 1))])) as [e|p] eqn:Hp.
  { vm_compute in Hp. discriminate Hp. }
  exists p. split; [reflexivity |]. split; [reflexivity |].
  destruct (proj1 (missing_reanalysis_gives_default_product (example_host [])
                     [("capacity", VNum (QArith_base.Qmake 20 1))] p Hp) eq_refl)
    as (r & _ & Hproducts & _ & Hmap).
  exists r. split; [exact Hproducts | exact Hmap].
Defined.

(** C9, as stated, fails: the empty mapping is built into metadata that has a
    reanalysis product, and the "reanalysis" entry of its [column_map] is not
    empty. *)
Lemma empty_mapping_has_a_reanalysis_product :
  ∃ p : PlantMetaData.t (example_host []),
    PlantMetaData.from_dict (example_host []) (VDict []) = inr p ∧
    get ([] : list (string * value)) "reanalysis" = None ∧
    PlantMetaData.reanalysis (example_host []) p ≠ [] ∧
    get (PlantMetaData.column_map (example_host []) p) "reanalysis"
      ≠ Some (VDict []).
Proof.
  eexists. split; [vm_compute; reflexivity |]. split; [reflexivity |].
  split; intros Heq; vm_compute in Heq; discriminate Heq.
Qed.

(** The empty mapping is built whenever [float] accepts the default 0. *)
Lemma empty_mapping_builds (host : Host) (z : pyfloat host) :
  float host (VNum (QArith_base.Qmake 0 1)) = inr z →
  ∃ p, PlantMetaData.from_dict host (VDict []) = inr p.
Proof.
  intros Hz.
  destruct (select_kwargs_dict PlantMetaData.attrs []) as (kwargs & Hsel & Hget & _).
  assert (Hfrom : PlantMetaData.from_dict host (VDict [])
                  = PlantMetaData.__init__ host kwargs).
  { unfold PlantMetaData.from_dict, FromDictMixin.from_dict. by rewrite Hsel. }
  rewrite Hfrom. unfold PlantMetaData.__init__.
  rewrite call_init_expected by (by apply (select_kwargs_expected _ (VDict []))).
  assert (Hnone : ∀ n, get kwargs n = None).
  { intros n. rewrite Hget. by destruct (existsb _ _). }
  unfold kwarg. rewrite !Hnone. cbv zeta.
  rewrite Hz. cbn [bind]. eexists. vm_compute. reflexivity.
Qed.

(** ** The reversed column map *)

Lemma is_str_true w v : is_str w v = true ↔ v = VStr w.
Proof.
  destruct v; simpl; try (split; [discriminate | discriminate]).
  rewrite String.eqb_eq. split; [by intros -> | by intros [= ->]].
Qed.

Lemma py_get_set_item_str (acc : list (value * string)) (s w k : string) :
  string_keyed acc →
  py_get (set_item py_eqb acc (VStr s) k) (VStr w)
  = if String.eqb s w then Some k else py_get acc (VStr w).
Proof.
  induction acc as [|[key val] acc IH]; intros Hkeys; [done |].
  destruct (Hkeys key val) as [t ->]; [apply list_elem_of_here |].
  assert (Hacc : string_keyed acc).
  { intros k' v' Hin. eapply Hkeys. by apply list_elem_of_further. }
  cbn [set_item py_eqb py_get].
  destruct (String.eqb_spec t s) as [->|Hts]; cbn [py_get py_eqb].
  - by destruct (String.eqb s w).
  - rewrite (IH Hacc).
    destruct (String.eqb_spec t w) as [->|Htw]; [|done].
    apply not_eq_sym, String.eqb_neq in Hts. by rewrite Hts.
Qed.

Lemma string_keyed_set_item (acc : list (value * string)) (s k : string) :
  string_keyed acc → string_keyed (set_item py_eqb acc (VStr s) k).
Proof.
  induction acc as [|[key val] acc IH]; intros Hkeys k' v' Hin.
  - apply list_elem_of_singleton in Hin as [= -> ->]. eauto.
  - cbn [set_item] in Hin.
    assert (Hacc : string_keyed acc).
    { intros k'' v'' Hin'. eapply Hkeys. by apply list_elem_of_further. }
    destruct (py_eqb key (VStr s)).
    + apply elem_of_cons in Hin as [[= -> ->]|Hin].
      * eapply Hkeys. apply list_elem_of_here.
      * eapply Hkeys. by apply list_elem_of_further.
    + apply elem_of_cons in Hin as [[= -> ->]|Hin].
      * eapply Hkeys. apply list_elem_of_here.
      * by apply (IH Hacc k' v').
Qed.

Lemma reverse_items_strings (items : list (string * value))
  (acc : list (value * string)) :
  string_valued items → string_keyed acc →
  ∃ rev, reverse_items items acc = inr rev ∧
         ∀ w, py_get rev (VStr w) = last_key items w (py_get acc (VStr w)).
Proof.
  revert acc. induction items as [|[k v] items IH]; intros acc Hvals Hkeys.
  - by exists acc.
  - destruct (Hvals k v) as [s ->]; [apply list_elem_of_here |].
    cbn [reverse_items hashable last_key is_str].
    destruct (IH (set_item py_eqb acc (VStr s) k)) as (rev & Hrev & Hget).
    { intros k' v' Hin. eapply Hvals. by apply list_elem_of_further. }
    { by apply string_keyed_set_item. }
    exists rev. split; [done |]. intros w.
    rewrite Hget, py_get_set_item_str by done. done.
Qed.

Lemma last_field_cons k0 v0 (items : list (string * value)) w k :
  last_field ((k0, v0) :: items) w k ↔
  last_field items w k ∨ (k0 = k ∧ v0 = VStr w ∧ ∀ k', (k', VStr w) ∉ items).
Proof.
  split.
  - intros (pre & post & Heq & Hpost). destruct pre as [|p pre]; simpl in Heq.
    + injection Heq as -> -> ->. by right.
    + injection Heq as _ ->. left. by exists pre, post.
  - intros [(pre & post & -> & Hpost)|(-> & -> & Hnone)].
    + by exists ((k0, v0) :: pre), post.
    + by exists [], items.
Qed.

Lemma last_key_spec (items : list (string * value)) w acc k :
  last_key items w acc = Some k ↔
  last_field items w k ∨ (acc = Some k ∧ ∀ k', (k', VStr w) ∉ items).
Proof.
  revert acc. induction items as [|[k0 v0] items IH]; intros acc.
  - simpl. split.
    + intros ->. right. split; [done |]. intros k'. apply not_elem_of_nil.
    + intros [(pre & post & Heq & _)|[-> _]]; [|done].
      by destruct pre.
  - cbn [last_key]. rewrite IH, last_field_cons.
    destruct (is_str w v0) eqn:Hstr.
    + apply is_str_true in Hstr as ->. split.
      * intros [?|[[= ->] Hnone]]; [by left; left | left; right; done].
      * intros [[?|(-> & _ & Hnone)]|[_ Hnone]]; [by left | by right |].
        exfalso. apply (Hnone k0), list_elem_of_here.
    + assert (Hv0 : v0 ≠ VStr w).
      { intros Heq. apply is_str_true in Heq. congruence. }
      split.
      * intros [?|[-> Hnone]]; [by left; left |]. right. split; [done |].
        intros k' Hin. apply elem_of_cons in Hin as [[= _ Heq]|Hin]; [done |].
        by apply (Hnone k').
      * intros [[?|(_ & Heq & _)]|[-> Hnone]]; [by left | done |].
        right. split; [done |]. intros k' Hin.
        apply (Hnone k'). by apply list_elem_of_further.
Qed.

Lemma get_NoDup {A} (d : list (string * A)) k v :
  NoDup (map fst d) → (k, v) ∈ d → get d k = Some v.
Proof.
  induction d as [|[k' v'] d IH]; intros Hnd Hin.
  - by apply elem_of_nil in Hin.
  - simpl in Hnd. apply NoDup_cons in Hnd as [Hk' Hnd]. simpl.
    apply elem_of_cons in Hin as [[= -> ->]|Hin].
    + by rewrite String.eqb_refl.
    + destruct (String.eqb_spec k' k) as [->|Hne]; [|by apply IH].
      exfalso. apply Hk'. apply list_elem_of_In, in_map_iff.
      exists (k, v). split; [done | by apply list_elem_of_In].
Qed.

Lemma kwarg_string (kwargs : list (string * value)) n d :
  string_valued kwargs → ∃ s, kwarg kwargs n (VStr d) = VStr s.
Proof.
  intros Hvals. unfold kwarg. destruct (get kwargs n) as [v|] eqn:Hget; [|eauto].
  apply get_Some_elem in Hget. by apply Hvals in Hget.
Qed.

(** C10. Building SCADA metadata from keyword arguments that are all
    parameters of the constructor and whose values are strings always
    succeeds; [col_map_reversed] maps a column name to the last field of
    [col_map] that holds it, so a field sharing its column name with a later
    field is lost; and when the nine column names are pairwise distinct the
    two maps are inverse to each other. *)
Theorem col_map_reversed_keeps_last_field (kwargs : list (string * value)) :
  unexpected_keyword SCADAMetaData.attrs kwargs = None →
  string_valued kwargs →
  ∃ s,
    SCADAMetaData.__init__ kwargs = inr s ∧
    map fst (SCADAMetaData.col_map s)
      = ["time"; "asset_id"; "WTUR_W"; "WMET_HorWdSpd"; "WMET_HorWdDir";
         "WTUR_TurSt"; "WROT_BlPthAngVal"; "WMET_EnvTmp"; "WTUR_SupWh"] ∧
    (∀ n d, get (SCADAMetaData.col_map s) n = Some d →
       d = kwarg kwargs n (VStr n) ∨ (n = "WTUR_SupWh" ∧ d = VStr "WTUR_SupWh")) ∧
    (∀ v k, py_get (SCADAMetaData.col_map_reversed s) (VStr v) = Some k ↔
            last_field (SCADAMetaData.col_map s) v k) ∧
    (NoDup (map snd (SCADAMetaData.col_map s)) →
     ∀ k v, get (SCADAMetaData.col_map s) k = Some (VStr v) ↔
            py_get (SCADAMetaData.col_map_reversed s) (VStr v) = Some k).
Proof.
  intros Hexp Hvals.
  unfold SCADAMetaData.__init__. rewrite (call_init_expected _ _ _ Hexp).
  unfold SCADAMetaData.__attrs_post_init__.
  cbn [SCADAMetaData.time SCADAMetaData.asset_id SCADAMetaData.WTUR_W
       SCADAMetaData.WMET_HorWdSpd SCADAMetaData.WMET_HorWdDir
       SCADAMetaData.WTUR_TurSt SCADAMetaData.WROT_BlPthAngVal
       SCADAMetaData.WMET_EnvTmp SCADAMetaData.WTUR_SupWh
       SCADAMetaData.frequency SCADAMetaData.name].
  destruct (kwarg_string kwargs "time" "time" Hvals) as [c1 H1].
  destruct (kwarg_string kwargs "asset_id" "asset_id" Hvals) as [c2 H2].
  destruct (kwarg_string kwargs "WTUR_W" "WTUR_W" Hvals) as [c3 H3].
  destruct (kwarg_string kwargs "WMET_HorWdSpd" "WMET_HorWdSpd" Hvals) as [c4 H4].
  destruct (kwarg_string kwargs "WMET_HorWdDir" "WMET_HorWdDir" Hvals) as [c5 H5].
  destruct (kwarg_string kwargs "WTUR_TurSt" "WTUR_TurSt" Hvals) as [c6 H6].
  destruct (kwarg_string kwargs "WROT_BlPthAngVal" "WROT_BlPthAngVal" Hvals) as [c7 H7].
  destruct (kwarg_string kwargs "WMET_EnvTmp" "WMET_EnvTmp" Hvals) as [c8 H8].
  set (cm := [ ("time", kwarg kwargs "time" (VStr "time"));
               ("asset_id", kwarg kwargs "asset_id" (VStr "asset_id"));
               ("WTUR_W", kwarg kwargs "WTUR_W" (VStr "WTUR_W"));
               ("WMET_HorWdSpd", kwarg kwargs "WMET_HorWdSpd" (VStr "WMET_HorWdSpd"));
               ("WMET_HorWdDir", kwarg kwargs "WMET_HorWdDir" (VStr "WMET_HorWdDir"));
               ("WTUR_TurSt", kwarg kwargs "WTUR_TurSt" (VStr "WTUR_TurSt"));
               ("WROT_BlPthAngVal",
                 kwarg kwargs "WROT_BlPthAngVal" (VStr "WROT_BlPthAngVal"));
               ("WMET_EnvTmp", kwarg kwargs "WMET_EnvTmp" (VStr "WMET_EnvTmp"));
               ("WTUR_SupWh", VStr "WTUR_SupWh") ]).
  assert (Hcm : string_valued cm).
  { intros k v Hin. unfold cm in Hin. rewrite H1, H2, H3, H4, H5, H6, H7, H8 in Hin.
    repeat (apply elem_of_cons in Hin as [[= -> ->]|Hin]; [eauto |]).
    by apply elem_of_nil in Hin. }
  destruct (reverse_items_strings cm [] Hcm) as (rev & Hrev & Hget).
  { intros k v Hin. by apply elem_of_nil in Hin. }
  rewrite Hrev. cbn [bind ret]. eexists. split; [reflexivity |].
  cbn [SCADAMetaData.col_map SCADAMetaData.col_map_reversed].
  assert (Hlast : ∀ v k, py_get rev (VStr v) = Some k ↔ last_field cm v k).
  { intros v k. rewrite Hget. cbn [py_get]. rewrite last_key_spec.
    split; [intros [?|[[=] _]]; done | by left]. }
  split; [reflexivity |]. split; [|split; [exact Hlast |]].
  - intros n d Hn. apply get_Some_elem in Hn. unfold cm in Hn.
    repeat (apply elem_of_cons in Hn as [[= -> ->]|Hn]; [auto |]).
    by apply elem_of_nil in Hn.
  - intros Hnd k v. rewrite Hlast. split.
    + intros Hk. apply get_Some_elem in Hk.
      apply list_elem_of_split in Hk as (pre & post & Heq).
      exists pre, post. split; [done |]. intros k' Hin.
      rewrite Heq, List.map_app in Hnd. simpl in Hnd.
      apply NoDup_app in Hnd as (_ & _ & Hnd). apply NoDup_cons in Hnd as [Hv _].
      apply Hv. apply list_elem_of_In, in_map_iff. exists (k', VStr v).
      split; [done | by apply list_elem_of_In].
    + intros (pre & post & Heq & _). apply get_NoDup.
      * unfold cm. cbn [map fst]. apply (bool_decide_unpack _). vm_compute. exact I.
      * rewrite Heq. apply elem_of_app. right. apply list_elem_of_here.
Qed.

Lemma col_map_reversed_keeps_last_field_witness :
  unexpected_keyword SCADAMetaData.attrs
    [("time", VStr "stamp"); ("asset_id", VStr "stamp")] = None ∧
  string_valued [("time", VStr "stamp"); ("asset_id", VStr "stamp")] ∧
  ∃ s,
    SCADAMetaData.__init__ [("time", VStr "stamp"); ("asset_id", VStr "stamp")]
      = inr s ∧
    get (SCADAMetaData.col_map s) "time" = Some (VStr "stamp") ∧
    get (SCADAMetaData.col_map s) "asset_id" = Some (VStr "stamp") ∧
    py_get (SCADAMetaData.col_map_reversed s) (VStr "stamp") = Some "asset_id".
Proof.
  assert (Hvals : string_valued [("time", VStr "stamp"); ("asset_id", VStr "stamp")]).
  { intros k v Hin.
    repeat (apply elem_of_cons in Hin as [[= -> ->]|Hin]; [eauto |]).
    by apply elem_of_nil in Hin. }
  split; [reflexivity |]. split; [exact Hvals |].
  destruct (col_map_reversed_keeps_last_field
              [("time", VStr "stamp"); ("asset_id", VStr "stamp")] eq_refl Hvals)
    as (s & Hs & _ & _ & Hlast & _).
  exists s. split; [exact Hs |].
  vm_compute in Hs. injection Hs as <-.
  split; [reflexivity |]. split; [reflexivity |].
  apply Hlast. exists [("time", VStr "stamp")]. eexists. split; [reflexivity |].
  intros k' Hin.
  repeat (apply elem_of_cons in Hin as [Hbad|Hin]; [discriminate Hbad |]).
  by apply elem_of_nil in Hin.
Defined.

(** * Further properties of the resolver *)

Lemma frequency_result_entry (requirements : catalog) :
  ∃ f,
    frequency_loop (frequency_seed (frequency_table requirements))
      (frequency_table requirements) = inr f ∧
    ∀ F, f !! F = entry_of (reqs_for F (freq_pairs requirements)).
Proof.
  destruct (frequency_result requirements) as (f & Hrun & Hf).
  exists f. split; [done |]. intros F. rewrite Hf.
  by destruct (reqs_for F (freq_pairs requirements)).
Qed.

Lemma entry_of_ext (l l' : list (list string)) :
  (∀ req, req ∈ l ↔ req ∈ l') → entry_of l = entry_of l'.
Proof.
  intros Hmem. destruct l as [|r l], l' as [|r' l']; [done | | |].
  - exfalso. apply (not_elem_of_nil r'), Hmem, list_elem_of_here.
  - exfalso. apply (not_elem_of_nil r), Hmem, list_elem_of_here.
  - unfold entry_of.
    destruct (foldl_absorb_EmptyList r l) as (S & -> & HS).
    destruct (foldl_absorb_EmptyList r' l') as (S' & -> & HS').
    do 2 f_equal. apply set_eq. intros x. rewrite HS, HS'.
    split; intros Hall req Hreq; apply Hall, Hmem, Hreq.
Qed.

Lemma entry_of_app (l1 l2 : list (list string)) :
  entry_of (l1 ++ l2)
  = union_with (fun a b => Some (meet a b)) (entry_of l1) (entry_of l2).
Proof.
  destruct l1 as [|a l1]; [by destruct l2 |].
  destruct l2 as [|b l2]; [by rewrite app_nil_r |].
  change (entry_of ((a :: l1) ++ b :: l2))
    with (Some (foldl absorb EmptyList ((a :: l1) ++ b :: l2))).
  by rewrite foldl_absorb_app.
Qed.

Lemma column_set_selected (C : catalog) (names : list string)
  (requirements : catalog) F x :
  (∀ A r, (A, r) ∈ requirements ↔ A ∈ names ∧ get C A = Some r) →
  x ∈ (list_to_set (concat (map (fun kr : string * analysis_requirement =>
                                   columns_of kr.2 F) requirements)) : gset string)
  ↔ ∃ A r, A ∈ names ∧ get C A = Some r ∧ x ∈ columns_of r F.
Proof.
  intros Hreqs. rewrite elem_of_column_set. split.
  - intros (A & r & HAr & Hx). apply Hreqs in HAr as [HA Hr]. by exists A, r.
  - intros (A & r & HA & Hr & Hx). exists A, r. split; [by apply Hreqs | done].
Qed.

(** X1. Columns of a concatenated list: at every family, the union of the column
    sets of the two lists. *)
Theorem columns_union_over_concatenation (C : catalog) (l1 l2 : list string) :
  Forall (fun A => is_Some (get C A)) l1 →
  Forall (fun A => is_Some (get C A)) l2 →
  ∃ c1 c2 c12,
    determine_analysis_requirements_in C "columns" (AList l1) = inr (Columns c1) ∧
    determine_analysis_requirements_in C "columns" (AList l2) = inr (Columns c2) ∧
    determine_analysis_requirements_in C "columns" (AList (l1 ++ l2))
      = inr (Columns c12) ∧
    c12 = union_with (fun a b => Some (a ∪ b)) c1 c2.
Proof.
  intros H1 H2.
  destruct (selected_spec C l1 H1) as (reqs1 & Hsel1 & Hreqs1).
  destruct (selected_spec C l2 H2) as (reqs2 & Hsel2 & Hreqs2).
  destruct (selected_spec C (l1 ++ l2)) as (reqs & Hsel & Hreqs).
  { by apply Forall_app. }
  exists (column_requirements reqs1), (column_requirements reqs2),
    (column_requirements reqs).
  repeat split; try by apply determine_columns_selected.
  apply map_eq. intros F. rewrite lookup_union_with, !column_requirements_lookup.
  cbv zeta.
  set (s := list_to_set (concat (map _ reqs)) : gset string).
  set (s1 := list_to_set (concat (map _ reqs1)) : gset string).
  set (s2 := list_to_set (concat (map _ reqs2)) : gset string).
  assert (Hs : s = s1 ∪ s2).
  { apply set_eq. intros x. rewrite elem_of_union. unfold s, s1, s2.
    rewrite (column_set_selected C (l1 ++ l2)), (column_set_selected C l1),
      (column_set_selected C l2) by done.
    split.
    - intros (A & r & HA & Hr & Hx). apply elem_of_app in HA as [HA|HA];
        [left | right]; by exists A, r.
    - intros [(A & r & HA & Hr & Hx)|(A & r & HA & Hr & Hx)]; exists A, r;
        (split; [apply elem_of_app; auto | done]). }
  case_decide; [|done]. rewrite Hs.
  destruct (decide (s1 = ∅)) as [->|Hne1], (decide (s2 = ∅)) as [->|Hne2]; simpl.
  - by rewrite decide_True by apply union_empty_l_L.
  - rewrite union_empty_l_L. by rewrite decide_False.
  - rewrite union_empty_r_L. by rewrite decide_False.
  - rewrite decide_False; [done |]. intros Hempty. apply Hne1.
    apply set_eq. intros x. split; [|by intros ?%not_elem_of_empty].
    intros Hx. rewrite <- Hempty. apply elem_of_union. by left.
Qed.

Lemma columns_union_over_concatenation_witness :
  ∃ c1 c2 c12,
    determine_analysis_requirements_in ANALYSIS_REQUIREMENTS "columns"
      (AList ["ElectricalLosses"]) = inr (Columns c1) ∧
    determine_analysis_requirements_in ANALYSIS_REQUIREMENTS "columns"
      (AList ["WakeLosses"; "MonteCarloAEP"]) = inr (Columns c2) ∧
    determine_analysis_requirements_in ANALYSIS_REQUIREMENTS "columns"
      (AList (["ElectricalLosses"] ++ ["WakeLosses"; "MonteCarloAEP"]))
      = inr (Columns c12) ∧
    c12 = union_with (fun a b => Some (a ∪ b)) c1 c2.
Proof.
  apply (columns_union_over_concatenation ANALYSIS_REQUIREMENTS).
  - repeat (apply List.Forall_cons; [eexists; reflexivity |]). apply List.Forall_nil.
  - repeat (apply List.Forall_cons; [eexists; reflexivity |]). apply List.Forall_nil.
Defined.

(** X2. Frequencies of a concatenated list: at every family, the intersection of
    the entries of the two lists, a family absent from one of them being left
    as the other has it. *)
Theorem frequency_meet_over_concatenation (C : catalog) (l1 l2 : list string) :
  Forall (fun A => is_Some (get C A)) l1 →
  Forall (fun A => is_Some (get C A)) l2 →
  ∃ f1 f2 f12,
    determine_analysis_requirements_in C "frequency" (AList l1) = inr (Frequency f1) ∧
    determine_analysis_requirements_in C "frequency" (AList l2) = inr (Frequency f2) ∧
    determine_analysis_requirements_in C "frequency" (AList (l1 ++ l2))
      = inr (Frequency f12) ∧
    f12 = union_with (fun a b => Some (meet a b)) f1 f2.
Proof.
  intros H1 H2.
  destruct (selected_spec C l1 H1) as (reqs1 & Hsel1 & Hreqs1).
  destruct (selected_spec C l2 H2) as (reqs2 & Hsel2 & Hreqs2).
  destruct (selected_spec C (l1 ++ l2)) as (reqs & Hsel & Hreqs).
  { by apply Forall_app. }
  destruct (frequency_result_entry reqs1) as (f1 & Hrun1 & Hf1).
  destruct (frequency_result_entry reqs2) as (f2 & Hrun2 & Hf2).
  destruct (frequency_result_entry reqs) as (f & Hrun & Hf).
  exists f1, f2, f.
  split; [by rewrite (determine_frequency_selected _ _ _ Hsel1), Hrun1 |].
  split; [by rewrite (determine_frequency_selected _ _ _ Hsel2), Hrun2 |].
  split; [by rewrite (determine_frequency_selected _ _ _ Hsel), Hrun |].
  apply map_eq. intros F. rewrite lookup_union_with, Hf, Hf1, Hf2, <- entry_of_app.
  apply entry_of_ext. intros req.
  rewrite elem_of_app, (elem_of_selected_reqs C (l1 ++ l2)),
    (elem_of_selected_reqs C l1), (elem_of_selected_reqs C l2) by done.
  split.
  - intros (A & r & fam & HA & Hr & HF & ->). apply elem_of_app in HA as [HA|HA];
      [left | right]; by exists A, r, fam.
  - intros [(A & r & fam & HA & Hr & HF & ->)|(A & r & fam & HA & Hr & HF & ->)];
      exists A, r, fam; (split; [apply elem_of_app; auto | done]).
Qed.

Lemma frequency_meet_over_concatenation_witness :
  ∃ f1 f2 f12,
    determine_analysis_requirements_in ANALYSIS_REQUIREMENTS "frequency"
      (AList ["ElectricalLosses"; "MonteCarloAEP"]) = inr (Frequency f1) ∧
    determine_analysis_requirements_in ANALYSIS_REQUIREMENTS "frequency"
      (AList ["WakeLosses"; "ElectricalLosses"]) = inr (Frequency f2) ∧
    determine_analysis_requirements_in ANALYSIS_REQUIREMENTS "frequency"
      (AList (["ElectricalLosses"; "MonteCarloAEP"] ++ ["WakeLosses"; "ElectricalLosses"]))
      = inr (Frequency f12) ∧
    f12 = union_with (fun a b => Some (meet a b)) f1 f2.
Proof.
  apply (frequency_meet_over_concatenation ANALYSIS_REQUIREMENTS).
  - repeat (apply List.Forall_cons; [eexists; reflexivity |]). apply List.Forall_nil.
  - repeat (apply List.Forall_cons; [eexists; reflexivity |]). apply List.Forall_nil.
Defined.

Lemma column_requirements_ext (C : catalog) (l l' : list string)
  (reqs reqs' : catalog) :
  (∀ A r, (A, r) ∈ reqs ↔ A ∈ l ∧ get C A = Some r) →
  (∀ A r, (A, r) ∈ reqs' ↔ A ∈ l' ∧ get C A = Some r) →
  (∀ A, A ∈ l ↔ A ∈ l') →
  column_requirements reqs = column_requirements reqs'.
Proof.
  intros Hreqs Hreqs' Hsame. apply map_eq. intros F.
  rewrite !column_requirements_lookup. cbv zeta.
  set (s := list_to_set (concat (map _ reqs)) : gset string).
  set (s' := list_to_set (concat (map _ reqs')) : gset string).
  assert (Hs : s = s').
  { apply set_eq. intros x. unfold s, s'.
    rewrite (column_set_selected C l), (column_set_selected C l') by done.
    split; intros (A & r & HA & Hr & Hx); exists A, r;
      (split; [by apply Hsame | done]). }
  by rewrite Hs.
Qed.

Lemma frequency_result_ext (C : catalog) (l l' : list string)
  (reqs reqs' : catalog) :
  (∀ A r, (A, r) ∈ reqs ↔ A ∈ l ∧ get C A = Some r) →
  (∀ A r, (A, r) ∈ reqs' ↔ A ∈ l' ∧ get C A = Some r) →
  (∀ A, A ∈ l ↔ A ∈ l') →
  frequency_loop (frequency_seed (frequency_table reqs)) (frequency_table reqs)
  = frequency_loop (frequency_seed (frequency_table reqs')) (frequency_table reqs').
Proof.
  intros Hreqs Hreqs' Hsame.
  destruct (frequency_result_entry reqs) as (f & -> & Hf).
  destruct (frequency_result_entry reqs') as (f' & -> & Hf').
  f_equal. apply map_eq. intros F. rewrite Hf, Hf'. apply entry_of_ext.
  intros req.
  rewrite (elem_of_selected_reqs C l), (elem_of_selected_reqs C l') by done.
  split; intros (A & r & fam & HA & Hr & HF & ->); exists A, r, fam;
    (split; [by apply Hsame | done]).
Qed.

(** X3. The order of the analysis names and their repetitions do not matter: two
    lists of catalogue names with the same members get the same answer,
    whatever [which] is. *)
Theorem resolution_ignores_order_and_repetition (C : catalog) (which : string)
  (l l' : list string) :
  Forall (fun A => is_Some (get C A)) l →
  (∀ A, A ∈ l ↔ A ∈ l') →
  determine_analysis_requirements_in C which (AList l)
  = determine_analysis_requirements_in C which (AList l').
Proof.
  intros Hl Hsame.
  assert (Hl' : Forall (fun A => is_Some (get C A)) l').
  { rewrite Forall_forall in Hl |- *. intros A HA. by apply Hl, Hsame. }
  destruct (selected_spec C l Hl) as (reqs & Hsel & Hreqs).
  destruct (selected_spec C l' Hl') as (reqs' & Hsel' & Hreqs').
  unfold determine_analysis_requirements_in. rewrite Hsel, Hsel'.
  cbn [bind].
  rewrite (column_requirements_ext C l l' reqs reqs') by done.
  by rewrite (frequency_result_ext C l l' reqs reqs').
Qed.

Lemma resolution_ignores_order_and_repetition_witness :
  determine_analysis_requirements_in ANALYSIS_REQUIREMENTS "both"
    (AList ["WakeLosses"; "ElectricalLosses"; "WakeLosses"])
  = determine_analysis_requirements_in ANALYSIS_REQUIREMENTS "both"
      (AList ["ElectricalLosses"; "WakeLosses"]).
Proof.
  apply resolution_ignores_order_and_repetition.
  - repeat (apply List.Forall_cons; [eexists; reflexivity |]). apply List.Forall_nil.
  - intros A. rewrite !elem_of_cons, !elem_of_nil. tauto.
Defined.



(** X5. "both" returns the pair of what "columns" and "frequency" return; every
    family with required columns is one of the six categories and has a
    frequency entry. *)
Theorem both_is_columns_and_frequency (C : catalog) (names : list string) :
  Forall (fun A => is_Some (get C A)) names →
  ∃ c f,
    determine_analysis_requirements_in C "columns" (AList names) = inr (Columns c) ∧
    determine_analysis_requirements_in C "frequency" (AList names) = inr (Frequency f) ∧
    determine_analysis_requirements_in C "both" (AList names) = inr (Both c f) ∧
    ∀ F, is_Some (c !! F) → F ∈ categories ∧ is_Some (f !! F).
Proof.
  intros Hall.
  destruct (selected_spec C names Hall) as (reqs & Hsel & Hreqs).
  destruct (frequency_result_entry reqs) as (f & Hrun & Hf).
  exists (column_requirements reqs), f.
  split; [by apply determine_columns_selected |].
  split; [by rewrite (determine_frequency_selected _ _ _ Hsel), Hrun |].
  split.
  - unfold determine_analysis_requirements_in. rewrite Hsel. cbn [bind].
    change (bool_decide ("both" ∈ ["frequency"; "both"])) with true. cbv iota.
    rewrite Hrun. reflexivity.
  - intros F [cols Hcols]. rewrite column_requirements_lookup in Hcols.
    cbv zeta in Hcols. repeat case_decide; try discriminate Hcols.
    split; [done |]. injection Hcols as Hcols.
    match goal with Hne : _ ≠ ∅ |- _ => apply set_choose_L in Hne as [x Hx] end.
    apply elem_of_column_set in Hx as (A & r & HAr & Hx).
    apply columns_of_elem in Hx as (fam & HF & _).
    rewrite Hf.
    assert (Hin : freq fam ∈ reqs_for F (freq_pairs reqs)).
    { apply elem_of_reqs_for, elem_of_freq_pairs. by exists A, r, fam. }
    destruct (reqs_for F (freq_pairs reqs)); [by apply not_elem_of_nil in Hin |].
    by eexists.
Qed.

Lemma both_is_columns_and_frequency_witness :
  ∃ c f,
    determine_analysis_requirements_in ANALYSIS_REQUIREMENTS "columns"
      (AList ["MonteCarloAEP"; "WakeLosses"]) = inr (Columns c) ∧
    determine_analysis_requirements_in ANALYSIS_REQUIREMENTS "frequency"
      (AList ["MonteCarloAEP"; "WakeLosses"]) = inr (Frequency f) ∧
    determine_analysis_requirements_in ANALYSIS_REQUIREMENTS "both"
      (AList ["MonteCarloAEP"; "WakeLosses"]) = inr (Both c f) ∧
    ∀ F, is_Some (c !! F) → F ∈ categories ∧ is_Some (f !! F).
Proof.
  apply (both_is_columns_and_frequency ANALYSIS_REQUIREMENTS).
  repeat (apply List.Forall_cons; [eexists; reflexivity |]). apply List.Forall_nil.
Defined.

Lemma catalog_accepts_spec (classes : list string) (C : catalog) A r F fam x :
  catalog_accepts classes C = true →
  get C A = Some r → (F, fam) ∈ r → x ∈ classes → x ∈ freq fam.
Proof.
  intros Hok Hr HF Hx. unfold catalog_accepts in Hok.
  rewrite forallb_forall in Hok.
  assert (HAr : In (A, r) C) by (apply list_elem_of_In; by apply get_Some_elem).
  apply Hok in HAr. simpl in HAr. rewrite forallb_forall in HAr.
  apply list_elem_of_In, HAr in HF. simpl in HF. rewrite forallb_forall in HF.
  apply list_elem_of_In, HF in Hx. by apply bool_decide_eq_true in Hx.
Qed.

(** X6. With the shipped catalogue the frequency resolution never ends in a
    conflict: every family of the result accepts at least the classes from
    hourly to the finest. *)
Theorem shipped_catalog_never_conflicts (names : list string) :
  Forall (fun A => is_Some (get ANALYSIS_REQUIREMENTS A)) names →
  ∃ f,
    determine_analysis_requirements "frequency" (AList names) = inr (Frequency f) ∧
    ∀ F e, f !! F = Some e →
      ∃ S, e = FreqSet S ∧ ∀ x, x ∈ _at_least_hourly → x ∈ S.
Proof.
  assert (Hok : catalog_accepts _at_least_hourly ANALYSIS_REQUIREMENTS = true)
    by (vm_compute; reflexivity).
  unfold determine_analysis_requirements. revert Hok.
  generalize ANALYSIS_REQUIREMENTS. intros C Hok Hall.
  destruct (selected_spec C names Hall) as (reqs & Hsel & Hreqs).
  destruct (frequency_result_entry reqs) as (f & Hrun & Hf).
  exists f. split; [by rewrite (determine_frequency_selected _ _ _ Hsel), Hrun |].
  intros F e He. rewrite Hf in He.
  destruct (reqs_for F (freq_pairs reqs)) as [|req l] eqn:Hl; [discriminate He |].
  destruct (foldl_absorb_EmptyList req l) as (S & HS & Hmem).
  unfold entry_of in He. rewrite HS in He. injection He as <-.
  exists S. split; [done |]. intros x Hx. apply Hmem. intros req' Hreq'.
  rewrite <- Hl in Hreq'.
  apply (elem_of_selected_reqs C names) in Hreq' as (A & r & fam & _ & Hr & HF & ->);
    [|done].
  by apply (catalog_accepts_spec _at_least_hourly C A r F fam).
Qed.

Lemma shipped_catalog_never_conflicts_witness :
  ∃ f,
    determine_analysis_requirements "frequency"
      (AList ["MonteCarloAEP"; "TurbineLongTermGrossEnergy"; "ElectricalLosses";
              "WakeLosses"]) = inr (Frequency f) ∧
    ∀ F e, f !! F = Some e →
      ∃ S, e = FreqSet S ∧ ∀ x, x ∈ _at_least_hourly → x ∈ S.
Proof.
  apply shipped_catalog_never_conflicts.
  repeat (apply List.Forall_cons; [eexists; reflexivity |]). apply List.Forall_nil.
Defined.

Lemma Some_elem_of_map_Some {A} (x : A) (l : list A) :
  Some x ∈ map Some l ↔ x ∈ l.
Proof.
  rewrite list_elem_of_In, in_map_iff, list_elem_of_In. split.
  - by intros (y & [= ->] & Hy).
  - intros Hx. by exists x.
Qed.

Lemma Some_elem_of_omap_id {A} (x : A) (l : list (option A)) :
  x ∈ omap id l ↔ Some x ∈ l.
Proof.
  rewrite list_elem_of_omap. split.
  - intros (y & Hy & Heq). unfold id in Heq. by subst y.
  - intros Hx. by exists (Some x).
Qed.

(** X7. [frequency_requirements] skips the [None] entries of its list: the list
    without them gets the same answer. *)
Theorem frequency_requirements_skips_None (host : Host)
  (self : PlantMetaData.t host) (analysis_types : list (option string)) :
  PlantMetaData.frequency_requirements host self analysis_types
  = PlantMetaData.frequency_requirements host self
      (map Some (omap id analysis_types)).
Proof.
  unfold PlantMetaData.frequency_requirements,
    PlantMetaData.frequency_requirements_in.
  rewrite omap_id_map_Some.
  rewrite (bool_decide_ext (Some "all" ∈ map Some (omap id analysis_types))
             (Some "all" ∈ analysis_types)); [done |].
  by rewrite Some_elem_of_map_Some, Some_elem_of_omap_id.
Qed.

(** * Further properties of FromDictMixin *)

Lemma get_app_middle {A} (d1 d2 : list (string * A)) k v n :
  n ≠ k → get (d1 ++ (k, v) :: d2) n = get (d1 ++ d2) n.
Proof.
  intros Hne. induction d1 as [|[k' v'] d1 IH]; simpl.
  - destruct (String.eqb_spec k n); [congruence | done].
  - by rewrite IH.
Qed.

Lemma select_kwargs_ext (attrs : list attribute) (d d' : list (string * value)) :
  (∀ a, a ∈ attrs → a_init a = true → get d (a_name a) = get d' (a_name a)) →
  FromDictMixin.select_kwargs attrs (VDict d)
  = FromDictMixin.select_kwargs attrs (VDict d').
Proof.
  induction attrs as [|a attrs IH]; intros Hsame; [done |].
  cbn [FromDictMixin.select_kwargs contains bind ret getitem].
  rewrite IH by (intros a' Ha'; apply Hsame; by apply list_elem_of_further).
  destruct (a_init a) eqn:Hinit.
  - by rewrite (Hsame a) by (done || apply list_elem_of_here).
  - by rewrite !andb_false_r.
Qed.

(** X8. A key that is not the name of an attribute [__init__] takes is ignored:
    the mapping with and without it is built into the same object, or fails
    alike. *)
Theorem from_dict_ignores_other_keys {T : Type} (cls_name : string)
  (attrs : list attribute) (cls : list (string * value) → result T)
  (d1 d2 : list (string * value)) (k : string) (v : value) :
  existsb (fun a => a_init a && String.eqb (a_name a) k) attrs = false →
  FromDictMixin.from_dict cls_name attrs cls (VDict (d1 ++ (k, v) :: d2))
  = FromDictMixin.from_dict cls_name attrs cls (VDict (d1 ++ d2)).
Proof.
  intros Hk. unfold FromDictMixin.from_dict.
  rewrite (select_kwargs_ext attrs (d1 ++ (k, v) :: d2) (d1 ++ d2)); [done |].
  intros a Ha Hinit. apply get_app_middle. intros Heq.
  assert (Hex : existsb (fun a => a_init a && String.eqb (a_name a) k) attrs = true).
  { apply existsb_exists. exists a. split; [by apply list_elem_of_In |].
    by rewrite Hinit, Heq, String.eqb_refl. }
  congruence.
Qed.

Lemma from_dict_ignores_other_keys_witness :
  existsb (fun a => a_init a && String.eqb (a_name a) "col_map")
    MeterMetaData.attrs = false ∧
  MeterMetaData.from_dict
    (VDict ([("time", VStr "stamp")] ++ ("col_map", VNone) :: [("latitude", VNone)]))
  = MeterMetaData.from_dict (VDict ([("time", VStr "stamp")] ++ [("latitude", VNone)])).
Proof.
  split; [reflexivity |].
  apply (from_dict_ignores_other_keys "MeterMetaData" MeterMetaData.attrs
           MeterMetaData.__init__ [("time", VStr "stamp")] [("latitude", VNone)]
           "col_map" VNone).
  reflexivity.
Defined.

Lemma existsb_init_names (attrs : list attribute) (n : string) :
  existsb (fun a => a_init a && String.eqb (a_name a) n) attrs
  = bool_decide (n ∈ init_names attrs).
Proof.
  unfold init_names. induction attrs as [|a attrs IH]; [done |].
  cbn [existsb List.filter]. rewrite IH. destruct (a_init a); cbn [andb orb map].
  - destruct (String.eqb_spec (a_name a) n) as [<-|Hne]; cbn [orb].
    + symmetry. apply bool_decide_eq_true. apply list_elem_of_here.
    + apply bool_decide_ext. rewrite elem_of_cons. split; [auto |].
      intros [?|?]; [congruence | done].
  - done.
Qed.

(** X9. [from_dict] on a mapping: the keyword arguments are the items of the
    mapping under the names of the attributes [__init__] takes; when required
    inputs are missing [AttributeError] lists them, sorted, and otherwise the
    class is called on the keyword arguments. *)
Theorem from_dict_on_a_mapping {T : Type} (cls_name : string)
  (attrs : list attribute) (cls : list (string * value) → result T)
  (d : list (string * value)) :
  ∃ kwargs,
    (∀ n, get kwargs n
          = if bool_decide (n ∈ init_names attrs) then get d n else None) ∧
    (∀ n v, (n, v) ∈ kwargs → (n, v) ∈ d) ∧
    FromDictMixin.from_dict cls_name attrs cls (VDict d)
    = match sorted_set
              (List.filter (fun n => negb (bool_decide (is_Some (get d n))))
                 (required_inputs attrs)) with
      | [] => cls kwargs
      | n :: missing => inl (AttributeError cls_name (n :: missing))
      end.
Proof.
  destruct (select_kwargs_dict attrs d) as (kwargs & Hsel & Hget & Hsub).
  exists kwargs. split; [|split; [done |]].
  - intros n. by rewrite Hget, existsb_init_names.
  - unfold FromDictMixin.from_dict. rewrite Hsel. cbn [bind].
    fold (required_inputs attrs).
    assert (Hfilter :
      List.filter (fun n => negb (bool_decide (is_Some (get kwargs n))))
        (required_inputs attrs)
      = List.filter (fun n => negb (bool_decide (is_Some (get d n))))
          (required_inputs attrs)).
    { apply List.filter_ext_in. intros n Hn. rewrite Hget.
      assert (Hex : existsb (fun a => a_init a && String.eqb (a_name a) n) attrs
                    = true); [|by rewrite Hex].
      unfold required_inputs in Hn. apply in_map_iff in Hn as (a & <- & Ha).
      apply filter_In in Ha as [Ha Hreq]. apply andb_prop in Hreq as [Hinit _].
      apply existsb_exists. exists a. split; [done |].
      by rewrite Hinit, String.eqb_refl. }
    rewrite Hfilter. by destruct (sorted_set _).
Qed.

Lemma from_dict_on_a_mapping_witness :
  FromDictMixin.from_dict "Example"
    [ attrib "time";
      {| a_name := "turbine"; a_init := true; a_has_default := false |};
      {| a_name := "site"; a_init := true; a_has_default := false |};
      fixed "col_map" false ]
    (fun kwargs => ret kwargs)
    (VDict [("time", VStr "stamp"); ("other", VNone)])
  = inl (AttributeError "Example" ["site"; "turbine"]).
Proof.
  destruct (from_dict_on_a_mapping "Example"
              [ attrib "time";
                {| a_name := "turbine"; a_init := true; a_has_default := false |};
                {| a_name := "site"; a_init := true; a_has_default := false |};
                fixed "col_map" false ]
              (fun kwargs => ret kwargs)
              [("time", VStr "stamp"); ("other", VNone)])
    as (kwargs & _ & _ & Hfrom).
  exact Hfrom.
Defined.

Lemma select_kwargs_by_membership (attrs : list attribute) (data : value)
  (mem : string → bool) :
  (∀ n, contains data n = inr (mem n)) →
  (∀ n, mem n = true → getitem data n = inl (TypeError "indices must be integers")) →
  FromDictMixin.select_kwargs attrs data
  = if existsb (fun a => a_init a && mem (a_name a)) attrs
    then inl (TypeError "indices must be integers")
    else inr [].
Proof.
  intros Hcontains Hgetitem. induction attrs as [|a attrs IH]; [done |].
  cbn [FromDictMixin.select_kwargs existsb]. rewrite Hcontains. cbn [bind].
  destruct (mem (a_name a)) eqn:Hmem, (a_init a); cbn [andb orb]; try exact IH.
  by rewrite Hgetitem.
Qed.

Lemma select_kwargs_empty_dict (attrs : list attribute) :
  FromDictMixin.select_kwargs attrs (VDict []) = inr [].
Proof.
  rewrite (select_kwargs_by_membership attrs (VDict []) (fun _ => false)).
  - assert (Hnone : existsb (fun a => a_init a && false) attrs = false);
      [|by rewrite Hnone].
    induction attrs as [|a attrs IH]; [done |]. cbn [existsb].
    by rewrite andb_false_r.
  - done.
  - discriminate.
Qed.

(** X10. [from_dict] on what is not a mapping: None, a boolean or a number raises
    [TypeError]; a list or a string that holds the name of an attribute
    [__init__] takes raises [TypeError] too, and any other list or string is
    taken as the empty mapping. *)
Theorem from_dict_on_non_mappings {T : Type} (cls_name : string)
  (a : attribute) (attrs : list attribute) (cls : list (string * value) → result T) :
  (∀ data, data = VNone ∨ (∃ b, data = VBool b) ∨ (∃ q, data = VNum q) →
     FromDictMixin.from_dict cls_name (a :: attrs) cls data
     = inl (TypeError "argument is not iterable")) ∧
  (∀ l, FromDictMixin.from_dict cls_name (a :: attrs) cls (VList l)
        = if existsb (fun a' => a_init a' && existsb (is_str (a_name a')) l) (a :: attrs)
          then inl (TypeError "indices must be integers")
          else FromDictMixin.from_dict cls_name (a :: attrs) cls (VDict [])) ∧
  (∀ s, FromDictMixin.from_dict cls_name (a :: attrs) cls (VStr s)
        = if existsb (fun a' => a_init a' && substring_of (a_name a') s) (a :: attrs)
          then inl (TypeError "indices must be integers")
          else FromDictMixin.from_dict cls_name (a :: attrs) cls (VDict [])).
Proof.
  split; [|split].
  - intros data [->|[[b ->]|[q ->]]]; reflexivity.
  - intros l. unfold FromDictMixin.from_dict.
    rewrite (select_kwargs_by_membership (a :: attrs) (VList l)
               (fun n => existsb (is_str n) l)) by done.
    rewrite select_kwargs_empty_dict. by destruct (existsb _ (a :: attrs)).
  - intros s. unfold FromDictMixin.from_dict.
    rewrite (select_kwargs_by_membership (a :: attrs) (VStr s)
               (fun n => substring_of n s)) by done.
    rewrite select_kwargs_empty_dict. by destruct (existsb _ (a :: attrs)).
Qed.

Lemma from_dict_on_non_mappings_witness :
  TowerMetaData.from_dict VNone = inl (TypeError "argument is not iterable") ∧
  TowerMetaData.from_dict (VList [VStr "mast"; VNone])
    = TowerMetaData.from_dict (VDict []) ∧
  TowerMetaData.from_dict (VStr "timestamps")
    = inl (TypeError "indices must be integers").
Proof.
  destruct (from_dict_on_non_mappings "TowerMetaData" (attrib "time")
              [ attrib "asset_id"; attrib "frequency"; fixed "name" true;
                fixed "col_map" false; fixed "dtypes" true; fixed "units" true ]
              TowerMetaData.__init__) as (Hscalar & Hlist & Hstr).
  split; [apply Hscalar; by left |].
  split; [exact (Hlist [VStr "mast"; VNone]) | exact (Hstr "timestamps")].
Defined.

(** * Further properties of the family metadata classes *)

Lemma from_dict_dict_kwargs {T : Type} (cls_name : string)
  (attrs : list attribute) (cls : list (string * value) → result T)
  (d : list (string * value)) :
  required_inputs attrs = [] →
  ∃ kwargs,
    FromDictMixin.from_dict cls_name attrs cls (VDict d) = cls kwargs ∧
    ∀ n, existsb (fun a => a_init a && String.eqb (a_name a) n) attrs = true →
         ∀ x, kwarg kwargs n x = kwarg d n x.
Proof.
  intros Hreq.
  destruct (select_kwargs_dict attrs d) as (kwargs & Hsel & Hget & _).
  exists kwargs. split.
  - unfold FromDictMixin.from_dict. rewrite Hsel. cbn [bind].
    fold (required_inputs attrs). by rewrite Hreq.
  - intros n Hn x. unfold kwarg. by rewrite Hget, Hn.
Qed.

Ltac family_from_dict d :=
  match goal with
  | |- ∃ m, FromDictMixin.from_dict ?name ?attrs ?init _ = _ ∧ _ =>
      let kwargs := fresh "kwargs" in
      let Hfrom := fresh "Hfrom" in
      let Hk := fresh "Hk" in
      destruct (from_dict_dict_kwargs name attrs init d eq_refl)
        as (kwargs & Hfrom & Hk);
      rewrite Hfrom; eexists; split; [reflexivity |];
      cbn; unfold defaulted; cbn [map fst snd];
      rewrite !Hk by reflexivity; repeat split
  end.

(** X11. Built from a mapping, the meter, tower, status, curtailment, asset and
    reanalysis metadata never fail, and their column map gives every field
    the name the mapping supplies for it, or its default. *)
Theorem family_col_map_from_mapping (d : list (string * value)) :
  (∃ m, MeterMetaData.from_dict (VDict d) = inr m ∧
        MeterMetaData.col_map m = defaulted MeterMetaData.column_defaults d ∧
        MeterMetaData.frequency m = kwarg d "frequency" (VStr "10T")) ∧
  (∃ m, TowerMetaData.from_dict (VDict d) = inr m ∧
        TowerMetaData.col_map m = defaulted TowerMetaData.column_defaults d ∧
        TowerMetaData.frequency m = kwarg d "frequency" (VStr "10T")) ∧
  (∃ m, StatusMetaData.from_dict (VDict d) = inr m ∧
        StatusMetaData.col_map m = defaulted StatusMetaData.column_defaults d ∧
        StatusMetaData.frequency m = kwarg d "frequency" (VStr "10T")) ∧
  (∃ m, CurtailMetaData.from_dict (VDict d) = inr m ∧
        CurtailMetaData.col_map m = defaulted CurtailMetaData.column_defaults d ∧
        CurtailMetaData.frequency m = kwarg d "frequency" (VStr "10T")) ∧
  (∃ m, AssetMetaData.from_dict (VDict d) = inr m ∧
        AssetMetaData.col_map m = defaulted AssetMetaData.column_defaults d) ∧
  (∃ m, ReanalysisMetaData.from_dict (VDict d) = inr m ∧
        ReanalysisMetaData.col_map m = defaulted ReanalysisMetaData.column_defaults d ∧
        ReanalysisMetaData.frequency m = kwarg d "frequency" (VStr "10T")).
Proof.
  unfold MeterMetaData.from_dict, TowerMetaData.from_dict, StatusMetaData.from_dict,
    CurtailMetaData.from_dict, AssetMetaData.from_dict, ReanalysisMetaData.from_dict.
  unfold MeterMetaData.__init__, TowerMetaData.__init__, StatusMetaData.__init__,
    CurtailMetaData.__init__, AssetMetaData.__init__, ReanalysisMetaData.__init__.
  rewrite !from_dict_call_init.
  repeat split; family_from_dict d.
Qed.

Lemma reverse_items_hashable (items : list (string * value))
  (acc : list (value * string)) :
  forallb (fun kv => hashable kv.2) items = true →
  ∃ rev, reverse_items items acc = inr rev.
Proof.
  revert acc. induction items as [|[k v] items IH]; intros acc Hall.
  - by exists acc.
  - cbn [forallb snd] in Hall. apply andb_prop in Hall as [Hv Hall].
    cbn [reverse_items]. rewrite Hv. by apply IH.
Qed.

Lemma reverse_items_unhashable (items : list (string * value))
  (acc : list (value * string)) :
  forallb (fun kv => hashable kv.2) items = false →
  reverse_items items acc = inl (TypeError "unhashable type").
Proof.
  revert acc. induction items as [|[k v] items IH]; intros acc Hall.
  - discriminate Hall.
  - cbn [forallb snd] in Hall. cbn [reverse_items].
    destruct (hashable v); [|done]. by apply IH.
Qed.

(** X12. Called with keyword arguments that are all parameters of the
    constructor, building SCADA metadata succeeds exactly when each of its
    nine column names can be a dictionary key; a list or a dictionary given
    as a column name makes the reversed map, and with it the constructor,
    raise [TypeError]. A keyword argument that is not a parameter of the
    constructor makes the call raise [TypeError] whatever the column names
    are. *)
Theorem scada_needs_hashable_column_names (kwargs : list (string * value)) :
  let col_map :=
    defaulted SCADAMetaData.column_defaults kwargs
    ++ [("WTUR_SupWh", VStr "WTUR_SupWh")] in
  (unexpected_keyword SCADAMetaData.attrs kwargs = None →
   forallb (fun kv => hashable kv.2) col_map = true →
   ∃ s, SCADAMetaData.__init__ kwargs = inr s ∧
        SCADAMetaData.col_map s = col_map ∧
        SCADAMetaData.frequency s = kwarg kwargs "frequency" (VStr "10T")) ∧
  (unexpected_keyword SCADAMetaData.attrs kwargs = None →
   forallb (fun kv => hashable kv.2) col_map = false →
   SCADAMetaData.__init__ kwargs = inl (TypeError "unhashable type")) ∧
  (∀ k, unexpected_keyword SCADAMetaData.attrs kwargs = Some k →
   ∃ msg, SCADAMetaData.__init__ kwargs = inl (TypeError msg)).
Proof.
  intros col_map.
  assert (Hbody : unexpected_keyword SCADAMetaData.attrs kwargs = None →
            SCADAMetaData.__init__ kwargs
            = let! rev := reverse_items col_map [] in
              ret {| SCADAMetaData.time := kwarg kwargs "time" (VStr "time");
                     SCADAMetaData.asset_id := kwarg kwargs "asset_id" (VStr "asset_id");
                     SCADAMetaData.WTUR_W := kwarg kwargs "WTUR_W" (VStr "WTUR_W");
                     SCADAMetaData.WMET_HorWdSpd :=
                       kwarg kwargs "WMET_HorWdSpd" (VStr "WMET_HorWdSpd");
                     SCADAMetaData.WMET_HorWdDir :=
                       kwarg kwargs "WMET_HorWdDir" (VStr "WMET_HorWdDir");
                     SCADAMetaData.WTUR_TurSt :=
                       kwarg kwargs "WTUR_TurSt" (VStr "WTUR_TurSt");
                     SCADAMetaData.WROT_BlPthAngVal :=
                       kwarg kwargs "WROT_BlPthAngVal" (VStr "WROT_BlPthAngVal");
                     SCADAMetaData.WMET_EnvTmp :=
                       kwarg kwargs "WMET_EnvTmp" (VStr "WMET_EnvTmp");
                     SCADAMetaData.frequency := kwarg kwargs "frequency" (VStr "10T");
                     SCADAMetaData.name := "scada";
                     SCADAMetaData.WTUR_SupWh := VStr "WTUR_SupWh";
                     SCADAMetaData.col_map := col_map;
                     SCADAMetaData.col_map_reversed := rev |}).
  { intros Hexp. unfold SCADAMetaData.__init__.
    by rewrite (call_init_expected _ _ _ Hexp). }
  split; [|split].
  - intros Hexp Hhash. rewrite (Hbody Hexp).
    destruct (reverse_items_hashable col_map [] Hhash) as (rev & ->).
    cbn [bind ret]. by eexists.
  - intros Hexp Hhash. rewrite (Hbody Hexp).
    by rewrite (reverse_items_unhashable col_map [] Hhash).
  - intros k Hk. unfold SCADAMetaData.__init__, call_init. rewrite Hk. by eexists.
Qed.

Lemma scada_needs_hashable_column_names_witness :
  SCADAMetaData.__init__ [("WTUR_W", VList [VStr "power_a"; VStr "power_b"])]
  = inl (TypeError "unhashable type") ∧
  (∃ s, SCADAMetaData.__init__ [("WTUR_W", VStr "power")] = inr s ∧
        get (SCADAMetaData.col_map s) "WTUR_W" = Some (VStr "power")) ∧
  (∃ msg, SCADAMetaData.__init__ [("colour", VStr "red")] = inl (TypeError msg)).
Proof.
  split; [|split].
  - destruct (scada_needs_hashable_column_names
                [("WTUR_W", VList [VStr "power_a"; VStr "power_b"])])
      as (_ & Hbad & _).
    apply Hbad; reflexivity.
  - destruct (scada_needs_hashable_column_names [("WTUR_W", VStr "power")])
      as (Hgood & _ & _).
    destruct Hgood as (s & Hs & Hmap & _); [reflexivity | reflexivity |].
    exists s. split; [exact Hs |]. rewrite Hmap. reflexivity.
  - destruct (scada_needs_hashable_column_names [("colour", VStr "red")])
      as (_ & _ & Hkey).
    apply (Hkey "colour"). reflexivity.
Defined.

(** * Further properties of PlantMetaData *)

Lemma PlantMetaData_from_dict_kwargs (host : Host) (d : list (string * value)) :
  ∃ kwargs,
    PlantMetaData.from_dict host (VDict d) = PlantMetaData.__init__ host kwargs ∧
    unexpected_keyword PlantMetaData.attrs kwargs = None ∧
    ∀ n, existsb (fun a => a_init a && String.eqb (a_name a) n) PlantMetaData.attrs
         = true →
         ∀ x, kwarg kwargs n x = kwarg d n x.
Proof.
  destruct (select_kwargs_dict PlantMetaData.attrs d) as (kwargs & Hsel & Hget & _).
  exists kwargs. split; [|split].
  - unfold PlantMetaData.from_dict, FromDictMixin.from_dict. by rewrite Hsel.
  - by apply (select_kwargs_expected _ (VDict d)).
  - intros n Hn x. unfold kwarg. by rewrite Hget, Hn.
Qed.

(** X14. Metadata is built from a mapping exactly when each of its parts is built
    from the item under its own key, or from its default when the key is
    absent: the three scalars by [float], the six families by their
    [from_dict], the reanalysis products by [convert_reanalysis]. *)
Theorem plant_parts_come_from_their_keys (host : Host)
  (d : list (string * value)) (p : PlantMetaData.t host) :
  PlantMetaData.from_dict host (VDict d) = inr p ↔
  float host (kwarg d "latitude" (VNum (QArith_base.Qmake 0 1)))
    = inr (PlantMetaData.latitude host p) ∧
  float host (kwarg d "longitude" (VNum (QArith_base.Qmake 0 1)))
    = inr (PlantMetaData.longitude host p) ∧
  float host (kwarg d "capacity" (VNum (QArith_base.Qmake 0 1)))
    = inr (PlantMetaData.capacity host p) ∧
  SCADAMetaData.from_dict (kwarg d "scada" (VDict []))
    = inr (PlantMetaData.scada host p) ∧
  MeterMetaData.from_dict (kwarg d "meter" (VDict []))
    = inr (PlantMetaData.meter host p) ∧
  TowerMetaData.from_dict (kwarg d "tower" (VDict []))
    = inr (PlantMetaData.tower host p) ∧
  StatusMetaData.from_dict (kwarg d "status" (VDict []))
    = inr (PlantMetaData.status host p) ∧
  CurtailMetaData.from_dict (kwarg d "curtail" (VDict []))
    = inr (PlantMetaData.curtail host p) ∧
  AssetMetaData.from_dict (kwarg d "asset" (VDict []))
    = inr (PlantMetaData.asset host p) ∧
  convert_reanalysis (kwarg d "reanalysis" (VDict [("product", VDict [])]))
    = inr (PlantMetaData.reanalysis host p).
Proof.
  destruct (PlantMetaData_from_dict_kwargs host d) as (kwargs & -> & Hexp & Hk).
  unfold PlantMetaData.__init__. rewrite (call_init_expected _ _ _ Hexp).
  cbv zeta. rewrite !Hk by reflexivity.
  split.
  - intros Hinit.
    repeat (apply bind_inr in Hinit as (? & ? & Hinit)).
    injection Hinit as <-. cbn. by repeat split.
  - intros (-> & -> & -> & -> & -> & -> & -> & -> & -> & ->).
    cbn [bind ret]. by destruct p.
Qed.

Lemma plant_parts_come_from_their_keys_witness :
  ∃ p : PlantMetaData.t (example_host []),
    PlantMetaData.from_dict (example_host [])
      (VDict [("meter", VDict [("MMTR_SupWh", VStr "energy_kwh")])]) = inr p ∧
    MeterMetaData.from_dict (VDict [("MMTR_SupWh", VStr "energy_kwh")])
      = inr (PlantMetaData.meter (example_host []) p) ∧
    TowerMetaData.from_dict (VDict [])
      = inr (PlantMetaData.tower (example_host []) p).
Proof.
  destruct (PlantMetaData.from_dict (example_host [])
              (VDict [("meter", VDict [("MMTR_SupWh", VStr "energy_kwh")])]))
    as [e|p] eqn:Hp.
  { vm_compute in Hp. discriminate Hp. }
  exists p. split; [reflexivity |].
  apply (plant_parts_come_from_their_keys (example_host [])
           [("meter", VDict [("MMTR_SupWh", VStr "energy_kwh")])] p) in Hp
    as (_ & _ & _ & _ & Hmeter & Htower & _).
  split; [exact Hmeter | exact Htower].
Defined.

(** X15. Whatever the metadata, [column_map] and [dtype_map] have the same seven
    keys in the same order, and their "reanalysis" entry lists the products of
    the reanalysis collection in its order: the test on an empty collection
    in the two properties changes nothing. *)
Theorem column_map_and_dtype_map_shape (host : Host) (p : PlantMetaData.t host) :
  map fst (PlantMetaData.column_map host p)
    = ["scada"; "meter"; "tower"; "status"; "asset"; "curtail"; "reanalysis"] ∧
  map fst (PlantMetaData.dtype_map host p)
    = ["scada"; "meter"; "tower"; "status"; "asset"; "curtail"; "reanalysis"] ∧
  get (PlantMetaData.column_map host p) "reanalysis"
    = Some (VDict (map (fun kv => (kv.1, VDict (ReanalysisMetaData.col_map kv.2)))
                     (PlantMetaData.reanalysis host p))) ∧
  get (PlantMetaData.dtype_map host p) "reanalysis"
    = Some (PlantMetaData.ProductTypes
              (map (fun kv => (kv.1, ReanalysisMetaData.dtypes kv.2))
                 (PlantMetaData.reanalysis host p))).
Proof.
  unfold PlantMetaData.column_map, PlantMetaData.dtype_map.
  destruct (PlantMetaData.reanalysis host p) as [|product products];
    repeat split; reflexivity.
Qed.

Lemma PlantMetaData_init_parts (host : Host) (kwargs : list (string * value))
  (p : PlantMetaData.t host) :
  PlantMetaData.__init__ host kwargs = inr p →
  SCADAMetaData.from_dict (kwarg kwargs "scada" (VDict []))
    = inr (PlantMetaData.scada host p) ∧
  MeterMetaData.from_dict (kwarg kwargs "meter" (VDict []))
    = inr (PlantMetaData.meter host p) ∧
  TowerMetaData.from_dict (kwarg kwargs "tower" (VDict []))
    = inr (PlantMetaData.tower host p) ∧
  StatusMetaData.from_dict (kwarg kwargs "status" (VDict []))
    = inr (PlantMetaData.status host p) ∧
  CurtailMetaData.from_dict (kwarg kwargs "curtail" (VDict []))
    = inr (PlantMetaData.curtail host p) ∧
  AssetMetaData.from_dict (kwarg kwargs "asset" (VDict []))
    = inr (PlantMetaData.asset host p) ∧
  convert_reanalysis (kwarg kwargs "reanalysis" (VDict [("product", VDict [])]))
    = inr (PlantMetaData.reanalysis host p).
Proof.
  unfold PlantMetaData.__init__. intros Hinit.
  apply call_init_inr in Hinit as [_ Hinit]. cbv beta zeta in Hinit.
  repeat (apply bind_inr in Hinit as (? & ? & Hinit)).
  injection Hinit as <-. cbn. by repeat split.
Qed.

Ltac family_of_dict :=
  match goal with
  | |- FromDictMixin.from_dict ?name ?attrs ?init (VDict ?dm) = inr _ → _ =>
      let kwargs := fresh "kwargs" in
      let Hfrom := fresh "Hfrom" in
      let Hk := fresh "Hk" in
      destruct (from_dict_dict_kwargs name attrs init dm eq_refl)
        as (kwargs & Hfrom & Hk);
      rewrite Hfrom; intros [= <-];
      cbn; unfold defaulted; cbn [map fst snd];
      by rewrite !Hk by reflexivity
  end.

Lemma Meter_col_map_of_dict dm m :
  MeterMetaData.from_dict (VDict dm) = inr m →
  MeterMetaData.col_map m = defaulted MeterMetaData.column_defaults dm.
Proof.
  unfold MeterMetaData.from_dict, MeterMetaData.__init__.
  rewrite from_dict_call_init. family_of_dict.
Qed.

Lemma Tower_col_map_of_dict dm m :
  TowerMetaData.from_dict (VDict dm) = inr m →
  TowerMetaData.col_map m = defaulted TowerMetaData.column_defaults dm.
Proof.
  unfold TowerMetaData.from_dict, TowerMetaData.__init__.
  rewrite from_dict_call_init. family_of_dict.
Qed.

Lemma Status_col_map_of_dict dm m :
  StatusMetaData.from_dict (VDict dm) = inr m →
  StatusMetaData.col_map m = defaulted StatusMetaData.column_defaults dm.
Proof.
  unfold StatusMetaData.from_dict, StatusMetaData.__init__.
  rewrite from_dict_call_init. family_of_dict.
Qed.

Lemma Curtail_col_map_of_dict dm m :
  CurtailMetaData.from_dict (VDict dm) = inr m →
  CurtailMetaData.col_map m = defaulted CurtailMetaData.column_defaults dm.
Proof.
  unfold CurtailMetaData.from_dict, CurtailMetaData.__init__.
  rewrite from_dict_call_init. family_of_dict.
Qed.

Lemma Asset_col_map_of_dict dm m :
  AssetMetaData.from_dict (VDict dm) = inr m →
  AssetMetaData.col_map m = defaulted AssetMetaData.column_defaults dm.
Proof.
  unfold AssetMetaData.from_dict, AssetMetaData.__init__.
  rewrite from_dict_call_init. family_of_dict.
Qed.

Lemma Reanalysis_col_map_of_dict dm m :
  ReanalysisMetaData.from_dict (VDict dm) = inr m →
  ReanalysisMetaData.col_map m = defaulted ReanalysisMetaData.column_defaults dm.
Proof.
  unfold ReanalysisMetaData.from_dict, ReanalysisMetaData.__init__.
  rewrite from_dict_call_init. family_of_dict.
Qed.

Lemma SCADA_col_map_of_dict dm s :
  SCADAMetaData.from_dict (VDict dm) = inr s →
  SCADAMetaData.col_map s
  = defaulted SCADAMetaData.column_defaults dm ++ [("WTUR_SupWh", VStr "WTUR_SupWh")].
Proof.
  unfold SCADAMetaData.from_dict, SCADAMetaData.__init__.
  rewrite from_dict_call_init.
  match goal with
  | |- FromDictMixin.from_dict ?name ?attrs ?init _ = _ → _ =>
      destruct (from_dict_dict_kwargs name attrs init dm eq_refl)
        as (kwargs & -> & Hk)
  end.
  unfold SCADAMetaData.__attrs_post_init__.
  intros Hinit. apply bind_inr in Hinit as (rev & _ & [= <-]).
  cbn. unfold defaulted. cbn [map fst snd app]. by rewrite !Hk by reflexivity.
Qed.

(** X16. Round trip through [column_map]: for metadata built from a mapping, the
    entry of each of the six fixed families gives every field the name the
    mapping supplies for it under the family's key, or its default; the SCADA
    entry ends with the fixed WTUR_SupWh. *)
Theorem column_map_round_trip (host : Host) (d : list (string * value))
  (p : PlantMetaData.t host) :
  PlantMetaData.from_dict host (VDict d) = inr p →
  (∀ dm, kwarg d "scada" (VDict []) = VDict dm →
     get (PlantMetaData.column_map host p) "scada"
     = Some (VDict (defaulted SCADAMetaData.column_defaults dm
                    ++ [("WTUR_SupWh", VStr "WTUR_SupWh")]))) ∧
  (∀ dm, kwarg d "meter" (VDict []) = VDict dm →
     get (PlantMetaData.column_map host p) "meter"
     = Some (VDict (defaulted MeterMetaData.column_defaults dm))) ∧
  (∀ dm, kwarg d "tower" (VDict []) = VDict dm →
     get (PlantMetaData.column_map host p) "tower"
     = Some (VDict (defaulted TowerMetaData.column_defaults dm))) ∧
  (∀ dm, kwarg d "status" (VDict []) = VDict dm →
     get (PlantMetaData.column_map host p) "status"
     = Some (VDict (defaulted StatusMetaData.column_defaults dm))) ∧
  (∀ dm, kwarg d "asset" (VDict []) = VDict dm →
     get (PlantMetaData.column_map host p) "asset"
     = Some (VDict (defaulted AssetMetaData.column_defaults dm))) ∧
  (∀ dm, kwarg d "curtail" (VDict []) = VDict dm →
     get (PlantMetaData.column_map host p) "curtail"
     = Some (VDict (defaulted CurtailMetaData.column_defaults dm))).
Proof.
  destruct (PlantMetaData_from_dict_kwargs host d) as (kwargs & -> & _ & Hk).
  intros Hinit.
  apply PlantMetaData_init_parts in Hinit
    as (Hscada & Hmeter & Htower & Hstatus & Hcurtail & Hasset & _).
  rewrite Hk in Hscada, Hmeter, Htower, Hstatus, Hcurtail, Hasset by reflexivity.
  assert (Hget :
    get (PlantMetaData.column_map host p) "scada"
      = Some (VDict (SCADAMetaData.col_map (PlantMetaData.scada host p))) ∧
    get (PlantMetaData.column_map host p) "meter"
      = Some (VDict (MeterMetaData.col_map (PlantMetaData.meter host p))) ∧
    get (PlantMetaData.column_map host p) "tower"
      = Some (VDict (TowerMetaData.col_map (PlantMetaData.tower host p))) ∧
    get (PlantMetaData.column_map host p) "status"
      = Some (VDict (StatusMetaData.col_map (PlantMetaData.status host p))) ∧
    get (PlantMetaData.column_map host p) "asset"
      = Some (VDict (AssetMetaData.col_map (PlantMetaData.asset host p))) ∧
    get (PlantMetaData.column_map host p) "curtail"
      = Some (VDict (CurtailMetaData.col_map (PlantMetaData.curtail host p)))).
  { unfold PlantMetaData.column_map.
    destruct (PlantMetaData.reanalysis host p); repeat split; reflexivity. }
  destruct Hget as (Gscada & Gmeter & Gtower & Gstatus & Gasset & Gcurtail).
  repeat split; intros dm Hdm; rewrite Hdm in *.
  - by rewrite Gscada, (SCADA_col_map_of_dict dm _ Hscada).
  - by rewrite Gmeter, (Meter_col_map_of_dict dm _ Hmeter).
  - by rewrite Gtower, (Tower_col_map_of_dict dm _ Htower).
  - by rewrite Gstatus, (Status_col_map_of_dict dm _ Hstatus).
  - by rewrite Gasset, (Asset_col_map_of_dict dm _ Hasset).
  - by rewrite Gcurtail, (Curtail_col_map_of_dict dm _ Hcurtail).
Qed.

Lemma column_map_round_trip_witness :
  ∃ p : PlantMetaData.t (example_host []),
    PlantMetaData.from_dict (example_host [])
      (VDict [("meter", VDict [("MMTR_SupWh", VStr "energy_kwh")])]) = inr p ∧
    get (PlantMetaData.column_map (example_host []) p) "meter"
      = Some (VDict [("time", VStr "time"); ("MMTR_SupWh", VStr "energy_kwh")]) ∧
    get (PlantMetaData.column_map (example_host []) p) "tower"
      = Some (VDict [("time", VStr "time"); ("asset_id", VStr "asset_id")]).
Proof.
  destruct (PlantMetaData.from_dict (example_host [])
              (VDict [("meter", VDict [("MMTR_SupWh", VStr "energy_kwh")])]))
    as [e|p] eqn:Hp.
  { vm_compute in Hp. discriminate Hp. }
  exists p. split; [reflexivity |].
  destruct (column_map_round_trip (example_host [])
              [("meter", VDict [("MMTR_SupWh", VStr "energy_kwh")])] p Hp)
    as (_ & Hmeter & Htower & _).
  split.
  - exact (Hmeter [("MMTR_SupWh", VStr "energy_kwh")] eq_refl).
  - exact (Htower [] eq_refl).
Defined.

Lemma set_item_fresh {A} (acc : list (string * A)) (k : string) (r : A) :
  k ∉ map fst acc → set_item String.eqb acc k r = acc ++ [(k, r)].
Proof.
  induction acc as [|[k' r'] acc IH]; intros Hfresh; [done |].
  cbn [map fst] in Hfresh. apply not_elem_of_cons in Hfresh as [Hne Hfresh].
  cbn [set_item app]. apply not_eq_sym, String.eqb_neq in Hne. rewrite Hne.
  by rewrite IH.
Qed.

Lemma convert_items_spec (items : list (string * value))
  (acc out : list (string * ReanalysisMetaData.t)) :
  NoDup (map fst acc ++ map fst items) →
  convert_items items acc = inr out ↔
  ∃ products,
    out = acc ++ products ∧
    Forall2 (fun kv kr => kr.1 = kv.1 ∧ ReanalysisMetaData.from_dict kv.2 = inr kr.2)
      items products.
Proof.
  revert acc. induction items as [|[k v] items IH]; intros acc Hnd.
  - cbn [convert_items ret]. split.
    + intros [= <-]. exists []. by rewrite app_nil_r.
    + intros (products & -> & Hall). apply Forall2_nil_inv_l in Hall as ->.
      by rewrite app_nil_r.
  - cbn [convert_items]. cbn [map fst] in Hnd.
    assert (Hfresh : k ∉ map fst acc).
    { apply NoDup_app in Hnd as (_ & Hdisj & _). intros Hin.
      apply (Hdisj k Hin), list_elem_of_here. }
    assert (Hnd' : ∀ r : ReanalysisMetaData.t,
              NoDup (map fst (acc ++ [(k, r)]) ++ map fst items)).
    { intros r. rewrite List.map_app, <- app_assoc. exact Hnd. }
    split.
    + intros Hrun. apply bind_inr in Hrun as (r & Hr & Hrun).
      rewrite set_item_fresh in Hrun by done.
      apply IH in Hrun as (products & -> & Hall); [|apply Hnd'].
      exists ((k, r) :: products). split; [by rewrite <- app_assoc |].
      by apply Forall2_cons.
    + intros (products & -> & Hall).
      apply Forall2_cons_inv_l in Hall as ([k' r] & products' & [Hk Hr] & Hall & ->).
      simpl in Hk, Hr. subst k'. rewrite Hr. cbn [bind].
      rewrite set_item_fresh by done. apply IH; [apply Hnd' |].
      exists products'. split; [by rewrite <- app_assoc | done].
Qed.

(** X17. [convert_reanalysis] builds one product per item of the mapping it is
    given, under the item's key and in the mapping's order, by the
    [from_dict] of the reanalysis metadata, and fails when one of them
    fails; what is not a mapping has no [items] and raises
    [AttributeError], which names the type of the value: [int] for an
    integer, [float] for any other number. *)
Theorem convert_reanalysis_builds_each_product (v : value)
  (items : list (string * value))
  (products : list (string * ReanalysisMetaData.t)) :
  (is_dict v = false →
   convert_reanalysis v = inl (AttributeError (type_name v) ["items"])) ∧
  (NoDup (map fst items) →
   convert_reanalysis (VDict items) = inr products ↔
   Forall2 (fun kv kr => kr.1 = kv.1 ∧ ReanalysisMetaData.from_dict kv.2 = inr kr.2)
     items products).
Proof.
  split.
  - by destruct v.
  - intros Hnd. cbn [convert_reanalysis].
    rewrite (convert_items_spec items [] products) by done.
    split; [by intros (? & -> & ?) | by exists products].
Qed.

Lemma convert_reanalysis_builds_each_product_witness :
  convert_reanalysis (VStr "era5") = inl (AttributeError "str" ["items"]) ∧
  convert_reanalysis (VNum (QArith_base.Qmake 5 1))
    = inl (AttributeError "int" ["items"]) ∧
  convert_reanalysis (VNum (QArith_base.Qmake 5 2))
    = inl (AttributeError "float" ["items"]) ∧
  ∃ era5 merra2,
    ReanalysisMetaData.from_dict (VDict [("WMETR_HorWdSpd", VStr "ws_100m")])
      = inr era5 ∧
    ReanalysisMetaData.from_dict (VDict []) = inr merra2 ∧
    convert_reanalysis
      (VDict [ ("era5", VDict [("WMETR_HorWdSpd", VStr "ws_100m")]);
               ("merra2", VDict []) ])
    = inr [("era5", era5); ("merra2", merra2)].
Proof.
  split; [|split; [|split]].
  - apply (convert_reanalysis_builds_each_product (VStr "era5") [] []). reflexivity.
  - apply (convert_reanalysis_builds_each_product
             (VNum (QArith_base.Qmake 5 1)) [] []). reflexivity.
  - apply (convert_reanalysis_builds_each_product
             (VNum (QArith_base.Qmake 5 2)) [] []). reflexivity.
  - eexists. eexists. split; [vm_compute; reflexivity |].
    split; [vm_compute; reflexivity |].
    apply (convert_reanalysis_builds_each_product VNone).
    + apply (bool_decide_unpack _). vm_compute. exact I.
    + repeat (apply List.Forall2_cons; [split; reflexivity |]). apply List.Forall2_nil.
Defined.

Lemma from_dict_inr {T : Type} (cls_name : string) (attrs : list attribute)
  (cls : list (string * value) → result T) (data : value) (x : T) :
  FromDictMixin.from_dict cls_name attrs cls data = inr x →
  ∃ kwargs, cls kwargs = inr x.
Proof.
  unfold FromDictMixin.from_dict. intros Hfrom.
  apply bind_inr in Hfrom as (kwargs & _ & Hfrom).
  destruct (sorted_set _); [by exists kwargs | discriminate Hfrom].
Qed.

Ltac fields_of_family :=
  match goal with
  | |- FromDictMixin.from_dict _ _ _ _ = inr _ → _ =>
      let kwargs := fresh "kwargs" in
      let Hinit := fresh "Hinit" in
      intros Hinit; apply from_dict_inr in Hinit as (kwargs & Hinit);
      apply call_init_inr in Hinit as [_ Hinit];
      injection Hinit as <-; by split
  end.

Lemma Meter_fields data m :
  MeterMetaData.from_dict data = inr m →
  map fst (MeterMetaData.col_map m) = map fst (MeterMetaData.dtypes m) ∧
  map fst (MeterMetaData.col_map m) = map fst (MeterMetaData.units m).
Proof. unfold MeterMetaData.from_dict, MeterMetaData.__init__. fields_of_family. Qed.

Lemma Tower_fields data m :
  TowerMetaData.from_dict data = inr m →
  map fst (TowerMetaData.col_map m) = map fst (TowerMetaData.dtypes m) ∧
  map fst (TowerMetaData.col_map m) = map fst (TowerMetaData.units m).
Proof. unfold TowerMetaData.from_dict, TowerMetaData.__init__. fields_of_family. Qed.

Lemma Status_fields data m :
  StatusMetaData.from_dict data = inr m →
  map fst (StatusMetaData.col_map m) = map fst (StatusMetaData.dtypes m) ∧
  map fst (StatusMetaData.col_map m) = map fst (StatusMetaData.units m).
Proof. unfold StatusMetaData.from_dict, StatusMetaData.__init__. fields_of_family. Qed.

Lemma Curtail_fields data m :
  CurtailMetaData.from_dict data = inr m →
  map fst (CurtailMetaData.col_map m) = map fst (CurtailMetaData.dtypes m) ∧
  map fst (CurtailMetaData.col_map m) = map fst (CurtailMetaData.units m).
Proof. unfold CurtailMetaData.from_dict, CurtailMetaData.__init__. fields_of_family. Qed.

Lemma Asset_fields data m :
  AssetMetaData.from_dict data = inr m →
  map fst (AssetMetaData.col_map m) = map fst (AssetMetaData.dtypes m) ∧
  map fst (AssetMetaData.col_map m) = map fst (AssetMetaData.units m).
Proof. unfold AssetMetaData.from_dict, AssetMetaData.__init__. fields_of_family. Qed.

Lemma Reanalysis_fields data m :
  ReanalysisMetaData.from_dict data = inr m →
  map fst (ReanalysisMetaData.col_map m) = map fst (ReanalysisMetaData.dtypes m) ∧
  map fst (ReanalysisMetaData.col_map m) = map fst (ReanalysisMetaData.units m).
Proof. unfold ReanalysisMetaData.from_dict, ReanalysisMetaData.__init__. fields_of_family. Qed.

Lemma SCADA_fields data s :
  SCADAMetaData.from_dict data = inr s →
  map fst (SCADAMetaData.col_map s) = map fst (SCADAMetaData.dtypes s) ∧
  map fst (SCADAMetaData.col_map s) = map fst (SCADAMetaData.units s).
Proof.
  unfold SCADAMetaData.from_dict. intros Hinit.
  apply from_dict_inr in Hinit as (kwargs & Hinit).
  unfold SCADAMetaData.__init__ in Hinit.
  apply call_init_inr in Hinit as [_ Hinit].
  unfold SCADAMetaData.__attrs_post_init__ in Hinit.
  apply bind_inr in Hinit as (rev & _ & [= <-]). by split.
Qed.

Lemma Forall_set_item {A} (P : string * A → Prop) (acc : list (string * A)) k r :
  Forall P acc → P (k, r) → (∀ k' r', P (k, r') → P (k', r')) →
  Forall P (set_item String.eqb acc k r).
Proof.
  intros Hacc Hkr Hkey. induction Hacc as [|[k' r'] acc Hhead Hacc IH]; cbn [set_item].
  - by apply Forall_singleton.
  - destruct (String.eqb k' k).
    + apply Forall_cons. split; [by apply (Hkey k' r) | done].
    + apply Forall_cons. by split.
Qed.

Lemma convert_items_built (items : list (string * value))
  (acc out : list (string * ReanalysisMetaData.t)) :
  Forall (fun kr => ∃ data, ReanalysisMetaData.from_dict data = inr kr.2) acc →
  convert_items items acc = inr out →
  Forall (fun kr => ∃ data, ReanalysisMetaData.from_dict data = inr kr.2) out.
Proof.
  revert acc. induction items as [|[k v] items IH]; intros acc Hacc Hrun.
  - by injection Hrun as <-.
  - cbn [convert_items] in Hrun. apply bind_inr in Hrun as (r & Hr & Hrun).
    apply (IH _ (Forall_set_item _ acc k r Hacc (ex_intro _ v Hr)
                   (fun _ _ H => H)) Hrun).
Qed.

(** X18. In metadata that has been built, every family, and every reanalysis
    product, has its column map, its dtypes and its units over the same
    fields in the same order. *)
Theorem built_tables_share_their_fields (host : Host) (data : value)
  (p : PlantMetaData.t host) :
  PlantMetaData.from_dict host data = inr p →
  (map fst (SCADAMetaData.col_map (PlantMetaData.scada host p))
     = map fst (SCADAMetaData.dtypes (PlantMetaData.scada host p)) ∧
   map fst (SCADAMetaData.col_map (PlantMetaData.scada host p))
     = map fst (SCADAMetaData.units (PlantMetaData.scada host p))) ∧
  (map fst (MeterMetaData.col_map (PlantMetaData.meter host p))
     = map fst (MeterMetaData.dtypes (PlantMetaData.meter host p)) ∧
   map fst (MeterMetaData.col_map (PlantMetaData.meter host p))
     = map fst (MeterMetaData.units (PlantMetaData.meter host p))) ∧
  (map fst (TowerMetaData.col_map (PlantMetaData.tower host p))
     = map fst (TowerMetaData.dtypes (PlantMetaData.tower host p)) ∧
   map fst (TowerMetaData.col_map (PlantMetaData.tower host p))
     = map fst (TowerMetaData.units (PlantMetaData.tower host p))) ∧
  (map fst (StatusMetaData.col_map (PlantMetaData.status host p))
     = map fst (StatusMetaData.dtypes (PlantMetaData.status host p)) ∧
   map fst (StatusMetaData.col_map (PlantMetaData.status host p))
     = map fst (StatusMetaData.units (PlantMetaData.status host p))) ∧
  (map fst (CurtailMetaData.col_map (PlantMetaData.curtail host p))
     = map fst (CurtailMetaData.dtypes (PlantMetaData.curtail host p)) ∧
   map fst (CurtailMetaData.col_map (PlantMetaData.curtail host p))
     = map fst (CurtailMetaData.units (PlantMetaData.curtail host p))) ∧
  (map fst (AssetMetaData.col_map (PlantMetaData.asset host p))
     = map fst (AssetMetaData.dtypes (PlantMetaData.asset host p)) ∧
   map fst (AssetMetaData.col_map (PlantMetaData.asset host p))
     = map fst (AssetMetaData.units (PlantMetaData.asset host p))) ∧
  Forall (fun kr =>
            map fst (ReanalysisMetaData.col_map kr.2)
              = map fst (ReanalysisMetaData.dtypes kr.2) ∧
            map fst (ReanalysisMetaData.col_map kr.2)
              = map fst (ReanalysisMetaData.units kr.2))
    (PlantMetaData.reanalysis host p).
Proof.
  unfold PlantMetaData.from_dict. intros Hp.
  apply from_dict_inr in Hp as (kwargs & Hp).
  apply PlantMetaData_init_parts in Hp
    as (Hscada & Hmeter & Htower & Hstatus & Hcurtail & Hasset & Hproducts).
  split; [by apply (SCADA_fields _ _ Hscada) |].
  split; [by apply (Meter_fields _ _ Hmeter) |].
  split; [by apply (Tower_fields _ _ Htower) |].
  split; [by apply (Status_fields _ _ Hstatus) |].
  split; [by apply (Curtail_fields _ _ Hcurtail) |].
  split; [by apply (Asset_fields _ _ Hasset) |].
  assert (Hbuilt : Forall (fun kr => ∃ data', ReanalysisMetaData.from_dict data' = inr kr.2)
                     (PlantMetaData.reanalysis host p)).
  { destruct (kwarg kwargs "reanalysis" (VDict [("product", VDict [])]));
      try discriminate Hproducts.
    by apply (convert_items_built _ [] _ (Forall_nil_2 _) Hproducts). }
  eapply Forall_impl; [exact Hbuilt |].
  intros [k r] [data' Hr]. by apply (Reanalysis_fields data').
Qed.

Lemma built_tables_share_their_fields_witness :
  ∃ p : PlantMetaData.t (example_host []),
    PlantMetaData.from_dict (example_host [])
      (VDict [("reanalysis", VDict [("era5", VDict [])])]) = inr p ∧
    map fst (StatusMetaData.col_map (PlantMetaData.status (example_host []) p))
      = map fst (StatusMetaData.dtypes (PlantMetaData.status (example_host []) p)) ∧
    Forall (fun kr =>
              map fst (ReanalysisMetaData.col_map kr.2)
                = map fst (ReanalysisMetaData.dtypes kr.2) ∧
              map fst (ReanalysisMetaData.col_map kr.2)
                = map fst (ReanalysisMetaData.units kr.2))
      (PlantMetaData.reanalysis (example_host []) p).
Proof.
  destruct (PlantMetaData.from_dict (example_host [])
              (VDict [("reanalysis", VDict [("era5", VDict [])])]))
    as [e|p] eqn:Hp.
  { vm_compute in Hp. discriminate Hp. }
  exists p. split; [reflexivity |].
  destruct (built_tables_share_their_fields (example_host []) _ p Hp)
    as (_ & _ & _ & [Hstatus _] & _ & _ & Hproducts).
  split; [exact Hstatus | exact Hproducts].
Defined.

(** X19. A JSON file and a YAML file that hold the same document are loaded into
    the same metadata, the one [from_dict] builds from the document, and a
    mapping is loaded as [from_dict] builds it. *)
Theorem load_does_not_depend_on_the_format (host : Host) (json yaml : Path)
  (document : value) :
  suffix host json = ".json" →
  suffix host yaml ∈ [".yaml"; ".yml"] →
  is_file host (resolve host json) = true →
  is_file host (resolve host yaml) = true →
  json_load host (resolve host json) = inr document →
  yaml_safe_load host (resolve host yaml) = inr document →
  PlantMetaData.load host (PlantMetaData.SrcPath host json)
    = PlantMetaData.from_dict host document ∧
  PlantMetaData.load host (PlantMetaData.SrcPath host yaml)
    = PlantMetaData.from_dict host document ∧
  ∀ d, document = VDict d →
       PlantMetaData.load host (PlantMetaData.SrcDict host d)
       = PlantMetaData.from_dict host document.
Proof.
  intros Hjson Hyaml Hfile_json Hfile_yaml Hread_json Hread_yaml.
  split; [|split].
  - unfold PlantMetaData.load, PlantMetaData.load_path, PlantMetaData.from_json.
    by rewrite Hjson, Hfile_json, Hread_json.
  - unfold PlantMetaData.load, PlantMetaData.load_path, PlantMetaData.from_yaml.
    destruct (String.eqb_spec (suffix host yaml) ".json") as [Heq|_].
    { rewrite Heq in Hyaml.
      apply elem_of_cons in Hyaml as [Hbad|Hyaml]; [discriminate Hbad |].
      apply list_elem_of_singleton in Hyaml. discriminate Hyaml. }
    rewrite bool_decide_true by done. by rewrite Hfile_yaml, Hread_yaml.
  - by intros d ->.
Qed.

Lemma load_does_not_depend_on_the_format_witness :
  PlantMetaData.load
    (example_host [("plant.json", VDict [("capacity", VBool true)]);
                   ("plant.yml", VDict [("capacity", VBool true)])])
    (PlantMetaData.SrcPath _ (mkPath "plant.json"))
  = PlantMetaData.load
      (example_host [("plant.json", VDict [("capacity", VBool true)]);
                     ("plant.yml", VDict [("capacity", VBool true)])])
      (PlantMetaData.SrcPath _ (mkPath "plant.yml")).
Proof.
  assert (Hyml : name_suffix "plant.yml" ∈ [".yaml"; ".yml"]).
  { apply (bool_decide_unpack _). vm_compute. exact I. }
  destruct (load_does_not_depend_on_the_format
              (example_host [("plant.json", VDict [("capacity", VBool true)]);
                             ("plant.yml", VDict [("capacity", VBool true)])])
              (mkPath "plant.json") (mkPath "plant.yml")
              (VDict [("capacity", VBool true)])
              eq_refl Hyml eq_refl eq_refl eq_refl eq_refl)
    as (Hjson & Hyaml & _).
  exact (eq_trans Hjson (eq_sym Hyaml)).
Defined.

Lemma defaulted_string_valued (defaults : list (string * string))
  (kwargs : list (string * value)) :
  string_valued kwargs → string_valued (defaulted defaults kwargs).
Proof.
  intros Hvals k v Hin. unfold defaulted in Hin.
  apply list_elem_of_In, in_map_iff in Hin as ([f dflt] & [= <- <-] & _).
  by apply kwarg_string.
Qed.

Lemma last_key_Some_stays (items : list (string * value)) w k :
  is_Some (last_key items w (Some k)).
Proof.
  revert k. induction items as [|[k0 v0] items IH]; intros k; [by eexists |].
  cbn [last_key]. destruct (is_str w v0); apply IH.
Qed.

Lemma last_key_found (items : list (string * value)) w acc k :
  (k, VStr w) ∈ items → is_Some (last_key items w acc).
Proof.
  revert acc. induction items as [|[k0 v0] items IH]; intros acc Hin.
  - by apply elem_of_nil in Hin.
  - cbn [last_key]. apply elem_of_cons in Hin as [[= <- <-]|Hin]; [|by apply IH].
    cbn [is_str]. rewrite String.eqb_refl. apply last_key_Some_stays.
Qed.

(** X13. For SCADA metadata built from keyword arguments that are all
    parameters of the constructor and whose values are strings, the
    reversed map sends a column name only to a field configured with that
    name, and it has an entry for every configured column name. *)
Theorem col_map_reversed_sound_and_complete (kwargs : list (string * value)) :
  unexpected_keyword SCADAMetaData.attrs kwargs = None →
  string_valued kwargs →
  ∃ s,
    SCADAMetaData.__init__ kwargs = inr s ∧
    (∀ v k, py_get (SCADAMetaData.col_map_reversed s) (VStr v) = Some k →
            get (SCADAMetaData.col_map s) k = Some (VStr v)) ∧
    (∀ k v, get (SCADAMetaData.col_map s) k = Some (VStr v) →
            is_Some (py_get (SCADAMetaData.col_map_reversed s) (VStr v))).
Proof.
  intros Hexp Hvals.
  unfold SCADAMetaData.__init__. rewrite (call_init_expected _ _ _ Hexp).
  unfold SCADAMetaData.__attrs_post_init__.
  cbn [SCADAMetaData.time SCADAMetaData.asset_id SCADAMetaData.WTUR_W
       SCADAMetaData.WMET_HorWdSpd SCADAMetaData.WMET_HorWdDir
       SCADAMetaData.WTUR_TurSt SCADAMetaData.WROT_BlPthAngVal
       SCADAMetaData.WMET_EnvTmp SCADAMetaData.WTUR_SupWh
       SCADAMetaData.frequency SCADAMetaData.name].
  set (cm := defaulted SCADAMetaData.column_defaults kwargs
             ++ [("WTUR_SupWh", VStr "WTUR_SupWh")]).
  change [ ("time", kwarg kwargs "time" (VStr "time"));
           ("asset_id", kwarg kwargs "asset_id" (VStr "asset_id"));
           ("WTUR_W", kwarg kwargs "WTUR_W" (VStr "WTUR_W"));
           ("WMET_HorWdSpd", kwarg kwargs "WMET_HorWdSpd" (VStr "WMET_HorWdSpd"));
           ("WMET_HorWdDir", kwarg kwargs "WMET_HorWdDir" (VStr "WMET_HorWdDir"));
           ("WTUR_TurSt", kwarg kwargs "WTUR_TurSt" (VStr "WTUR_TurSt"));
           ("WROT_BlPthAngVal",
             kwarg kwargs "WROT_BlPthAngVal" (VStr "WROT_BlPthAngVal"));
           ("WMET_EnvTmp", kwarg kwargs "WMET_EnvTmp" (VStr "WMET_EnvTmp"));
           ("WTUR_SupWh", VStr "WTUR_SupWh") ] with cm.
  assert (Hcm : string_valued cm).
  { intros k v Hin. unfold cm in Hin. apply elem_of_app in Hin as [Hin|Hin].
    - exact (defaulted_string_valued SCADAMetaData.column_defaults kwargs Hvals k v Hin).
    - apply list_elem_of_singleton in Hin as [= _ ->]. eauto. }
  assert (Hkeys : NoDup (map fst cm)).
  { apply (bool_decide_unpack _). vm_compute. exact I. }
  destruct (reverse_items_strings cm [] Hcm) as (rev & -> & Hget).
  { intros k v Hin. by apply elem_of_nil in Hin. }
  cbn [bind ret]. eexists. split; [reflexivity |].
  cbn [SCADAMetaData.col_map SCADAMetaData.col_map_reversed]. split.
  - intros v k Hk. rewrite Hget in Hk. cbn [py_get] in Hk.
    apply last_key_spec in Hk as [(pre & post & Heq & _)|[[=] _]].
    apply get_NoDup; [done |]. rewrite Heq. apply elem_of_app. right.
    apply list_elem_of_here.
  - intros k v Hk. rewrite Hget. apply (last_key_found cm v _ k).
    by apply get_Some_elem.
Qed.

Lemma col_map_reversed_sound_and_complete_witness :
  unexpected_keyword SCADAMetaData.attrs [("WMET_EnvTmp", VStr "WTUR_SupWh")] = None ∧
  string_valued [("WMET_EnvTmp", VStr "WTUR_SupWh")] ∧
  ∃ s,
    SCADAMetaData.__init__ [("WMET_EnvTmp", VStr "WTUR_SupWh")] = inr s ∧
    py_get (SCADAMetaData.col_map_reversed s) (VStr "WTUR_SupWh") = Some "WTUR_SupWh" ∧
    get (SCADAMetaData.col_map s) "WTUR_SupWh" = Some (VStr "WTUR_SupWh").
Proof.
  assert (Hvals : string_valued [("WMET_EnvTmp", VStr "WTUR_SupWh")]).
  { intros k v Hin. apply list_elem_of_singleton in Hin as [= _ ->]. eauto. }
  split; [reflexivity |]. split; [exact Hvals |].
  destruct (col_map_reversed_sound_and_complete
              [("WMET_EnvTmp", VStr "WTUR_SupWh")] eq_refl Hvals)
    as (s & Hs & Hsound & _).
  exists s. split; [exact Hs |].
  assert (Hrev : py_get (SCADAMetaData.col_map_reversed s) (VStr "WTUR_SupWh")
                 = Some "WTUR_SupWh").
  { vm_compute in Hs. injection Hs as <-. reflexivity. }
  split; [exact Hrev | exact (Hsound _ _ Hrev)].
Defined.
